(** * The session-resilient connection workflow of the SDK dashboard

    A shallow embedding of

    - [lib/codesandbox.ts]: [createSDK], [connectToBrowserSandbox] and the
      two closures it hands to the browser SDK ([getSession] and the default
      [onFocusChange]);
    - [hooks/useCodeSandbox.ts]: the hook's [connectToSandbox],
      [disconnectFromSandbox] and the [handleConnectionError] effect;
    - [main.tsx]: the two global listeners that filter transport errors.

    The remote platform and the browser SDK are not part of the repository.
    They are a parameter of the development ([Platform]): every remote call
    asks the platform for its outcome, given the history of calls so far,
    and the transport is a strategy over the callbacks it was handed. *)

From Stdlib Require Import String Ascii List Bool Arith ZArith Lia.
Import ListNotations.
Local Open Scope string_scope.
Local Open Scope list_scope.

(** ** JavaScript values *)

(** [String.prototype.includes]: [needle] occurs somewhere in [haystack]. *)
Fixpoint includes (needle haystack : string) : bool :=
  String.prefix needle haystack ||
  match haystack with
  | EmptyString => false
  | String _ rest => includes needle rest
  end.

(** What a rejected promise or a [throw] can carry. The code looks at two
    things only: whether the value is an [Error] instance, and its
    [message] property. *)
Inductive JsValue : Type :=
| JsError (message : string)           (* an instance of Error *)
| JsObject (message : option string)   (* some other object *)
| JsNullish.                           (* null or undefined *)

(** [v?.message?.includes(needle)], read as a condition. *)
Definition messageIncludes (needle : string) (v : JsValue) : bool :=
  match v with
  | JsError message => includes needle message
  | JsObject (Some message) => includes needle message
  | JsObject None => false
  | JsNullish => false
  end.

(** How an awaited promise settles. *)
Inductive Settled (A : Type) : Type :=
| Fulfilled (a : A)
| Rejected (reason : JsValue).
Arguments Fulfilled {A} a.
Arguments Rejected {A} reason.

(** ** Data of the application *)

(** [new CodeSandbox(apiKey)]. *)
Record CodeSandbox : Type := { apiKey : string }.

(** An entry of the sandbox listing, as the caller passes it to the hook. *)
Record SandboxInfo : Type := {
  info_id : string;
  info_title : option string;
  info_privacy : option string;
  info_createdAt : option string;
  info_updatedAt : option string;
  info_tags : option (list string)
}.

(** The object [sdk.sandboxes.resume] resolves to. The five properties
    after [id] are the ones the hook assigns on it. *)
Record Sandbox : Type := {
  id : string;
  title : option string;
  privacy : option string;
  createdAt : option string;
  updatedAt : option string;
  tags : option (list string)
}.

Record Session : Type := { session_sandbox : string; session_token : nat }.

Record SandboxClient : Type := { client_handle : nat }.

Record SandboxWithClient : Type := {
  sandbox : option Sandbox;
  client : option SandboxClient;
  isConnecting : bool
}.

(** ** The host environment *)

(** [document.visibilityState]. *)
Inductive VisibilityState : Type := visible | hidden.

Definition isVisible (v : VisibilityState) : bool :=
  match v with visible => true | hidden => false end.

(** A listener on the document's 'visibilitychange' event: the closure
    [onVisibilityChange] (closures are told apart by the order of their
    creation) and the [notify] callback it closes over. *)
Record Listener : Type := { closure : nat; notifies : nat }.

(** The function a registration returns. *)
Inductive Unsubscribe : Type :=
| RemoveListener (closure : nat)           (* of the default onFocusChange *)
| CallerUnsubscribe (hook notify : nat).   (* of a caller-supplied one *)

(** The two places that resume a sandbox and create a session. *)
Inductive CallSite : Type := Initial | Reconnect.

Inductive Event : Type :=
| ResumeCalled (site : CallSite) (sandboxId : string)
| ResumeSettled (site : CallSite) (r : Settled Sandbox)
| CreateSessionCalled (site : CallSite) (sb : Sandbox)
| CreateSessionSettled (site : CallSite) (r : Settled Session)
| OpenCalled (session : Session)
| OpenSettled (r : Settled SandboxClient)
| InitStatus (callback : nat) (event : string)
| FocusChangeCalled (notify : nat) (returned : Unsubscribe)
| CallerUnsubscribed (hook notify : nat)
| Notified (notify : nat) (isVisible : bool)
| DisconnectCalled (c : SandboxClient)
| DisconnectSettled (c : SandboxClient) (thrown : option JsValue)
| ConnectionErrorEvent (error : JsValue).

(** The state the code reads and writes: the two [useState] cells of the
    hook, the document, and the history of calls (oldest first). *)
Record Env : Type := {
  activeSandbox : option SandboxWithClient;
  connectionError : option string;
  visibilityState : VisibilityState;
  listeners : list Listener;
  nextClosure : nat;
  history : list Event
}.

Definition log (e : Event) (env : Env) : Env :=
  {| activeSandbox := activeSandbox env;
     connectionError := connectionError env;
     visibilityState := visibilityState env;
     listeners := listeners env;
     nextClosure := nextClosure env;
     history := history env ++ [e] |}.

Definition withActiveSandbox (a : option SandboxWithClient) (env : Env) : Env :=
  {| activeSandbox := a;
     connectionError := connectionError env;
     visibilityState := visibilityState env;
     listeners := listeners env;
     nextClosure := nextClosure env;
     history := history env |}.

Definition withConnectionError (m : option string) (env : Env) : Env :=
  {| activeSandbox := activeSandbox env;
     connectionError := m;
     visibilityState := visibilityState env;
     listeners := listeners env;
     nextClosure := nextClosure env;
     history := history env |}.

Definition withVisibility (v : VisibilityState) (env : Env) : Env :=
  {| activeSandbox := activeSandbox env;
     connectionError := connectionError env;
     visibilityState := v;
     listeners := listeners env;
     nextClosure := nextClosure env;
     history := history env |}.

(** [document.addEventListener('visibilitychange', f)] for a closure [f]
    created just now. *)
Definition addEventListener (notify : nat) (env : Env) : nat * Env :=
  (nextClosure env,
   {| activeSandbox := activeSandbox env;
      connectionError := connectionError env;
      visibilityState := visibilityState env;
      listeners := listeners env ++ [{| closure := nextClosure env; notifies := notify |}];
      nextClosure := S (nextClosure env);
      history := history env |}).

(** [document.removeEventListener('visibilitychange', f)]. *)
Definition removeEventListener (f : nat) (env : Env) : Env :=
  {| activeSandbox := activeSandbox env;
     connectionError := connectionError env;
     visibilityState := visibilityState env;
     listeners := filter (fun l => negb (Nat.eqb (closure l) f)) (listeners env);
     nextClosure := nextClosure env;
     history := history env |}.

(** ** Asynchronous code: state passing with rejection

    An [async] function is a state transformer that settles. The state
    survives a rejection, as it does in JavaScript. *)
Definition Async (A : Type) : Type := Env -> Settled A * Env.

Definition ret {A} (a : A) : Async A := fun env => (Fulfilled a, env).

Definition throw {A} (e : JsValue) : Async A := fun env => (Rejected e, env).

Definition bind {A B} (c : Async A) (k : A -> Async B) : Async B :=
  fun env =>
    match c env with
    | (Fulfilled a, env') => k a env'
    | (Rejected e, env') => (Rejected e, env')
    end.

Definition tryCatch {A} (c : Async A) (handler : JsValue -> Async A) : Async A :=
  fun env =>
    match c env with
    | (Fulfilled a, env') => (Fulfilled a, env')
    | (Rejected e, env') => handler e env'
    end.

Definition perform (f : Env -> Env) : Async unit := fun env => (Fulfilled tt, f env).

Declare Scope async_scope.
Delimit Scope async_scope with async.
Notation "x <- c ;; k" := (bind c (fun x => k))
  (at level 61, c at next level, right associativity) : async_scope.
Notation "c ;;; k" := (bind c (fun _ => k))
  (at level 61, right associativity) : async_scope.
Local Open Scope async_scope.

(** ** The external collaborators

    What the browser SDK's [connectToSandbox] does between its call and its
    settling is not in the repository. It can act on the application only
    through the callbacks of the options object, so it is a strategy over
    them: ask [getSession] for a session and go on with the outcome, call
    [onFocusChange] with a [notify] callback and keep the function it
    returns, call such a function, report an init status, or settle. *)
Inductive Transport (R : Type) : Type :=
| Settle (r : R)
| AskSession (sandboxId : string) (k : Settled Session -> Transport R)
| RegisterFocus (notify : nat) (k : Unsubscribe -> Transport R)
| Release (u : Unsubscribe) (k : Transport R)
| ReportInit (event : string) (k : Transport R).
Arguments Settle {R} r.
Arguments AskSession {R} sandboxId k.
Arguments RegisterFocus {R} notify k.
Arguments Release {R} u k.
Arguments ReportInit {R} event k.

(** The remote platform and the SDK in front of it. Each answer may depend
    on everything that happened before it. *)
Record Platform : Type := {
  (* sdk.sandboxes.resume(id) *)
  sandboxes_resume : list Event -> CodeSandbox -> string -> Settled Sandbox;
  (* sandbox.createSession() *)
  sandbox_createSession : list Event -> Sandbox -> Settled Session;
  (* connectToSandbox of '@codesandbox/sdk/browser' *)
  browser_connectToSandbox : list Event -> Session -> Transport (Settled SandboxClient);
  (* client.disconnect(): the registrations it releases, and what it throws *)
  client_disconnect : list Event -> SandboxClient -> list Unsubscribe * option JsValue
}.

(** The function a registration returned, called. *)
Definition unsubscribe (u : Unsubscribe) (env : Env) : Env :=
  match u with
  | RemoveListener f => removeEventListener f env
  | CallerUnsubscribe hook notify => log (CallerUnsubscribed hook notify) env
  end.

(** The options object [connectToBrowserSandbox] builds for the SDK. *)
Record SdkOptions : Type := {
  session : Session;
  getSession : string -> Async Session;
  onFocusChange : nat -> Env -> Unsubscribe * Env;
  initStatusCb : option nat
}.

(** The options [connectToBrowserSandbox] takes from its caller; a caller's
    callbacks are opaque, and known by a number. *)
Record ConnectOptions : Type := {
  opt_initStatusCb : option nat;
  opt_onFocusChange : option nat
}.

Fixpoint runTransport {R} (o : SdkOptions) (t : Transport R) (env : Env) : R * Env :=
  match t with
  | Settle r => (r, env)
  | AskSession sandboxId k =>
      let (r, env') := getSession o sandboxId env in runTransport o (k r) env'
  | RegisterFocus notify k =>
      let (u, env') := onFocusChange o notify env in
      runTransport o (k u) (log (FocusChangeCalled notify u) env')
  | Release u k => runTransport o k (unsubscribe u env)
  | ReportInit event k =>
      runTransport o k
        (match initStatusCb o with
         | Some cb => log (InitStatus cb event) env
         | None => env
         end)
  end.

(** The document fires 'visibilitychange': every registered closure runs
    [notify(document.visibilityState === 'visible')]. *)
Definition onVisibilityChange (l : Listener) (env : Env) : Env :=
  log (Notified (notifies l) (isVisible (visibilityState env))) env.

Definition fireVisibilityChange (env : Env) : Env :=
  fold_left (fun e l => onVisibilityChange l e) (listeners env) env.

(** The page goes to the foreground or to the background. *)
Definition changeVisibility (v : VisibilityState) (env : Env) : Env :=
  fireVisibilityChange (withVisibility v env).

Section Application.

Variable P : Platform.

(** *** lib/codesandbox.ts *)

Definition createSDK (key : string) : CodeSandbox := {| apiKey := key |}.

Definition resume (site : CallSite) (sdk : CodeSandbox) (sandboxId : string)
  : Async Sandbox :=
  fun env =>
    let env1 := log (ResumeCalled site sandboxId) env in
    let r := sandboxes_resume P (history env1) sdk sandboxId in
    (r, log (ResumeSettled site r) env1).

Definition createSession (site : CallSite) (sb : Sandbox) : Async Session :=
  fun env =>
    let env1 := log (CreateSessionCalled site sb) env in
    let r := sandbox_createSession P (history env1) sb in
    (r, log (CreateSessionSettled site r) env1).

(** The [getSession] closure of [connectToBrowserSandbox]. *)
Definition getSession_closure (sdk : CodeSandbox) (sandboxId : string)
  : Async Session :=
  tryCatch
    (reconnectSandbox <- resume Reconnect sdk sandboxId ;;
     newSession <- createSession Reconnect reconnectSandbox ;;
     ret newSession)
    (fun error => throw error).

(** The default [onFocusChange] closure of [connectToBrowserSandbox]. *)
Definition default_onFocusChange (notify : nat) (env : Env) : Unsubscribe * Env :=
  let (f, env') := addEventListener notify env in
  (RemoveListener f, env').

(** A caller-supplied [onFocusChange]: opaque, it returns its own
    unsubscribe function. *)
Definition caller_onFocusChange (hook notify : nat) (env : Env) : Unsubscribe * Env :=
  (CallerUnsubscribe hook notify, env).

(** [options?.onFocusChange || ((notify) => ...)]. *)
Definition chosen_onFocusChange (options : option ConnectOptions)
  : nat -> Env -> Unsubscribe * Env :=
  match options with
  | Some {| opt_onFocusChange := Some hook |} => caller_onFocusChange hook
  | _ => default_onFocusChange
  end.

(** [options?.initStatusCb]. *)
Definition chosen_initStatusCb (options : option ConnectOptions) : option nat :=
  match options with
  | Some o => opt_initStatusCb o
  | None => None
  end.

Definition sdkOptions (sdk : CodeSandbox) (initialSession : Session)
    (options : option ConnectOptions) : SdkOptions :=
  {| session := initialSession;
     getSession := getSession_closure sdk;
     onFocusChange := chosen_onFocusChange options;
     initStatusCb := chosen_initStatusCb options |}.

(** The SDK's [connectToSandbox], called with the options object. *)
Definition openClient (o : SdkOptions) : Async SandboxClient :=
  fun env =>
    let env1 := log (OpenCalled (session o)) env in
    let (r, env2) :=
      runTransport o (browser_connectToSandbox P (history env1) (session o)) env1 in
    (r, log (OpenSettled r) env2).

Definition connectToBrowserSandbox (sdk : CodeSandbox) (sandboxId : string)
    (options : option ConnectOptions) : Async (SandboxClient * Sandbox) :=
  sandbox <- resume Initial sdk sandboxId ;;
  initialSession <- createSession Initial sandbox ;;
  client <- openClient (sdkOptions sdk initialSession options) ;;
  ret (client, sandbox).

(** [client.disconnect()]. *)
Definition disconnect (c : SandboxClient) : Async unit :=
  fun env =>
    let env1 := log (DisconnectCalled c) env in
    let (released, thrown) := client_disconnect P (history env1) c in
    let env2 := fold_left (fun e u => unsubscribe u e) released env1 in
    (match thrown with
     | Some error => Rejected error
     | None => Fulfilled tt
     end,
     log (DisconnectSettled c thrown) env2).

(** *** hooks/useCodeSandbox.ts *)

(** [const sdk = apiKey ? createSDK(apiKey) : null]. *)
Definition useSdk (key : option string) : option CodeSandbox :=
  match key with
  | None => None
  | Some EmptyString => None
  | Some k => Some (createSDK k)
  end.

Definition setActiveSandbox (a : option SandboxWithClient) : Async unit :=
  perform (withActiveSandbox a).

Definition setConnectionError (m : option string) : Async unit :=
  perform (withConnectionError m).

(** The five assignments on [sandboxWithMetadata]. *)
Definition withMetadata (sb : Sandbox) (sandboxInfo : SandboxInfo) : Sandbox :=
  {| id := id sb;
     title := info_title sandboxInfo;
     privacy := info_privacy sandboxInfo;
     createdAt := info_createdAt sandboxInfo;
     updatedAt := info_updatedAt sandboxInfo;
     tags := info_tags sandboxInfo |}.

(** The message the [catch] of [connectToSandbox] computes. *)
Definition connectErrorMessage (error : JsValue) : string :=
  match error with
  | JsError message =>
      if includes "WebSocket" message then
        "WebSocket connection failed. Please check your internet connection and try again."
      else if includes "session" message then
        "Failed to create sandbox session. The sandbox may be starting up - try again in a moment."
      else ("Connection failed: " ++ message)%string
  | _ => "Failed to connect to sandbox"
  end.

(** The options the hook passes: its [initStatusCb] (callback 0, it only
    writes to the console), and no [onFocusChange]. *)
Definition hookOptions : option ConnectOptions :=
  Some {| opt_initStatusCb := Some 0; opt_onFocusChange := None |}.

(** The first value [connectToSandbox] gives to [setActiveSandbox]. *)
Definition connecting : SandboxWithClient :=
  {| sandbox := None; client := None; isConnecting := true |}.

(** The branch the [catch] of [connectToSandbox] takes, as the coarse
    class of the error it reports. *)
Inductive ErrorClass : Type := TransportError | SessionError | UnknownError.

Definition classify (error : JsValue) : ErrorClass :=
  match error with
  | JsError message =>
      if includes "WebSocket" message then TransportError
      else if includes "session" message then SessionError
      else UnknownError
  | _ => UnknownError
  end.

(** The hook's [connectToSandbox]; [sdk] is the one of the render that
    created the callback. [None] is [undefined]. *)
Definition connectToSandbox (sdk : option CodeSandbox)
    (sandboxInfo : option SandboxInfo) : Async (option SandboxClient) :=
  match sandboxInfo, sdk with
  | Some info, Some sdk =>
      setConnectionError None ;;;
      setActiveSandbox (Some connecting) ;;;
      tryCatch
        (r <- connectToBrowserSandbox sdk (info_id info) hookOptions ;;
         let (client, sandbox) := r in
         let sandboxWithMetadata := withMetadata sandbox info in
         setActiveSandbox
           (Some {| sandbox := Some sandboxWithMetadata;
                    client := Some client;
                    isConnecting := false |}) ;;;
         ret (Some client))
        (fun error =>
           setConnectionError (Some (connectErrorMessage error)) ;;;
           setActiveSandbox None ;;;
           throw error)
  | _, _ => ret None
  end.

(** The hook's [disconnectFromSandbox]; [captured] is the [activeSandbox]
    of the render that created the callback. *)
Definition disconnectFromSandbox (captured : option SandboxWithClient)
  : Async unit :=
  match captured with
  | Some {| client := Some c |} =>
      tryCatch (disconnect c) (fun _ => ret tt)
  | _ => ret tt
  end ;;;
  setActiveSandbox None ;;;
  setConnectionError None.

(** The message [handleConnectionError] sets. *)
Definition connectionLostMessage : string :=
  "Connection lost due to WebSocket error. Please try reconnecting.".

(** The effect's [handleConnectionError]; [captured] as above. *)
Definition handleConnectionError (captured : option SandboxWithClient)
  : Async unit :=
  match captured with
  | Some a =>
      setConnectionError (Some connectionLostMessage) ;;;
      match client a with
      | Some c => tryCatch (disconnect c) (fun _ => ret tt)
      | None => ret tt
      end ;;;
      setActiveSandbox None
  | None => ret tt
  end.

(** *** main.tsx *)

(** The condition of both global listeners. *)
Definition isSdkSocketError (v : JsValue) : bool :=
  messageIncludes "DataView" v || messageIncludes "Offset is outside the bounds" v.

(** [window.dispatchEvent(new CustomEvent('codesandbox-connection-error'))]:
    the listener is the hook's, registered by the effect of the last
    render. *)
Definition dispatchConnectionError (error : JsValue) : Async unit :=
  fun env =>
    let env1 := log (ConnectionErrorEvent error) env in
    handleConnectionError (activeSandbox env1) env1.

(** What a global listener leaves behind: whether it called
    [event.preventDefault()]. *)
Definition onUnhandledRejection (reason : JsValue) (env : Env) : bool * Env :=
  if isSdkSocketError reason
  then (true, snd (dispatchConnectionError reason env))
  else (false, env).

Definition onError (error : JsValue) (env : Env) : bool * Env :=
  if isSdkSocketError error
  then (true, snd (dispatchConnectionError error env))
  else (false, env).

End Application.

(** ** Reading a history *)

Definition isResumeCall (site : CallSite) (e : Event) : bool :=
  match e, site with
  | ResumeCalled Initial _, Initial => true
  | ResumeCalled Reconnect _, Reconnect => true
  | _, _ => false
  end.

Definition isFulfilledResume (site : CallSite) (e : Event) : bool :=
  match e, site with
  | ResumeSettled Initial (Fulfilled _), Initial => true
  | ResumeSettled Reconnect (Fulfilled _), Reconnect => true
  | _, _ => false
  end.

Definition isCreateSessionCall (site : CallSite) (e : Event) : bool :=
  match e, site with
  | CreateSessionCalled Initial _, Initial => true
  | CreateSessionCalled Reconnect _, Reconnect => true
  | _, _ => false
  end.

Definition isOpenCall (e : Event) : bool :=
  match e with OpenCalled _ => true | _ => false end.

Definition isDisconnectCall (e : Event) : bool :=
  match e with DisconnectCalled _ => true | _ => false end.

(** How many events of a kind a history holds. *)
Definition count (kind : Event -> bool) (h : list Event) : nat :=
  length (filter kind h).

(** The events that come from the transport using its callbacks: sessions
    it asks for (the [Reconnect] site), registrations, init reports. *)
Definition byTransport (e : Event) : bool :=
  match e with
  | ResumeCalled Reconnect _ => true
  | ResumeSettled Reconnect _ => true
  | CreateSessionCalled Reconnect _ => true
  | CreateSessionSettled Reconnect _ => true
  | InitStatus _ _ => true
  | FocusChangeCalled _ _ => true
  | CallerUnsubscribed _ _ => true
  | _ => false
  end.

(** The sessions among a list of outcomes. *)
Fixpoint fulfilled {A} (rs : list (Settled A)) : list A :=
  match rs with
  | [] => []
  | Fulfilled a :: rest => a :: fulfilled rest
  | Rejected _ :: rest => fulfilled rest
  end.

(** The platform never answers two session creations, made at two different
    moments, with the same session. *)
Definition neverReissues (P : Platform) : Prop :=
  forall h1 h2 sb1 sb2 s,
    sandbox_createSession P h1 sb1 = Fulfilled s ->
    sandbox_createSession P h2 sb2 = Fulfilled s ->
    length h1 = length h2.

(** Closures are numbered in the order of their creation, so a registered
    one has a number below the next. *)
Definition wellFormed (env : Env) : Prop :=
  Forall (fun l => closure l < nextClosure env) (listeners env).

(** The events of an attempt up to the moment the platform is asked for the
    initial session. *)
Definition createSessionMoment (sandboxId : string) (sb : Sandbox) : list Event :=
  [ResumeCalled Initial sandboxId; ResumeSettled Initial (Fulfilled sb);
   CreateSessionCalled Initial sb].

(** The events of an attempt that reached the transport, up to the call of
    the SDK's [connectToSandbox]. *)
Definition connectPrefix (sandboxId : string) (sb : Sandbox) (s : Session)
  : list Event :=
  [ResumeCalled Initial sandboxId; ResumeSettled Initial (Fulfilled sb);
   CreateSessionCalled Initial sb; CreateSessionSettled Initial (Fulfilled s);
   OpenCalled s].

(** The three shapes of an attempt: it stops at the resume, at the session
    creation, or it reaches the transport. Each step asks the platform at
    the moment it is made. *)
Inductive Attempt (P : Platform) (sdk : CodeSandbox) (sandboxId : string)
    (options : option ConnectOptions) (env : Env)
  : Settled (SandboxClient * Sandbox) -> Env -> Prop :=
| StoppedAtResume e env' :
    sandboxes_resume P (history env ++ [ResumeCalled Initial sandboxId]) sdk sandboxId
      = Rejected e ->
    history env' = history env ++
      [ResumeCalled Initial sandboxId; ResumeSettled Initial (Rejected e)] ->
    listeners env' = listeners env ->
    nextClosure env' = nextClosure env ->
    Attempt P sdk sandboxId options env (Rejected e) env'
| StoppedAtSession sb e env' :
    sandboxes_resume P (history env ++ [ResumeCalled Initial sandboxId]) sdk sandboxId
      = Fulfilled sb ->
    sandbox_createSession P (history env ++ createSessionMoment sandboxId sb) sb
      = Rejected e ->
    history env' = history env ++
      [ResumeCalled Initial sandboxId; ResumeSettled Initial (Fulfilled sb);
       CreateSessionCalled Initial sb; CreateSessionSettled Initial (Rejected e)] ->
    listeners env' = listeners env ->
    nextClosure env' = nextClosure env ->
    Attempt P sdk sandboxId options env (Rejected e) env'
| ReachedTransport sb s T rc envOpen envDone env' :
    sandboxes_resume P (history env ++ [ResumeCalled Initial sandboxId]) sdk sandboxId
      = Fulfilled sb ->
    sandbox_createSession P (history env ++ createSessionMoment sandboxId sb) sb
      = Fulfilled s ->
    history envOpen = history env ++ connectPrefix sandboxId sb s ->
    listeners envOpen = listeners env ->
    nextClosure envOpen = nextClosure env ->
    runTransport (sdkOptions P sdk s options)
      (browser_connectToSandbox P (history envOpen) s) envOpen = (rc, envDone) ->
    history env' = history env ++ connectPrefix sandboxId sb s ++ T ++ [OpenSettled rc] ->
    forallb byTransport T = true ->
    listeners env' = listeners envDone ->
    nextClosure env' = nextClosure envDone ->
    Attempt P sdk sandboxId options env
      (match rc with
       | Fulfilled c => Fulfilled (c, sb)
       | Rejected e => Rejected e
       end) env'.

(** The reason an event carries, when the event is a remote step that
    rejected. *)
Definition rejectionOf (ev : Event) : option JsValue :=
  match ev with
  | ResumeSettled _ (Rejected e) => Some e
  | CreateSessionSettled _ (Rejected e) => Some e
  | OpenSettled (Rejected e) => Some e
  | _ => None
  end.

(** The [message] property of a value, when it has one. *)
Definition messageOf (v : JsValue) : option string :=
  match v with
  | JsError message => Some message
  | JsObject message => message
  | JsNullish => None
  end.

(** [needle] occurs in [haystack]. *)
Definition substring (needle haystack : string) : Prop :=
  exists pre post, haystack = (pre ++ needle ++ post)%string.

(** The platform answered a session creation, made when the history held
    [n] events, with the session [s]. *)
Definition answeredAt (P : Platform) (n : nat) (s : Session) : Prop :=
  exists h sb, length h = n /\ sandbox_createSession P h sb = Fulfilled s.

(** The session [s] comes out of a creation made between two histories:
    the later one holds the moment [h], past the earlier one, at which the
    platform was asked, followed by the settling with [s]; and [s] is what
    the platform answers at [h]. *)
Definition createdDuring (P : Platform) (before after : list Event)
    (s : Session) : Prop :=
  exists h sb rest,
    after = h ++ CreateSessionSettled Reconnect (Fulfilled s) :: rest /\
    length before < length h /\
    sandbox_createSession P h sb = Fulfilled s.

(** The session an event shows as created at a call site. *)
Definition sessionCreated (site : CallSite) (e : Event) : option Session :=
  match e, site with
  | CreateSessionSettled Initial (Fulfilled s), Initial => Some s
  | CreateSessionSettled Reconnect (Fulfilled s), Reconnect => Some s
  | _, _ => None
  end.

(** The sessions a history shows as created at a call site, oldest
    first. *)
Definition issued (site : CallSite) (h : list Event) : list Session :=
  flat_map
    (fun e => match sessionCreated site e with Some s => [s] | None => [] end) h.

(** The platform did not answer any session creation made up to a moment
    (a length of the history) with the session [s]. *)
Definition notIssuedBefore (P : Platform) (moment : nat) (s : Session) : Prop :=
  forall h sb, length h <= moment -> sandbox_createSession P h sb <> Fulfilled s.

(** The events of the transport's other callbacks: init reports,
    registrations for focus changes and their release. *)
Definition otherCallback (e : Event) : bool :=
  match e with
  | InitStatus _ _ => true
  | FocusChangeCalled _ _ => true
  | CallerUnsubscribed _ _ => true
  | _ => false
  end.

(** A transport that goes about as [t] does and keeps, beside its result,
    every answer its session supplier gave it, oldest first. It sees what
    any transport sees: the values its callbacks return. *)
Fixpoint recording {R} (t : Transport R) (seen : list (Settled Session))
  : Transport (list (Settled Session) * R) :=
  match t with
  | Settle r => Settle (seen, r)
  | AskSession sandboxId k =>
      AskSession sandboxId (fun r => recording (k r) (seen ++ [r]))
  | RegisterFocus notify k => RegisterFocus notify (fun u => recording (k u) seen)
  | Release u k => Release u (recording k seen)
  | ReportInit event k => ReportInit event (recording k seen)
  end.

(** The page at the moment [connectToBrowserSandbox] calls the SDK's
    [connectToSandbox]: the resume and the session creation are on record,
    and so is the call. *)
Definition atOpen (sandboxId : string) (sb : Sandbox) (s : Session) (env : Env)
  : Env :=
  fold_left (fun e ev => log ev e) (connectPrefix sandboxId sb s) env.

(** [options?.onFocusChange], as the caller gave it. *)
Definition callerFocusHook (options : option ConnectOptions) : option nat :=
  match options with
  | Some o => opt_onFocusChange o
  | None => None
  end.

(** ** Concrete platforms, to run the code on *)

Module Demo.

(** A page that has just loaded: nothing connected, no listener. *)
Definition freshPage : Env :=
  {| activeSandbox := None;
     connectionError := None;
     visibilityState := visible;
     listeners := [];
     nextClosure := 0;
     history := [] |}.

(** What a resume answers: the sandbox by its id, none of the listing's
    descriptive fields. *)
Definition bareSandbox (sandboxId : string) : Sandbox :=
  {| id := sandboxId; title := None; privacy := None;
     createdAt := None; updatedAt := None; tags := None |}.

Fixpoint registrations (h : list Event) : list Unsubscribe :=
  match h with
  | [] => []
  | FocusChangeCalled _ u :: rest => u :: registrations rest
  | _ :: rest => registrations rest
  end.

(** A platform on which every call succeeds. Sessions are numbered by the
    moment of their creation; the transport registers for focus changes
    once it is open, and releases its registrations on disconnect. *)
Definition steady : Platform :=
  {| sandboxes_resume := fun _ _ sandboxId => Fulfilled (bareSandbox sandboxId);
     sandbox_createSession := fun h sb =>
       Fulfilled {| session_sandbox := id sb; session_token := length h |};
     browser_connectToSandbox := fun h _ =>
       RegisterFocus 1 (fun _ => Settle (Fulfilled {| client_handle := length h |}));
     client_disconnect := fun h _ => (registrations h, None) |}.

(** The sandbox is still starting: resume rejects. *)
Definition resumeRejects (reason : JsValue) : Platform :=
  {| sandboxes_resume := fun _ _ _ => Rejected reason;
     sandbox_createSession := sandbox_createSession steady;
     browser_connectToSandbox := browser_connectToSandbox steady;
     client_disconnect := client_disconnect steady |}.

(** Resume works, session creation rejects. *)
Definition createSessionRejects (reason : JsValue) : Platform :=
  {| sandboxes_resume := sandboxes_resume steady;
     sandbox_createSession := fun _ _ => Rejected reason;
     browser_connectToSandbox := browser_connectToSandbox steady;
     client_disconnect := client_disconnect steady |}.

(** The transport's open rejects, before it registered anything. *)
Definition openRejects (reason : JsValue) : Platform :=
  {| sandboxes_resume := sandboxes_resume steady;
     sandbox_createSession := sandbox_createSession steady;
     browser_connectToSandbox := fun _ _ => Settle (Rejected reason);
     client_disconnect := client_disconnect steady |}.

(** The transport registers for focus changes first, and then its open
    rejects without calling the function the registration returned. *)
Definition openRejectsAfterRegistering (reason : JsValue) : Platform :=
  {| sandboxes_resume := sandboxes_resume steady;
     sandbox_createSession := sandbox_createSession steady;
     browser_connectToSandbox := fun _ _ =>
       RegisterFocus 1 (fun _ => Settle (Rejected reason));
     client_disconnect := client_disconnect steady |}.

(** The sandbox resumes for the first connection, but a resume made for a
    reconnect rejects. *)
Definition resumeRejectsOnReconnect (reason : JsValue) : Platform :=
  {| sandboxes_resume := fun h _ sandboxId =>
       match last h (ResumeCalled Initial sandboxId) with
       | ResumeCalled Reconnect _ => Rejected reason
       | _ => Fulfilled (bareSandbox sandboxId)
       end;
     sandbox_createSession := sandbox_createSession steady;
     browser_connectToSandbox := browser_connectToSandbox steady;
     client_disconnect := client_disconnect steady |}.

(** Everything works, but [client.disconnect()] throws. *)
Definition disconnectThrows (reason : JsValue) : Platform :=
  {| sandboxes_resume := sandboxes_resume steady;
     sandbox_createSession := sandbox_createSession steady;
     browser_connectToSandbox := browser_connectToSandbox steady;
     client_disconnect := fun h _ => (registrations h, Some reason) |}.

Definition demoSdk : CodeSandbox := createSDK "csb_v1_key".

Definition demoInfo : SandboxInfo :=
  {| info_id := "abc123";
     info_title := Some "Demo";
     info_privacy := None;
     info_createdAt := None;
     info_updatedAt := None;
     info_tags := None |}.

(** The session a first connect on the steady platform opens with. *)
Definition demoSession : Session :=
  {| session_sandbox := "abc123"; session_token := 3 |}.

(** The transport of a live connection needs a session once. *)
Definition asksOnce : Transport (Settled Session) :=
  AskSession "abc123" (fun r => Settle r).

(** The page after a connect, after the disconnect that follows, and after
    a second connect, all on the steady platform. *)
Definition connected : Env :=
  snd (connectToSandbox steady (Some demoSdk) (Some demoInfo) freshPage).

Definition disconnected : Env :=
  snd (disconnectFromSandbox steady (activeSandbox connected) connected).

Definition reconnected : Env :=
  snd (connectToSandbox steady (Some demoSdk) (Some demoInfo) disconnected).

End Demo.

(** ** What can happen to a page

    The user connects or disconnects through the hook (the callbacks are
    those of the last render), the page changes its visibility, the
    transport of a connection uses the callbacks it was given, and an error
    reaches one of the two global listeners. *)
Inductive Action : Type :=
| Connect (key : option string) (sandboxInfo : option SandboxInfo)
| Disconnect
| ChangeVisibility (v : VisibilityState)
| TransportActs (sdk : CodeSandbox) (s : Session) (t : Transport unit)
| UnhandledRejection (reason : JsValue)
| GlobalError (error : JsValue).

Definition act (P : Platform) (a : Action) (env : Env) : Env :=
  match a with
  | Connect key sandboxInfo => snd (connectToSandbox P (useSdk key) sandboxInfo env)
  | Disconnect => snd (disconnectFromSandbox P (activeSandbox env) env)
  | ChangeVisibility v => changeVisibility v env
  | TransportActs sdk s t => snd (runTransport (sdkOptions P sdk s hookOptions) t env)
  | UnhandledRejection reason => snd (onUnhandledRejection P reason env)
  | GlobalError error => snd (onError P error env)
  end.

Definition run (P : Platform) (actions : list Action) (env : Env) : Env :=
  fold_left (fun e a => act P a e) actions env.

(** * The rest of the hook, and the components that call it *)

(** ** More of JavaScript *)

(** The numbers this code handles are integers (a [parseInt], a time in
    milliseconds) or [NaN]. *)
Inductive JsNumber : Type := NaN | Finite (z : Z).

(** A string read as a condition: the empty string and [undefined] are
    falsy. *)
Definition truthy (s : option string) : bool :=
  match s with
  | Some (String _ _) => true
  | _ => false
  end.

(** [s || fallback], for a string that may be [undefined]. *)
Definition orElse (s : option string) (fallback : string) : string :=
  match s with
  | Some (String c rest) => String c rest
  | _ => fallback
  end.

(** [s || other], where [other] may be [undefined] as well. *)
Definition orElseMaybe (s other : option string) : option string :=
  match s with
  | Some (String c rest) => Some (String c rest)
  | _ => other
  end.

(** ** Creating a sandbox: the parameters *)

Inductive Privacy : Type := Private | Unlisted | Public.

Record WakeupConfig : Type := { http : bool; websocket : bool }.

(** The parameters of the form, of [createSandboxWrapper] and of the
    mutation: every field is optional. *)
Record CreateSandboxParams : Type := {
  p_title : option string;
  p_description : option string;
  p_templateId : option string;
  p_privacy : option Privacy;
  p_tags : option (list string);
  p_path : option string;
  p_ipcountry : option string;
  p_vmTier : option string;
  p_hibernationTimeoutSeconds : option JsNumber;
  p_automaticWakeupConfig : option WakeupConfig
}.

(** The object given to [sdk.sandboxes.create]: three keys are always
    there, the others only when they were set. *)
Record CreateParams : Type := {
  cp_title : string;
  cp_description : string;
  cp_privacy : Privacy;
  cp_id : option string;
  cp_tags : option (list string);
  cp_path : option string;
  cp_ipcountry : option string;
  cp_vmTier : option string;
  cp_hibernationTimeoutSeconds : option JsNumber;
  cp_automaticWakeupConfig : option WakeupConfig
}.

(** [if (x) createParams.key = x], for a string. *)
Definition whenTruthy (s : option string) : option string :=
  if truthy s then s else None.

(** The body of the mutation function, from [createParams] to the call. *)
Definition buildCreateParams (params : CreateSandboxParams) : CreateParams :=
  {| cp_title := orElse (p_title params) "SDK Dashboard Sandbox";
     cp_description := orElse (p_description params) "Created with SDK Dashboard";
     cp_privacy := match p_privacy params with Some p => p | None => Unlisted end;
     cp_id := whenTruthy (p_templateId params);
     cp_tags :=
       match p_tags params with
       | Some (tag :: rest) => Some (tag :: rest)
       | _ => None
       end;
     cp_path := whenTruthy (p_path params);
     cp_ipcountry := whenTruthy (p_ipcountry params);
     cp_vmTier :=
       match p_vmTier params with
       | Some tier =>
           if truthy (Some tier) && negb (String.eqb tier "pico") then Some tier else None
       | None => None
       end;
     cp_hibernationTimeoutSeconds :=
       match p_hibernationTimeoutSeconds params with
       | Some (Finite z) =>
           if negb (Z.eqb z 0) && negb (Z.eqb z 300) then Some (Finite z) else None
       | _ => None
       end;
     cp_automaticWakeupConfig := p_automaticWakeupConfig params |}.

(** The object [createSandboxWrapper] gives to [mutateAsync]. *)
Definition wrapperParams (params : CreateSandboxParams) : CreateSandboxParams :=
  {| p_title := p_title params;
     p_description :=
       orElseMaybe (p_description params)
         (match p_title params with
          | Some (String c rest) =>
              Some (String c rest ++ " - Created with SDK Dashboard")%string
          | _ => None
          end);
     p_templateId := p_templateId params;
     p_privacy := p_privacy params;
     p_tags := p_tags params;
     p_path := p_path params;
     p_ipcountry := p_ipcountry params;
     p_vmTier := p_vmTier params;
     p_hibernationTimeoutSeconds := p_hibernationTimeoutSeconds params;
     p_automaticWakeupConfig := p_automaticWakeupConfig params |}.

(** The form of the sandbox list as it is first shown, and as it is after a
    sandbox was created. *)
Definition initialForm : CreateSandboxParams :=
  {| p_title := None;
     p_description := None;
     p_templateId := None;
     p_privacy := Some Unlisted;
     p_tags := Some [];
     p_path := None;
     p_ipcountry := Some "US";
     p_vmTier := Some "pico";
     p_hibernationTimeoutSeconds := Some (Finite 300);
     p_automaticWakeupConfig := Some {| http := true; websocket := true |} |}.

Section Trimming.

(** [String.prototype.trim], which the code uses only to ask whether
    something is left. *)
Variable trim : string -> string.

(** [tags?.filter(tag => tag.trim())]. *)
Definition keptTags (tags : option (list string)) : option (list string) :=
  match tags with
  | Some l => Some (filter (fun tag => truthy (Some (trim tag))) l)
  | None => None
  end.

(** The [createParams] of [handleCreateSandbox], from the form data. *)
Definition formParams (formData : CreateSandboxParams) : CreateSandboxParams :=
  {| p_title := p_title formData;
     p_description := p_description formData;
     p_templateId := p_templateId formData;
     p_privacy := p_privacy formData;
     p_tags := keptTags (p_tags formData);
     p_path := p_path formData;
     p_ipcountry := p_ipcountry formData;
     p_vmTier := p_vmTier formData;
     p_hibernationTimeoutSeconds := p_hibernationTimeoutSeconds formData;
     p_automaticWakeupConfig := p_automaticWakeupConfig formData |}.

(** What reaches the platform when the form is submitted: the form's
    handler, the hook's wrapper, the mutation. *)
Definition submittedParams (formData : CreateSandboxParams) : CreateParams :=
  buildCreateParams (wrapperParams (formParams formData)).

End Trimming.

(** ** Creating a sandbox: the calls

    [sdk.sandboxes.create], [sdk.sandboxes.list] and the query client are
    external like the rest of the SDK. Their calls are kept in a log of
    their own, next to the state of the connection workflow. *)
Inductive Request : Type :=
| CreateCalled (params : CreateParams)
| CreateSettled (r : Settled Sandbox)
| ListCalled (pageSize : nat)
| ListSettled (r : Settled (list SandboxInfo))
| QueriesInvalidated.   (* invalidateQueries({ queryKey: ['sandboxes'] }) *)

Record Page : Type := {
  page_env : Env;
  page_requests : list Request
}.

(** The listing side of the platform; an answer may depend on everything
    that happened before it. *)
Record Registry : Type := {
  (* sdk.sandboxes.create(params) *)
  sandboxes_create :
    list Event -> list Request -> CodeSandbox -> CreateParams -> Settled Sandbox;
  (* sdk.sandboxes.list({ pagination: { pageSize } }), its [sandboxes] *)
  sandboxes_list :
    list Event -> list Request -> CodeSandbox -> nat -> Settled (list SandboxInfo)
}.

Definition PageAsync (A : Type) : Type := Page -> Settled A * Page.

Definition retP {A} (a : A) : PageAsync A := fun pg => (Fulfilled a, pg).

Definition throwP {A} (e : JsValue) : PageAsync A := fun pg => (Rejected e, pg).

Definition bindP {A B} (c : PageAsync A) (k : A -> PageAsync B) : PageAsync B :=
  fun pg =>
    match c pg with
    | (Fulfilled a, pg') => k a pg'
    | (Rejected e, pg') => (Rejected e, pg')
    end.

Definition tryCatchP {A} (c : PageAsync A) (handler : JsValue -> PageAsync A)
  : PageAsync A :=
  fun pg =>
    match c pg with
    | (Fulfilled a, pg') => (Fulfilled a, pg')
    | (Rejected e, pg') => handler e pg'
    end.

(** Code of the connection workflow, run on the page. *)
Definition onEnv {A} (c : Async A) : PageAsync A :=
  fun pg =>
    let (r, env') := c (page_env pg) in
    (r, {| page_env := env'; page_requests := page_requests pg |}).

Definition request (q : Request) (pg : Page) : Page :=
  {| page_env := page_env pg; page_requests := page_requests pg ++ [q] |}.

Declare Scope page_scope.
Delimit Scope page_scope with page.
Notation "x <-- c ;; k" := (bindP c (fun x => k))
  (at level 61, c at next level, right associativity) : page_scope.
Notation "c ;;;; k" := (bindP c (fun _ => k))
  (at level 61, right associativity) : page_scope.

Section Creation.

Variable P : Platform.
Variable R : Registry.

Local Open Scope page_scope.

Definition create (sdk : CodeSandbox) (params : CreateParams) : PageAsync Sandbox :=
  fun pg =>
    let pg1 := request (CreateCalled params) pg in
    let r := sandboxes_create R (history (page_env pg1)) (page_requests pg1) sdk params in
    (r, request (CreateSettled r) pg1).

Definition listSandboxes (sdk : CodeSandbox) (pageSize : nat)
  : PageAsync (list SandboxInfo) :=
  fun pg =>
    let pg1 := request (ListCalled pageSize) pg in
    let r := sandboxes_list R (history (page_env pg1)) (page_requests pg1) sdk pageSize in
    (r, request (ListSettled r) pg1).

Definition invalidateQueries : PageAsync unit :=
  fun pg => (Fulfilled tt, request QueriesInvalidated pg).

(** The [queryFn] of the sandboxes query. *)
Definition queryFn (sdk : option CodeSandbox) : PageAsync (list SandboxInfo) :=
  match sdk with
  | None => throwP (JsError "No API key provided")
  | Some sdk => listSandboxes sdk 20
  end.

(** [createSandboxMutation.mutateAsync(params)]: the mutation function,
    then [onSuccess] when it fulfilled. *)
Definition mutateAsync (sdk : option CodeSandbox) (params : CreateSandboxParams)
  : PageAsync Sandbox :=
  match sdk with
  | None => throwP (JsError "No API key provided")
  | Some sdk =>
      sb <-- create sdk (buildCreateParams params) ;;
      invalidateQueries ;;;;
      retP sb
  end.

(** The hook's [createSandbox]. *)
Definition createSandboxWrapper (sdk : option CodeSandbox)
    (params : CreateSandboxParams) : PageAsync unit :=
  mutateAsync sdk (wrapperParams params) ;;;; retP tt.

(** The object [createAndConnect] gives to [sdk.sandboxes.create]. *)
Definition createAndConnectParams (paramTitle paramTemplateId : option string)
  : CreateParams :=
  {| cp_title := orElse paramTitle "Browser SDK Test Sandbox";
     cp_description := "Created and connected using browser SDK";
     cp_privacy := Unlisted;
     cp_id := paramTemplateId;
     cp_tags := None;
     cp_path := None;
     cp_ipcountry := None;
     cp_vmTier := None;
     cp_hibernationTimeoutSeconds := None;
     cp_automaticWakeupConfig := None |}.

(** The message the [catch] of [createAndConnect] computes. *)
Definition createAndConnectMessage (error : JsValue) : string :=
  match error with
  | JsError message => ("Create and connect failed: " ++ message)%string
  | _ => "Failed to create and connect to sandbox"
  end.

(** The options [createAndConnect] passes: its own [initStatusCb]
    (callback 1), and no [onFocusChange]. *)
Definition createAndConnectOptions : option ConnectOptions :=
  Some {| opt_initStatusCb := Some 1; opt_onFocusChange := None |}.

(** The hook's [createAndConnect]. *)
Definition createAndConnect (sdk : option CodeSandbox)
    (paramTitle paramTemplateId : option string) : PageAsync (option SandboxClient) :=
  match sdk with
  | None => retP None
  | Some sdk =>
      onEnv (setConnectionError None) ;;;;
      onEnv (setActiveSandbox (Some connecting)) ;;;;
      tryCatchP
        (sandbox <-- create sdk (createAndConnectParams paramTitle paramTemplateId) ;;
         invalidateQueries ;;;;
         r <-- onEnv (connectToBrowserSandbox P sdk (id sandbox)
                        createAndConnectOptions) ;;
         let (client, _) := r in
         onEnv (setActiveSandbox
                  (Some {| sandbox := Some sandbox;
                           client := Some client;
                           isConnecting := false |})) ;;;;
         retP (Some client))
        (fun error =>
           onEnv (setConnectionError (Some (createAndConnectMessage error))) ;;;;
           onEnv (setActiveSandbox None) ;;;;
           throwP error)
  end.

(** *** components/SandboxList.tsx *)

(** The state of the list's form. *)
Record FormState : Type := {
  formData : CreateSandboxParams;
  showAdvancedForm : bool;
  isCreatingLocal : bool
}.

Variable trim : string -> string.

(** [handleCreateSandbox], with the [onCreateSandbox] it was given; the
    form data is the one of the render that created the handler. *)
Definition handleCreateSandbox
    (onCreateSandbox : CreateSandboxParams -> PageAsync unit)
    (form : FormState) (pg : Page) : Settled unit * (FormState * Page) :=
  match onCreateSandbox (formParams trim (formData form)) pg with
  | (Fulfilled _, pg') =>
      (Fulfilled tt,
       ({| formData := initialForm;
           showAdvancedForm := false;
           isCreatingLocal := false |}, pg'))
  | (Rejected e, pg') =>
      (Rejected e,
       ({| formData := formData form;
           showAdvancedForm := showAdvancedForm form;
           isCreatingLocal := false |}, pg'))
  end.

End Creation.

(** ** App.tsx and components/ApiKeyInput.tsx *)

Inductive View : Type := SandboxesView | CliView.

(** The state of [Dashboard], with the page under it. *)
Record AppState : Type := {
  app_apiKey : option string;
  app_apiError : option string;
  app_currentView : View;
  app_page : Page
}.

(** What [Dashboard] renders. *)
Inductive Screen : Type :=
| KeyScreen (error : option string)                 (* ApiKeyInput *)
| ManagerScreen (sandboxWithClient : SandboxWithClient)   (* SandboxManager *)
| DashboardScreen (view : View) (connectionBanner : option string).

(** The three [return]s of [Dashboard]. The connection banner is part of
    the sandboxes view, and is there when [connectionError] is truthy. *)
Definition render (app : AppState) : Screen :=
  if negb (truthy (app_apiKey app)) then
    KeyScreen (whenTruthy (app_apiError app))
  else
    match activeSandbox (page_env (app_page app)) with
    | Some a => ManagerScreen a
    | None =>
        DashboardScreen (app_currentView app)
          (match app_currentView app with
           | SandboxesView => whenTruthy (connectionError (page_env (app_page app)))
           | CliView => None
           end)
    end.

Definition withPage (pg : Page) (app : AppState) : AppState :=
  {| app_apiKey := app_apiKey app;
     app_apiError := app_apiError app;
     app_currentView := app_currentView app;
     app_page := pg |}.

Section Keys.

Variable R : Registry.
Variable trim : string -> string.

(** [handleApiKeySubmit]: the key is tried on a listing of one sandbox. *)
Definition handleApiKeySubmit (newApiKey : string) (app : AppState) : AppState :=
  match listSandboxes R (createSDK newApiKey) 1 (app_page app) with
  | (Fulfilled _, pg) =>
      {| app_apiKey := Some newApiKey;
         app_apiError := None;
         app_currentView := app_currentView app;
         app_page := pg |}
  | (Rejected error, pg) =>
      {| app_apiKey := app_apiKey app;
         app_apiError :=
           Some (match error with
                 | JsError message => message
                 | _ => "Invalid API key"
                 end);
         app_currentView := app_currentView app;
         app_page := pg |}
  end.

(** [handleSubmit] of the key form, for the text in its input, with
    [handleApiKeySubmit] as its [onApiKeySubmit]. *)
Definition handleSubmit (text : string) (app : AppState) : AppState :=
  if truthy (Some (trim text)) then handleApiKeySubmit (trim text) app else app.

End Keys.

(** The hook's functions as [Dashboard] gets them from [useCodeSandbox]:
    the SDK is the one of the stored key, the captured state the one of
    the last render. *)
Definition appConnect (P : Platform) (sandboxInfo : option SandboxInfo)
    (app : AppState) : Settled (option SandboxClient) * AppState :=
  let (r, pg) :=
    onEnv (connectToSandbox P (useSdk (app_apiKey app)) sandboxInfo) (app_page app) in
  (r, withPage pg app).

Definition appDisconnect (P : Platform) (app : AppState) : AppState :=
  withPage
    (snd (onEnv (disconnectFromSandbox P
                   (activeSandbox (page_env (app_page app)))) (app_page app)))
    app.

Definition appCreateAndConnect (P : Platform) (R : Registry) (app : AppState)
  : Settled (option SandboxClient) * AppState :=
  let (r, pg) :=
    createAndConnect P R (useSdk (app_apiKey app)) None None (app_page app) in
  (r, withPage pg app).

(** An error reaches the global listener for unhandled rejections. *)
Definition appUnhandledRejection (P : Platform) (reason : JsValue) (app : AppState)
  : AppState :=
  withPage
    {| page_env := snd (onUnhandledRejection P reason (page_env (app_page app)));
       page_requests := page_requests (app_page app) |}
    app.

(** ** components/SandboxList.tsx: the filters *)

Record Filters : Type := {
  f_status : string;
  f_lastUpdated : string;
  f_search : string
}.

(** [clearFilters], and the filters of the first render. *)
Definition clearedFilters : Filters :=
  {| f_status := ""; f_lastUpdated := ""; f_search := "" |}.

(** [updateFilter(key, value)]; a key that is none of the three adds a
    property nothing reads. *)
Definition updateFilter (key value : string) (f : Filters) : Filters :=
  if String.eqb key "status" then
    {| f_status := value; f_lastUpdated := f_lastUpdated f; f_search := f_search f |}
  else if String.eqb key "lastUpdated" then
    {| f_status := f_status f; f_lastUpdated := value; f_search := f_search f |}
  else if String.eqb key "search" then
    {| f_status := f_status f; f_lastUpdated := f_lastUpdated f; f_search := value |}
  else f.

(** [a > b] for a time that may be [NaN]. *)
Definition laterThan (a : JsNumber) (b : Z) : bool :=
  match a with
  | Finite x => Z.gtb x b
  | NaN => false
  end.

Definition msPerDay : Z := 24 * 60 * 60 * 1000.

Section Filtering.

(** [String.prototype.toLowerCase], and the time value of [new Date(s)]. *)
Variable toLowerCase : string -> string.
Variable timeOf : string -> JsNumber.

(** [new Date(sandbox.updatedAt || sandbox.createdAt)], as a time. *)
Definition dateOf (sb : SandboxInfo) : JsNumber :=
  match orElseMaybe (info_updatedAt sb) (info_createdAt sb) with
  | Some s => timeOf s
  | None => NaN
  end.

(** [getSandboxStatus]; [now] is what [Date.now()] answers. *)
Definition getSandboxStatus (now : Z) (sb : SandboxInfo) : string :=
  if match info_title sb with
     | Some t => includes "demo" (toLowerCase t)
     | None => false
     end
  then "hibernated"
  else if match info_privacy sb with
          | Some p => String.eqb p "public"
          | None => false
          end
  then "running"
  else if laterThan (dateOf sb) (now - msPerDay) then "running"
  else "idle".

(** [Math.floor((now.getTime() - updatedDate.getTime()) / msPerDay)]. *)
Definition daysDiff (now : Z) (sb : SandboxInfo) : JsNumber :=
  match dateOf sb with
  | Finite updated => Finite ((now - updated) / msPerDay)
  | NaN => NaN
  end.

(** The three blocks of the filter callback; each answers whether the
    sandbox gets past it. *)
Definition passesStatus (f : Filters) (now : Z) (sb : SandboxInfo) : bool :=
  if truthy (Some (f_status f))
  then String.eqb (getSandboxStatus now sb) (f_status f)
  else true.

Definition passesLastUpdated (f : Filters) (now : Z) (sb : SandboxInfo) : bool :=
  if truthy (Some (f_lastUpdated f)) then
    if String.eqb (f_lastUpdated f) "today" then negb (laterThan (daysDiff now sb) 0)
    else if String.eqb (f_lastUpdated f) "week" then negb (laterThan (daysDiff now sb) 7)
    else if String.eqb (f_lastUpdated f) "month" then negb (laterThan (daysDiff now sb) 30)
    else if String.eqb (f_lastUpdated f) "quarter" then negb (laterThan (daysDiff now sb) 90)
    else true
  else true.

Definition passesSearch (f : Filters) (sb : SandboxInfo) : bool :=
  if truthy (Some (f_search f)) then
    includes (toLowerCase (f_search f)) (toLowerCase (orElse (info_title sb) ""))
    || includes (toLowerCase (f_search f)) (toLowerCase (info_id sb))
  else true.

(** The callback of [sandboxes.filter]; the clock is read once for the
    status and once for the age. *)
Definition keeps (f : Filters) (statusNow ageNow : Z) (sb : SandboxInfo) : bool :=
  if negb (passesStatus f statusNow sb) then false
  else if negb (passesLastUpdated f ageNow sb) then false
  else if negb (passesSearch f sb) then false
  else true.

(** [filteredSandboxes]; [clock i] is what the clock answers while the
    sandbox at index [i] is looked at. *)
Fixpoint filteredFrom (f : Filters) (clock : nat -> Z * Z) (i : nat)
    (sandboxes : list SandboxInfo) : list SandboxInfo :=
  match sandboxes with
  | [] => []
  | sb :: rest =>
      if keeps f (fst (clock i)) (snd (clock i)) sb
      then sb :: filteredFrom f clock (S i) rest
      else filteredFrom f clock (S i) rest
  end.

Definition filteredSandboxes (f : Filters) (clock : nat -> Z * Z)
    (sandboxes : list SandboxInfo) : list SandboxInfo :=
  filteredFrom f clock 0 sandboxes.

End Filtering.

(** ** components/SandboxManager.tsx: the current path *)

(** [s.split('/')]. *)
Fixpoint splitPath (s : string) : list string :=
  match s with
  | EmptyString => [EmptyString]
  | String c rest =>
      if Ascii.eqb c "/"%char then EmptyString :: splitPath rest
      else match splitPath rest with
           | seg :: segs => String c seg :: segs
           | [] => [String c EmptyString]
           end
  end.

(** [segments.join('/')]. *)
Fixpoint joinPath (segments : list string) : string :=
  match segments with
  | [] => EmptyString
  | [seg] => seg
  | seg :: rest => (seg ++ String "/"%char (joinPath rest))%string
  end.

(** The part of the file browser's state that navigation touches. *)
Record Browser : Type := {
  currentPath : string;
  selectedFile : option string;
  isEditingFile : bool
}.

Definition navigateToPath (path : string) (b : Browser) : Browser :=
  {| currentPath := path; selectedFile := None; isEditingFile := false |}.

(** [currentPath.split('/').slice(0, -1).join('/') || '/']. *)
Definition parentPath (path : string) : string :=
  orElse (Some (joinPath (removelast (splitPath path)))) "/".

Definition navigateUp (b : Browser) : Browser :=
  if String.eqb (currentPath b) "/" then b
  else navigateToPath (parentPath (currentPath b)) b.

(** The path of an entry of a directory, as [loadFiles], [createItem] and
    the upload build it. *)
Definition childPath (path name : string) : string :=
  if String.eqb path "/" then String "/"%char name
  else (path ++ String "/"%char name)%string.

(** The number of slashes of a path. *)
Fixpoint slashes (s : string) : nat :=
  match s with
  | EmptyString => 0
  | String c rest => (if Ascii.eqb c "/"%char then 1 else 0) + slashes rest
  end.

(** ** Concrete registries and pages, to run the rest on *)

Module Samples.

(** A registry that creates what it is asked for, and lists one sandbox to
    the holder of the right key. *)
Definition registry : Registry :=
  {| sandboxes_create := fun _ requests _ params =>
       Fulfilled {| id := "new" ++ String (ascii_of_nat (48 + length requests)) "";
                    title := Some (cp_title params);
                    privacy := Some "unlisted";
                    createdAt := None;
                    updatedAt := None;
                    tags := cp_tags params |};
     sandboxes_list := fun _ _ sdk _ =>
       if String.eqb (apiKey sdk) "csb_v1_key"
       then Fulfilled [Demo.demoInfo]
       else Rejected (JsError "Unauthorized") |}.

(** A registry whose creation rejects. *)
Definition creationRejects (reason : JsValue) : Registry :=
  {| sandboxes_create := fun _ _ _ _ => Rejected reason;
     sandboxes_list := sandboxes_list registry |}.

Definition freshPage : Page :=
  {| page_env := Demo.freshPage; page_requests := [] |}.

(** The dashboard as it is first shown, and once the key was accepted. *)
Definition freshApp : AppState :=
  {| app_apiKey := None;
     app_apiError := None;
     app_currentView := SandboxesView;
     app_page := freshPage |}.

(** Leading spaces removed; enough of a [trim] to run the key form. *)
Fixpoint trimStart (s : string) : string :=
  match s with
  | String c rest => if Ascii.eqb c " " then trimStart rest else s
  | EmptyString => EmptyString
  end.

Definition signedIn : AppState :=
  handleSubmit registry trimStart "  csb_v1_key" freshApp.

End Samples.
(** * Facts about the embedding *)

(** ** Substrings *)

Lemma prefix_split (a s : string) :
  String.prefix a s = true -> exists post, s = (a ++ post)%string.
Proof.
  revert s; induction a as [|c a IH]; intros s H.
  - exists s; reflexivity.
  - destruct s as [|d s]; simpl in H; [discriminate|].
    destruct (Ascii.ascii_dec c d) as [->|]; [|discriminate].
    destruct (IH _ H) as [post ->]. exists post; reflexivity.
Qed.

Lemma prefix_append (a post : string) : String.prefix a (a ++ post)%string = true.
Proof.
  induction a as [|c a IH]; simpl.
  - destruct post; reflexivity.
  - destruct (Ascii.ascii_dec c c); [exact IH | congruence].
Qed.

(** [includes] is the substring relation. *)
Lemma includes_spec (needle haystack : string) :
  includes needle haystack = true <->
  exists pre post, haystack = (pre ++ needle ++ post)%string.
Proof.
  split.
  - induction haystack as [|c h IH]; cbn [includes]; intros H.
    + rewrite orb_false_r in H. destruct (prefix_split _ _ H) as [post E].
      exists "", post. exact E.
    + apply orb_true_iff in H. destruct H as [H|H].
      * destruct (prefix_split _ _ H) as [post E]. exists "", post. exact E.
      * destruct (IH H) as (pre & post & ->). exists (String c pre), post. reflexivity.
  - intros (pre & post & ->). induction pre as [|c pre IH].
    + change ("" ++ needle ++ post)%string with (needle ++ post)%string.
      destruct (needle ++ post)%string eqn:E; cbn [includes];
        rewrite <- E, prefix_append; reflexivity.
    + change (String c pre ++ needle ++ post)%string with (String c (pre ++ needle ++ post)%string).
      cbn [includes]. rewrite IH. apply orb_true_r.
Qed.

(** ** The supplier, run once *)

Section Facts.

Variable P : Platform.

Lemma resume_run site sdk sandboxId env :
  resume P site sdk sandboxId env =
  (sandboxes_resume P (history env ++ [ResumeCalled site sandboxId]) sdk sandboxId,
   log (ResumeSettled site
          (sandboxes_resume P (history env ++ [ResumeCalled site sandboxId]) sdk sandboxId))
       (log (ResumeCalled site sandboxId) env)).
Proof. reflexivity. Qed.

Lemma createSession_run site sb env :
  createSession P site sb env =
  (sandbox_createSession P (history env ++ [CreateSessionCalled site sb]) sb,
   log (CreateSessionSettled site
          (sandbox_createSession P (history env ++ [CreateSessionCalled site sb]) sb))
       (log (CreateSessionCalled site sb) env)).
Proof. reflexivity. Qed.

Lemma getSession_closure_run sdk sandboxId env :
  getSession_closure P sdk sandboxId env =
  match resume P Reconnect sdk sandboxId env with
  | (Fulfilled reconnectSandbox, env1) => createSession P Reconnect reconnectSandbox env1
  | (Rejected error, env1) => (Rejected error, env1)
  end.
Proof.
  unfold getSession_closure, tryCatch, bind, ret, throw.
  destruct (resume P Reconnect sdk sandboxId env) as [[sb|e] env1]; [|reflexivity].
  destruct (createSession P Reconnect sb env1) as [[s|e] env2]; reflexivity.
Qed.

(** The supplier touches the history only. *)
Lemma getSession_closure_frame sdk sandboxId env r env' :
  getSession_closure P sdk sandboxId env = (r, env') ->
  activeSandbox env' = activeSandbox env /\
  connectionError env' = connectionError env /\
  visibilityState env' = visibilityState env /\
  listeners env' = listeners env /\
  nextClosure env' = nextClosure env.
Proof.
  rewrite getSession_closure_run, resume_run.
  destruct (sandboxes_resume P _ sdk sandboxId) as [sb|e].
  - rewrite createSession_run. intros H; inversion H; subst; clear H. simpl. auto.
  - intros H; inversion H; subst; clear H. simpl. auto.
Qed.

(** Its events: a resume, and a session creation when the resume
    fulfilled. The outcome is the platform's answer to that very
    creation. *)
Lemma getSession_closure_history sdk sandboxId env r env' :
  getSession_closure P sdk sandboxId env = (r, env') ->
  (exists e,
      r = Rejected e /\
      history env' = history env ++
        [ResumeCalled Reconnect sandboxId; ResumeSettled Reconnect (Rejected e)]) \/
  (exists sb,
      history env' = history env ++
        [ResumeCalled Reconnect sandboxId; ResumeSettled Reconnect (Fulfilled sb);
         CreateSessionCalled Reconnect sb; CreateSessionSettled Reconnect r] /\
      r = sandbox_createSession P
            (history env ++
             [ResumeCalled Reconnect sandboxId; ResumeSettled Reconnect (Fulfilled sb);
              CreateSessionCalled Reconnect sb]) sb).
Proof.
  rewrite getSession_closure_run, resume_run.
  destruct (sandboxes_resume P _ sdk sandboxId) as [sb|e] eqn:E.
  - rewrite createSession_run. intros H; inversion H; subst; clear H.
    right. exists sb. simpl. rewrite <- !app_assoc. simpl. split; reflexivity.
  - intros H; inversion H; subst; clear H.
    left. exists e. simpl. rewrite <- !app_assoc. simpl. split; reflexivity.
Qed.

(** ** The transport, run against the callbacks *)

Lemma chosen_onFocusChange_frame options notify env u env' :
  chosen_onFocusChange options notify env = (u, env') ->
  activeSandbox env' = activeSandbox env /\
  connectionError env' = connectionError env /\
  visibilityState env' = visibilityState env /\
  history env' = history env.
Proof.
  unfold chosen_onFocusChange.
  destruct options as [[cb [hook|]]|]; cbv [caller_onFocusChange default_onFocusChange addEventListener];
    intros H; inversion H; subst; clear H; simpl; auto.
Qed.

Lemma unsubscribe_frame u env :
  activeSandbox (unsubscribe u env) = activeSandbox env /\
  connectionError (unsubscribe u env) = connectionError env /\
  visibilityState (unsubscribe u env) = visibilityState env /\
  exists T, history (unsubscribe u env) = history env ++ T /\
            forallb byTransport T = true.
Proof.
  destruct u as [f|hook notify]; simpl; repeat split.
  - exists []. rewrite app_nil_r. auto.
  - exists [CallerUnsubscribed hook notify]. auto.
Qed.

(** Whatever the transport does with its callbacks, it leaves the hook's
    state and the document's visibility alone, and the events it adds are
    its own. *)
Lemma runTransport_frame sdk s options R (t : Transport R) :
  forall env r env',
    runTransport (sdkOptions P sdk s options) t env = (r, env') ->
    activeSandbox env' = activeSandbox env /\
    connectionError env' = connectionError env /\
    visibilityState env' = visibilityState env /\
    exists T, history env' = history env ++ T /\ forallb byTransport T = true.
Proof.
  induction t as [r0|sandboxId k IH|notify k IH|u k IH|event k IH];
    intros env r env' H; cbn [runTransport] in H.
  - inversion H; subst. repeat split. exists []. rewrite app_nil_r. auto.
  - cbn [getSession sdkOptions] in H.
    destruct (getSession_closure P sdk sandboxId env) as [r1 env1] eqn:E.
    destruct (getSession_closure_frame _ _ _ _ _ E) as (A1 & A2 & A3 & _).
    destruct (IH _ _ _ _ H) as (B1 & B2 & B3 & T & B4 & B5).
    repeat split; try congruence.
    destruct (getSession_closure_history _ _ _ _ _ E) as [(e & _ & Hh)|(sb & Hh & _)];
      rewrite B4, Hh, <- app_assoc; eexists; (split; [reflexivity|]);
      simpl; exact B5.
  - cbn [onFocusChange sdkOptions] in H.
    destruct (chosen_onFocusChange options notify env) as [u env1] eqn:E.
    destruct (chosen_onFocusChange_frame _ _ _ _ _ E) as (A1 & A2 & A3 & A4).
    destruct (IH _ _ _ _ H) as (B1 & B2 & B3 & T & B4 & B5).
    simpl in B1, B2, B3, B4.
    repeat split; try congruence.
    rewrite B4, A4, <- app_assoc. eexists; split; [reflexivity|]. simpl; exact B5.
  - destruct (IH _ _ _ H) as (B1 & B2 & B3 & T & B4 & B5).
    destruct (unsubscribe_frame u env) as (A1 & A2 & A3 & T0 & A4 & A5).
    repeat split; try congruence.
    rewrite B4, A4, <- app_assoc. eexists; split; [reflexivity|].
    rewrite forallb_app, A5, B5. reflexivity.
  - destruct (IH _ _ _ H) as (B1 & B2 & B3 & T & B4 & B5).
    cbn [initStatusCb sdkOptions] in *.
    destruct (chosen_initStatusCb options) as [cb|]; simpl in *.
    + repeat split; try congruence.
      rewrite B4, <- app_assoc. eexists; split; [reflexivity|]. simpl; exact B5.
    + repeat split; try congruence. exists T; auto.
Qed.

(** Numbering of closures is kept by every registration and release. *)
Lemma wellFormed_log e env : wellFormed env -> wellFormed (log e env).
Proof. exact (fun H => H). Qed.

Lemma wellFormed_unsubscribe u env : wellFormed env -> wellFormed (unsubscribe u env).
Proof.
  unfold wellFormed. destruct u as [f|hook notify]; simpl; intros H; [|exact H].
  apply Forall_forall. intros l Hl. apply filter_In in Hl.
  exact (proj1 (Forall_forall _ _) H l (proj1 Hl)).
Qed.

Lemma wellFormed_chosen_onFocusChange options notify env u env' :
  chosen_onFocusChange options notify env = (u, env') ->
  wellFormed env -> wellFormed env'.
Proof.
  unfold chosen_onFocusChange, wellFormed.
  destruct options as [[cb [hook|]]|]; cbv [caller_onFocusChange default_onFocusChange addEventListener];
    intros H; inversion H; subst; clear H; simpl; intros W; try exact W;
    (apply Forall_app; split;
     [ eapply Forall_impl; [|exact W]; simpl; intros; lia
     | repeat constructor ]).
Qed.

Lemma wellFormed_getSession_closure sdk sandboxId env r env' :
  getSession_closure P sdk sandboxId env = (r, env') ->
  wellFormed env -> wellFormed env'.
Proof.
  intros E. destruct (getSession_closure_frame _ _ _ _ _ E) as (_ & _ & _ & L & N).
  unfold wellFormed. rewrite L, N. exact (fun H => H).
Qed.

Lemma wellFormed_runTransport sdk s options R (t : Transport R) :
  forall env r env',
    runTransport (sdkOptions P sdk s options) t env = (r, env') ->
    wellFormed env -> wellFormed env'.
Proof.
  induction t as [r0|sandboxId k IH|notify k IH|u k IH|event k IH];
    intros env r env' H W; cbn [runTransport] in H.
  - inversion H; subst; exact W.
  - cbn [getSession sdkOptions] in H.
    destruct (getSession_closure P sdk sandboxId env) as [r1 env1] eqn:E.
    eapply IH; [exact H|]. eapply wellFormed_getSession_closure; eauto.
  - cbn [onFocusChange sdkOptions] in H.
    destruct (chosen_onFocusChange options notify env) as [u env1] eqn:E.
    eapply IH; [exact H|]. apply wellFormed_log.
    eapply wellFormed_chosen_onFocusChange; eauto.
  - eapply IH; [exact H|]. apply wellFormed_unsubscribe; exact W.
  - eapply IH; [exact H|].
    destruct (initStatusCb (sdkOptions P sdk s options)); [apply wellFormed_log|]; exact W.
Qed.

(** ** One connection attempt *)

Lemma connectToBrowserSandbox_run sdk sandboxId options env :
  connectToBrowserSandbox P sdk sandboxId options env =
  match resume P Initial sdk sandboxId env with
  | (Rejected e, env1) => (Rejected e, env1)
  | (Fulfilled sb, env1) =>
      match createSession P Initial sb env1 with
      | (Rejected e, env2) => (Rejected e, env2)
      | (Fulfilled s, env2) =>
          match openClient P (sdkOptions P sdk s options) env2 with
          | (Fulfilled c, env3) => (Fulfilled (c, sb), env3)
          | (Rejected e, env3) => (Rejected e, env3)
          end
      end
  end.
Proof.
  unfold connectToBrowserSandbox, bind, ret.
  destruct (resume P Initial sdk sandboxId env) as [[sb|e] env1]; [|reflexivity].
  destruct (createSession P Initial sb env1) as [[s|e] env2]; [|reflexivity].
  destruct (openClient P (sdkOptions P sdk s options) env2) as [[c|e] env3]; reflexivity.
Qed.

Lemma openClient_run sdk s options env r env' :
  openClient P (sdkOptions P sdk s options) env = (r, env') ->
  exists env2,
    runTransport (sdkOptions P sdk s options)
      (browser_connectToSandbox P (history env ++ [OpenCalled s]) s)
      (log (OpenCalled s) env) = (r, env2) /\
    env' = log (OpenSettled r) env2.
Proof.
  unfold openClient. cbn [session sdkOptions].
  change (history (log (OpenCalled s) env)) with (history env ++ [OpenCalled s]).
  destruct (runTransport _ _ _) as [r0 env2].
  intros H; inversion H; subst. exists env2. auto.
Qed.

Lemma connectToBrowserSandbox_attempt sdk sandboxId options env r env' :
  connectToBrowserSandbox P sdk sandboxId options env = (r, env') ->
  Attempt P sdk sandboxId options env r env' /\
  activeSandbox env' = activeSandbox env /\
  connectionError env' = connectionError env /\
  visibilityState env' = visibilityState env.
Proof.
  rewrite connectToBrowserSandbox_run, resume_run.
  destruct (sandboxes_resume P _ sdk sandboxId) as [sb|e] eqn:Er.
  - rewrite createSession_run.
    assert (Hm : forall x, history
                   (log (ResumeSettled Initial (Fulfilled sb))
                      (log (ResumeCalled Initial sandboxId) env)) ++ [x]
                 = history env ++ [ResumeCalled Initial sandboxId;
                                   ResumeSettled Initial (Fulfilled sb); x]).
    { intros x. simpl. rewrite <- !app_assoc. reflexivity. }
    rewrite Hm.
    destruct (sandbox_createSession P _ sb) as [s|e] eqn:Es.
    + match goal with |- context [openClient P _ ?e2] => set (env2 := e2) end.
      destruct (openClient P (sdkOptions P sdk s options) env2) as [rc env3] eqn:E.
      destruct (openClient_run _ _ _ _ _ _ E) as (envDone & Hrun & ->).
      destruct (runTransport_frame _ _ _ _ _ _ _ _ Hrun) as (A1 & A2 & A3 & T & A4 & A5).
      assert (Hpre : history (log (OpenCalled s) env2) =
                     history env ++ connectPrefix sandboxId sb s).
      { subst env2. simpl. rewrite <- !app_assoc. reflexivity. }
      change (history env2 ++ [OpenCalled s]) with (history (log (OpenCalled s) env2)) in Hrun.
      intros H. split.
      * assert (Hr : r = match rc with Fulfilled c => Fulfilled (c, sb) | Rejected e => Rejected e end
                     /\ env' = log (OpenSettled rc) envDone)
          by (destruct rc; inversion H; auto).
        destruct Hr as [-> ->].
        eapply ReachedTransport with (T := T) (envOpen := log (OpenCalled s) env2);
          try eassumption; try reflexivity.
        simpl. rewrite A4, Hpre, <- !app_assoc. reflexivity.
      * assert (env' = log (OpenSettled rc) envDone) by (destruct rc; inversion H; auto).
        subst env'. simpl. rewrite A1, A2, A3. subst env2. simpl. auto.
    + intros H; inversion H; subst; clear H. split; [|simpl; auto].
      eapply StoppedAtSession; simpl; try eassumption; try reflexivity.
      rewrite <- !app_assoc. reflexivity.
  - intros H; inversion H; subst; clear H. split; [|simpl; auto].
    eapply StoppedAtResume; simpl; try eassumption; try reflexivity.
    rewrite <- !app_assoc. reflexivity.
Qed.

(** ** The hook's connect *)

Lemma connectToSandbox_run sdk info env :
  connectToSandbox P (Some sdk) (Some info) env =
  match connectToBrowserSandbox P sdk (info_id info) hookOptions
          (withActiveSandbox (Some connecting) (withConnectionError None env)) with
  | (Fulfilled (c, sb), env1) =>
      (Fulfilled (Some c),
       withActiveSandbox
         (Some {| sandbox := Some (withMetadata sb info);
                  client := Some c;
                  isConnecting := false |}) env1)
  | (Rejected e, env1) =>
      (Rejected e,
       withActiveSandbox None
         (withConnectionError (Some (connectErrorMessage e)) env1))
  end.
Proof.
  unfold connectToSandbox, bind, tryCatch, setConnectionError, setActiveSandbox,
    perform, ret, throw.
  destruct (connectToBrowserSandbox P sdk (info_id info) hookOptions _)
    as [[[c sb]|e] env1]; reflexivity.
Qed.

(** ** Counting events *)

Lemma count_app kind (a b : list Event) :
  count kind (a ++ b) = count kind a + count kind b.
Proof. unfold count. rewrite filter_app, length_app. reflexivity. Qed.

Lemma count_byTransport kind (T : list Event) :
  (forall e, byTransport e = true -> kind e = false) ->
  forallb byTransport T = true -> count kind T = 0.
Proof.
  intros K. induction T as [|e T IH]; [reflexivity|].
  simpl. intros H. apply andb_true_iff in H. destruct H as [He HT].
  unfold count in *. simpl. rewrite (K e He). exact (IH HT).
Qed.

Lemma byTransport_not_initial_resume e :
  byTransport e = true -> isResumeCall Initial e = false.
Proof. destruct e as [[]| | | | | | | | | | | |]; simpl; congruence. Qed.

Lemma byTransport_not_initial_session e :
  byTransport e = true -> isCreateSessionCall Initial e = false.
Proof. destruct e as [| |[]| | | | | | | | | |]; simpl; congruence. Qed.

Lemma byTransport_not_open e : byTransport e = true -> isOpenCall e = false.
Proof. destruct e; simpl; congruence. Qed.

Lemma connectToSandbox_rejected sdk info env e env' :
  connectToSandbox P (Some sdk) (Some info) env = (Rejected e, env') ->
  exists env1,
    Attempt P sdk (info_id info) hookOptions
      (withActiveSandbox (Some connecting) (withConnectionError None env))
      (Rejected e) env1 /\
    visibilityState env1 = visibilityState env /\
    env' = withActiveSandbox None
             (withConnectionError (Some (connectErrorMessage e)) env1).
Proof.
  rewrite connectToSandbox_run.
  destruct (connectToBrowserSandbox P sdk (info_id info) hookOptions _)
    as [[[c sb]|e0] env1] eqn:E; intros H; inversion H; subst; clear H.
  destruct (connectToBrowserSandbox_attempt _ _ _ _ _ _ E) as (A & _ & _ & V).
  exists env1. repeat split; assumption.
Qed.

Lemma connectToSandbox_fulfilled sdk info env oc env' :
  connectToSandbox P (Some sdk) (Some info) env = (Fulfilled oc, env') ->
  exists c sb env1,
    oc = Some c /\
    Attempt P sdk (info_id info) hookOptions
      (withActiveSandbox (Some connecting) (withConnectionError None env))
      (Fulfilled (c, sb)) env1 /\
    env' = withActiveSandbox
             (Some {| sandbox := Some (withMetadata sb info);
                      client := Some c;
                      isConnecting := false |}) env1.
Proof.
  rewrite connectToSandbox_run.
  destruct (connectToBrowserSandbox P sdk (info_id info) hookOptions _)
    as [[[c sb]|e0] env1] eqn:E; intros H; inversion H; subst; clear H.
  destruct (connectToBrowserSandbox_attempt _ _ _ _ _ _ E) as (A & _).
  exists c, sb, env1. repeat split; assumption.
Qed.

(** An attempt that rejected: its events end with the rejection of the
    step that failed, and hold one resume, at most one session creation
    and at most one open. *)
Lemma Attempt_rejected sdk sandboxId options env e env1 :
  Attempt P sdk sandboxId options env (Rejected e) env1 ->
  exists before ev,
    history env1 = history env ++ before ++ [ev] /\
    rejectionOf ev = Some e /\
    count (isResumeCall Initial) (before ++ [ev]) = 1 /\
    count (isCreateSessionCall Initial) (before ++ [ev]) <= 1 /\
    count isOpenCall (before ++ [ev]) <= 1.
Proof.
  intros A. inversion A as [e0 env0 Hp1 Hh Hl Hn|sb e0 env0 Hp1 Hp2 Hh Hl Hn|
                            sb s T rc envOpen envDone env0 Hp1 Hp2 Hh Hl Hn Hrun Hh' HT Hl' Hn' Hr];
    subst.
  - exists [ResumeCalled Initial sandboxId], (ResumeSettled Initial (Rejected e)).
    repeat split; auto.
  - exists [ResumeCalled Initial sandboxId; ResumeSettled Initial (Fulfilled sb);
            CreateSessionCalled Initial sb],
           (CreateSessionSettled Initial (Rejected e)).
    repeat split; auto.
  - destruct rc as [c|e0]; [discriminate|]. inversion Hr; subst.
    exists (connectPrefix sandboxId sb s ++ T), (OpenSettled (Rejected e)).
    rewrite Hh', <- !app_assoc. split; [reflexivity|]. split; [reflexivity|].
    rewrite !count_app.
    rewrite (count_byTransport _ T byTransport_not_initial_resume HT),
            (count_byTransport _ T byTransport_not_initial_session HT),
            (count_byTransport _ T byTransport_not_open HT).
    cbv [count connectPrefix filter isResumeCall isCreateSessionCall isOpenCall length].
    repeat split; lia.
Qed.

End Facts.

(** ** Disconnecting, the error channel, visibility and the supplier *)

Lemma disconnect_settles (P : Platform) (c : SandboxClient) (env : Env) :
  exists thrown released,
    client_disconnect P (history env ++ [DisconnectCalled c]) c = (released, thrown) /\
    tryCatch (disconnect P c) (fun _ => ret tt) env =
    (Fulfilled tt,
     log (DisconnectSettled c thrown)
       (fold_left (fun e u => unsubscribe u e) released (log (DisconnectCalled c) env))).
Proof.
  unfold tryCatch, disconnect, ret.
  change (history (log (DisconnectCalled c) env)) with (history env ++ [DisconnectCalled c]).
  destruct (client_disconnect P (history env ++ [DisconnectCalled c]) c) as [released thrown].
  exists thrown, released. split; [reflexivity|]. destruct thrown; reflexivity.
Qed.

Lemma releases_frame (released : list Unsubscribe) :
  forall env,
    activeSandbox (fold_left (fun e u => unsubscribe u e) released env) = activeSandbox env /\
    connectionError (fold_left (fun e u => unsubscribe u e) released env) = connectionError env /\
    visibilityState (fold_left (fun e u => unsubscribe u e) released env) = visibilityState env /\
    exists T,
      history (fold_left (fun e u => unsubscribe u e) released env) = history env ++ T /\
      forallb byTransport T = true.
Proof.
  induction released as [|u released IH]; intros env; simpl.
  - repeat split. exists []. rewrite app_nil_r. auto.
  - destruct (IH (unsubscribe u env)) as (A1 & A2 & A3 & T & A4 & A5).
    destruct (unsubscribe_frame u env) as (B1 & B2 & B3 & T0 & B4 & B5).
    repeat split; try congruence.
    exists (T0 ++ T). rewrite A4, B4, <- app_assoc, forallb_app, A5, B5. auto.
Qed.

Lemma byTransport_not_disconnect e : byTransport e = true -> isDisconnectCall e = false.
Proof. destruct e; simpl; congruence. Qed.

(** One call of [disconnectFromSandbox], whatever it captured. *)
Lemma disconnectFromSandbox_settles (P : Platform)
    (captured : option SandboxWithClient) (env0 : Env) :
  let (r, env1) := disconnectFromSandbox P captured env0 in
  r = Fulfilled tt /\ activeSandbox env1 = None /\ connectionError env1 = None /\
  (exists added,
      history env1 = history env0 ++ added /\
      count isDisconnectCall added =
        match captured with
        | Some {| client := Some _ |} => 1
        | _ => 0
        end) /\
  disconnectFromSandbox P (activeSandbox env1) env1 = (Fulfilled tt, env1).
Proof.
  unfold disconnectFromSandbox at 1.
  destruct captured as [[sb [c|] connectingFlag]|].
  - unfold bind at 1.
    destruct (disconnect_settles P c env0) as (thrown & released & _ & ->).
    cbv [bind setActiveSandbox setConnectionError perform].
    destruct (releases_frame released (log (DisconnectCalled c) env0))
      as (_ & _ & _ & T & Hh & HT).
    repeat split.
    exists ([DisconnectCalled c] ++ T ++ [DisconnectSettled c thrown]). split.
    + simpl. rewrite Hh. simpl. rewrite <- !app_assoc. reflexivity.
    + rewrite !count_app, (count_byTransport _ T byTransport_not_disconnect HT).
      reflexivity.
  - cbv [bind ret setActiveSandbox setConnectionError perform]. repeat split.
    exists []. rewrite app_nil_r. auto.
  - cbv [bind ret setActiveSandbox setConnectionError perform]. repeat split.
    exists []. rewrite app_nil_r. auto.
Qed.

Lemma messageIncludes_spec (needle : string) (v : JsValue) :
  messageIncludes needle v = true <->
  exists m, messageOf v = Some m /\ substring needle m.
Proof.
  unfold substring. destruct v as [m|[m|]|]; simpl.
  - rewrite includes_spec. split.
    + intros H. exists m. auto.
    + intros (m' & E & H). inversion E; subst. exact H.
  - rewrite includes_spec. split.
    + intros H. exists m. auto.
    + intros (m' & E & H). inversion E; subst. exact H.
  - split; [discriminate|]. intros (m' & E & _). discriminate.
  - split; [discriminate|]. intros (m' & E & _). discriminate.
Qed.

Lemma handleConnectionError_run (P : Platform) (a : SandboxWithClient) (env : Env) :
  exists env',
    handleConnectionError P (Some a) env = (Fulfilled tt, env') /\
    activeSandbox env' = None /\
    connectionError env' = Some connectionLostMessage /\
    exists added,
      history env' = history env ++ added /\
      match client a with
      | Some c =>
          exists T thrown,
            added = [DisconnectCalled c] ++ T ++ [DisconnectSettled c thrown] /\
            forallb byTransport T = true
      | None => added = []
      end.
Proof.
  unfold handleConnectionError. destruct (client a) as [c|].
  - cbv [bind setConnectionError perform].
    destruct (disconnect_settles P c (withConnectionError (Some connectionLostMessage) env))
      as (thrown & released & _ & ->).
    cbv [setActiveSandbox perform].
    destruct (releases_frame released
                (log (DisconnectCalled c)
                   (withConnectionError (Some connectionLostMessage) env)))
      as (_ & C & _ & T & Hh & HT).
    eexists. split; [reflexivity|]. split; [reflexivity|]. split.
    + simpl. rewrite C. reflexivity.
    + exists ([DisconnectCalled c] ++ T ++ [DisconnectSettled c thrown]). split.
      * simpl. rewrite Hh. simpl. rewrite <- !app_assoc. reflexivity.
      * exists T, thrown. auto.
  - cbv [bind ret setConnectionError setActiveSandbox perform].
    eexists. split; [reflexivity|]. repeat split.
    exists []. simpl. rewrite app_nil_r. auto.
Qed.

Lemma fold_onVisibilityChange (ls : list Listener) :
  forall env,
    let env' := fold_left (fun e l => onVisibilityChange l e) ls env in
    history env' = history env ++
      map (fun l => Notified (notifies l) (isVisible (visibilityState env))) ls /\
    listeners env' = listeners env /\
    visibilityState env' = visibilityState env /\
    nextClosure env' = nextClosure env.
Proof.
  induction ls as [|l ls IH]; intros env; simpl.
  - rewrite app_nil_r. auto.
  - destruct (IH (onVisibilityChange l env)) as (H1 & H2 & H3 & H4).
    rewrite H1, H2, H3, H4. simpl. rewrite <- app_assoc. auto.
Qed.

Lemma changeVisibility_history (v : VisibilityState) (env : Env) :
  history (changeVisibility v env) =
  history env ++ map (fun l => Notified (notifies l) (isVisible v)) (listeners env).
Proof.
  unfold changeVisibility, fireVisibilityChange.
  exact (proj1 (fold_onVisibilityChange (listeners (withVisibility v env))
                  (withVisibility v env))).
Qed.

Lemma getSession_closure_answered (P : Platform) sdk sandboxId env r env' :
  getSession_closure P sdk sandboxId env = (r, env') ->
  length (history env) + 2 <= length (history env') /\
  forall s, r = Fulfilled s ->
    answeredAt P (length (history env) + 3) s /\
    length (history env') = length (history env) + 4.
Proof.
  intros E.
  destruct (getSession_closure_history _ _ _ _ _ _ E) as [(e & -> & Hg)|(sb & Hg & Hr)];
    rewrite Hg, length_app; simpl; split; try lia.
  - discriminate.
  - intros s ->. split; [|lia]. eexists; exists sb. split; [|symmetry; exact Hr].
    rewrite length_app. simpl. lia.
Qed.

Lemma answeredAt_unique (P : Platform) (n m : nat) (s : Session) :
  neverReissues P -> answeredAt P n s -> answeredAt P m s -> n = m.
Proof.
  intros F (h1 & sb1 & L1 & A1) (h2 & sb2 & L2 & A2).
  rewrite <- L1, <- L2. exact (F _ _ _ _ _ A1 A2).
Qed.

Lemma connectToSandbox_opened (P : Platform) sdk info env oc env1 :
  connectToSandbox P (Some sdk) (Some info) env = (Fulfilled oc, env1) ->
  exists c sb s rest,
    oc = Some c /\
    sandboxes_resume P (history env ++ [ResumeCalled Initial (info_id info)])
      sdk (info_id info) = Fulfilled sb /\
    sandbox_createSession P (history env ++ createSessionMoment (info_id info) sb) sb
      = Fulfilled s /\
    history env1 = history env ++ connectPrefix (info_id info) sb s ++ rest /\
    activeSandbox env1 =
      Some {| sandbox := Some (withMetadata sb info);
              client := Some c;
              isConnecting := false |}.
Proof.
  intros H.
  destruct (connectToSandbox_fulfilled _ _ _ _ _ _ H) as (c & sb & env0 & -> & A & ->).
  inversion A as [| |sb' s T rc envOpen envDone env' Hp1 Hp2 Hh Hl Hn Hrun Hh' HT Hl' Hn' Hr];
    subst.
  destruct rc as [c'|e]; [|discriminate]. inversion Hr; subst.
  exists c, sb, s, (T ++ [OpenSettled (Fulfilled c)]).
  cbn [history withActiveSandbox withConnectionError] in *.
  repeat split; assumption.
Qed.

Lemma steady_neverReissues : neverReissues Demo.steady.
Proof.
  intros h1 h2 sb1 sb2 s A1 A2. simpl in A1, A2.
  inversion A1 as [E1]. inversion A2 as [E2]. rewrite <- E1 in E2.
  inversion E2. congruence.
Qed.

(** ** Every page that can be reached is well formed *)

Lemma wellFormed_same (env env' : Env) :
  listeners env' = listeners env ->
  nextClosure env' = nextClosure env ->
  wellFormed env -> wellFormed env'.
Proof. unfold wellFormed. intros -> ->. exact (fun H => H). Qed.

Lemma wellFormed_releases (released : list Unsubscribe) :
  forall env,
    wellFormed env ->
    wellFormed (fold_left (fun e u => unsubscribe u e) released env).
Proof.
  induction released as [|u released IH]; intros env W; simpl; [exact W|].
  apply IH, wellFormed_unsubscribe, W.
Qed.

Lemma wellFormed_teardown (P : Platform) (c : SandboxClient) (env : Env) :
  wellFormed env ->
  wellFormed (snd (tryCatch (disconnect P c) (fun _ => ret tt) env)).
Proof.
  intros W. destruct (disconnect_settles P c env) as (thrown & released & _ & ->).
  cbn [snd]. apply wellFormed_log, wellFormed_releases, wellFormed_log, W.
Qed.

Lemma wellFormed_connectToSandbox (P : Platform) sdk sandboxInfo env :
  wellFormed env -> wellFormed (snd (connectToSandbox P sdk sandboxInfo env)).
Proof.
  intros W. destruct sandboxInfo as [info|]; [|destruct sdk; exact W].
  destruct sdk as [sdk|]; [|exact W].
  rewrite connectToSandbox_run.
  destruct (connectToBrowserSandbox P sdk (info_id info) hookOptions _)
    as [r env1] eqn:E.
  destruct (connectToBrowserSandbox_attempt _ _ _ _ _ _ _ E) as [A _].
  assert (W1 : wellFormed env1).
  { inversion A as [e env0 _ _ Hl Hn|sb e env0 _ _ _ Hl Hn|
                    sb s T rc envOpen envDone env0 _ _ _ Hl Hn Hrun _ _ Hl' Hn' Hr];
      subst; try exact (wellFormed_same _ _ Hl Hn W).
    apply (wellFormed_same envDone _ Hl' Hn').
    apply (wellFormed_runTransport _ _ _ _ _ _ _ _ _ Hrun).
    exact (wellFormed_same _ _ Hl Hn W). }
  destruct r as [[c sb]|e]; exact W1.
Qed.

Lemma wellFormed_disconnectFromSandbox (P : Platform) captured env :
  wellFormed env -> wellFormed (snd (disconnectFromSandbox P captured env)).
Proof.
  intros W. unfold disconnectFromSandbox.
  destruct captured as [[sb [c|] flag]|]; try exact W.
  unfold bind at 1. pose proof (wellFormed_teardown P c env W) as W1.
  destruct (disconnect_settles P c env) as (thrown & released & _ & E).
  rewrite E in *. exact W1.
Qed.

Lemma wellFormed_handleConnectionError (P : Platform) captured env :
  wellFormed env -> wellFormed (snd (handleConnectionError P captured env)).
Proof.
  intros W. unfold handleConnectionError.
  destruct captured as [[sb [c|] flag]|]; try exact W.
  cbv [client bind setConnectionError perform].
  pose proof (wellFormed_teardown P c
                (withConnectionError (Some connectionLostMessage) env) W) as W1.
  destruct (disconnect_settles P c (withConnectionError (Some connectionLostMessage) env))
    as (thrown & released & _ & E).
  rewrite E in *. exact W1.
Qed.

Lemma wellFormed_changeVisibility (v : VisibilityState) (env : Env) :
  wellFormed env -> wellFormed (changeVisibility v env).
Proof.
  unfold changeVisibility, fireVisibilityChange.
  destruct (fold_onVisibilityChange (listeners (withVisibility v env))
              (withVisibility v env)) as (_ & Hl & _ & Hn).
  exact (wellFormed_same (withVisibility v env) _ Hl Hn).
Qed.

(** Whatever happens to a well-formed page, a page that has just loaded
    for one, every registered closure keeps a number below the next one. *)
Lemma wellFormed_run (P : Platform) (actions : list Action) :
  forall env, wellFormed env -> wellFormed (run P actions env).
Proof.
  unfold run. induction actions as [|a actions IH]; intros env W; simpl; [exact W|].
  apply IH. destruct a as [key info| |v|sdk s t|reason|error]; simpl.
  - apply wellFormed_connectToSandbox, W.
  - apply wellFormed_disconnectFromSandbox, W.
  - apply wellFormed_changeVisibility, W.
  - destruct (runTransport (sdkOptions P sdk s hookOptions) t env) as [r env'] eqn:E.
    exact (wellFormed_runTransport _ _ _ _ _ _ _ _ _ E W).
  - unfold onUnhandledRejection. destruct (isSdkSocketError reason); [|exact W].
    apply wellFormed_handleConnectionError, wellFormed_log, W.
  - unfold onError. destruct (isSdkSocketError error); [|exact W].
    apply wellFormed_handleConnectionError, wellFormed_log, W.
Qed.

Lemma wellFormed_freshPage : wellFormed Demo.freshPage.
Proof. constructor. Qed.

(** ** The supplier, as the transport meets it *)

Lemma issued_app (site : CallSite) (a b : list Event) :
  issued site (a ++ b) = issued site a ++ issued site b.
Proof. unfold issued. apply flat_map_app. Qed.

Lemma atOpen_frame (sandboxId : string) (sb : Sandbox) (s : Session) (env : Env) :
  history (atOpen sandboxId sb s env) = history env ++ connectPrefix sandboxId sb s /\
  activeSandbox (atOpen sandboxId sb s env) = activeSandbox env /\
  connectionError (atOpen sandboxId sb s env) = connectionError env /\
  visibilityState (atOpen sandboxId sb s env) = visibilityState env /\
  listeners (atOpen sandboxId sb s env) = listeners env /\
  nextClosure (atOpen sandboxId sb s env) = nextClosure env.
Proof.
  unfold atOpen, connectPrefix. simpl. rewrite <- !app_assoc. simpl. repeat split.
Qed.

(** Once the resume and the session creation have fulfilled, the rest of
    [connectToBrowserSandbox] is the platform's transport run against the
    options object. *)
Lemma connectToBrowserSandbox_opens (P : Platform) sdk sandboxId options env sb s :
  sandboxes_resume P (history env ++ [ResumeCalled Initial sandboxId]) sdk sandboxId
    = Fulfilled sb ->
  sandbox_createSession P (history env ++ createSessionMoment sandboxId sb) sb
    = Fulfilled s ->
  connectToBrowserSandbox P sdk sandboxId options env =
  let (rc, envDone) :=
    runTransport (sdkOptions P sdk s options)
      (browser_connectToSandbox P (history (atOpen sandboxId sb s env)) s)
      (atOpen sandboxId sb s env) in
  (match rc with
   | Fulfilled c => Fulfilled (c, sb)
   | Rejected e => Rejected e
   end, log (OpenSettled rc) envDone).
Proof.
  intros Hr Hs.
  rewrite connectToBrowserSandbox_run, resume_run, Hr, createSession_run.
  assert (Hm : history
                 (log (ResumeSettled Initial (Fulfilled sb))
                    (log (ResumeCalled Initial sandboxId) env)) ++
               [CreateSessionCalled Initial sb]
               = history env ++ createSessionMoment sandboxId sb).
  { simpl. rewrite <- !app_assoc. reflexivity. }
  rewrite Hm, Hs. unfold openClient. cbn [session sdkOptions].
  change (log (OpenCalled s)
            (log (CreateSessionSettled Initial (Fulfilled s))
               (log (CreateSessionCalled Initial sb)
                  (log (ResumeSettled Initial (Fulfilled sb))
                     (log (ResumeCalled Initial sandboxId) env)))))
    with (atOpen sandboxId sb s env).
  destruct (runTransport _ _ _) as [[c|e] envDone]; reflexivity.
Qed.

Lemma count_otherCallback kind (T : list Event) :
  (forall e, otherCallback e = true -> kind e = false) ->
  forallb otherCallback T = true -> count kind T = 0.
Proof.
  intros K. induction T as [|e T IH]; [reflexivity|].
  simpl. intros H. apply andb_true_iff in H. destruct H as [He HT].
  unfold count in *. simpl. rewrite (K e He). exact (IH HT).
Qed.

Lemma issued_otherCallback site (T : list Event) :
  forallb otherCallback T = true -> issued site T = [].
Proof.
  induction T as [|e T IH]; [reflexivity|].
  simpl. intros H. apply andb_true_iff in H. destruct H as [He HT].
  change (issued site (e :: T)) with
    ((match sessionCreated site e with Some s => [s] | None => [] end) ++ issued site T).
  rewrite (IH HT). destruct e; try discriminate; reflexivity.
Qed.

Lemma otherCallback_not_resume e :
  otherCallback e = true -> isResumeCall Reconnect e = false.
Proof. destruct e as [[]| | | | | | | | | | | |]; simpl; congruence. Qed.

Lemma otherCallback_not_fulfilledResume e :
  otherCallback e = true -> isFulfilledResume Reconnect e = false.
Proof. destruct e as [|[] []| | | | | | | | | | |]; simpl; congruence. Qed.

Lemma otherCallback_not_session e :
  otherCallback e = true -> isCreateSessionCall Reconnect e = false.
Proof. destruct e as [| |[]| | | | | | | | | |]; simpl; congruence. Qed.

(** What a run of the transport leaves of its supplier: one resume for
    every answer, a session creation for every resume that fulfilled, and
    the sessions it was given are the ones created meanwhile. *)
Lemma ledger_grows (P : Platform) (h T0 added : list Event)
    (results : list (Settled Session)) (hEnd : list Event) :
  forallb otherCallback T0 = true ->
  hEnd = (h ++ T0) ++ added ->
  count (isResumeCall Reconnect) added = length results ->
  count (isCreateSessionCall Reconnect) added =
    count (isFulfilledResume Reconnect) added ->
  length (fulfilled results) <= count (isCreateSessionCall Reconnect) added ->
  count (isCreateSessionCall Reconnect) added <= length results ->
  fulfilled results = issued Reconnect added ->
  Forall (fun s' => exists n, length (h ++ T0) + 3 <= n /\ answeredAt P n s')
    (fulfilled results) ->
  Forall (createdDuring P (h ++ T0) hEnd) (fulfilled results) ->
  hEnd = h ++ (T0 ++ added) /\
  count (isResumeCall Reconnect) (T0 ++ added) = length results /\
  count (isCreateSessionCall Reconnect) (T0 ++ added) =
    count (isFulfilledResume Reconnect) (T0 ++ added) /\
  length (fulfilled results) <= count (isCreateSessionCall Reconnect) (T0 ++ added) /\
  count (isCreateSessionCall Reconnect) (T0 ++ added) <= length results /\
  fulfilled results = issued Reconnect (T0 ++ added) /\
  Forall (fun s' => exists n, length h + 3 <= n /\ answeredAt P n s')
    (fulfilled results) /\
  Forall (createdDuring P h hEnd) (fulfilled results).
Proof.
  intros Q Hh C1 C2 C3 C4 I A D.
  rewrite !count_app, issued_app, (issued_otherCallback _ _ Q),
    (count_otherCallback _ T0 otherCallback_not_resume Q),
    (count_otherCallback _ T0 otherCallback_not_session Q),
    (count_otherCallback _ T0 otherCallback_not_fulfilledResume Q).
  split; [rewrite Hh, <- app_assoc; reflexivity|].
  repeat split; try assumption.
  - eapply Forall_impl; [|exact A]. simpl. intros s' (n & Hn & Ha).
    exists n. split; [|exact Ha]. rewrite length_app in Hn. lia.
  - eapply Forall_impl; [|exact D]. simpl. intros s' (h1 & sb & rest & E & L & Ha).
    exists h1, sb, rest. repeat split; try assumption.
    rewrite length_app in L. lia.
Qed.

Lemma recording_run (P : Platform) sdk s options R (t : Transport R) :
  forall seen env,
  exists results r env' added,
    runTransport (sdkOptions P sdk s options) (recording t seen) env
      = ((seen ++ results, r), env') /\
    runTransport (sdkOptions P sdk s options) t env = (r, env') /\
    history env' = history env ++ added /\
    count (isResumeCall Reconnect) added = length results /\
    count (isCreateSessionCall Reconnect) added =
      count (isFulfilledResume Reconnect) added /\
    length (fulfilled results) <= count (isCreateSessionCall Reconnect) added /\
    count (isCreateSessionCall Reconnect) added <= length results /\
    fulfilled results = issued Reconnect added /\
    Forall (fun s' => exists n, length (history env) + 3 <= n /\ answeredAt P n s')
      (fulfilled results) /\
    Forall (createdDuring P (history env) (history env')) (fulfilled results) /\
    (neverReissues P -> NoDup (fulfilled results)).
Proof.
  induction t as [r0|sandboxId k IH|notify k IH|u k IH|event k IH];
    intros seen env; cbn [recording runTransport].
  - exists [], r0, env, []. rewrite !app_nil_r. repeat split; constructor.
  - cbn [getSession sdkOptions].
    destruct (getSession_closure P sdk sandboxId env) as [r1 env1] eqn:E.
    destruct (IH r1 (seen ++ [r1]) env1)
      as (results & r & env' & added & E1 & E2 & Hh & C1 & C2 & C3 & C4 & I & A & D & N).
    destruct (getSession_closure_answered _ _ _ _ _ _ E) as [Hlen Hans].
    exists (r1 :: results), r, env'.
    assert (A' : Forall (fun s' => exists n, length (history env) + 3 <= n /\ answeredAt P n s')
                   (fulfilled results)).
    { eapply Forall_impl; [|exact A]. simpl. intros s' (n & Hn & Ha).
      exists n. split; [lia|exact Ha]. }
    assert (D' : Forall (createdDuring P (history env) (history env')) (fulfilled results)).
    { eapply Forall_impl; [|exact D]. simpl. intros s' (h1 & sb & rest & Eh & L & Ha).
      exists h1, sb, rest. repeat split; try assumption. lia. }
    destruct (getSession_closure_history _ _ _ _ _ _ E) as [(e & -> & Hg)|(sb & Hg & Hr)].
    + eexists. rewrite <- app_assoc in E1.
      split; [exact E1|]. split; [exact E2|].
      split; [rewrite Hh, Hg, <- app_assoc; reflexivity|].
      rewrite !count_app, issued_app. cbn [fulfilled].
      split; [rewrite C1; reflexivity|]. split; [rewrite C2; reflexivity|].
      split; [exact C3|]. split; [simpl; lia|].
      repeat split; assumption.
    + eexists. rewrite <- app_assoc in E1.
      split; [exact E1|]. split; [exact E2|].
      split; [rewrite Hh, Hg, <- app_assoc; reflexivity|].
      rewrite !count_app, issued_app.
      split; [rewrite C1; reflexivity|]. split; [rewrite C2; reflexivity|].
      split; [destruct r1; cbn [fulfilled length]; change (count (isCreateSessionCall Reconnect)
                [ResumeCalled Reconnect sandboxId; ResumeSettled Reconnect (Fulfilled sb);
                 CreateSessionCalled Reconnect sb; CreateSessionSettled Reconnect _]) with 1; lia|].
      split; [change (count (isCreateSessionCall Reconnect)
                [ResumeCalled Reconnect sandboxId; ResumeSettled Reconnect (Fulfilled sb);
                 CreateSessionCalled Reconnect sb; CreateSessionSettled Reconnect r1]) with 1;
              simpl; lia|].
      destruct r1 as [s1|e1]; cbn [fulfilled].
      * split; [rewrite I; reflexivity|]. split; [|split].
        -- constructor; [|exact A'].
           destruct (Hans s1 eq_refl) as [Ha _]. eexists. split; [|exact Ha]. lia.
        -- constructor; [|exact D'].
           exists (history env ++
                   [ResumeCalled Reconnect sandboxId; ResumeSettled Reconnect (Fulfilled sb);
                    CreateSessionCalled Reconnect sb]), sb, added.
           split; [rewrite Hh, Hg, <- !app_assoc; reflexivity|].
           split; [rewrite length_app; simpl; lia|]. symmetry; exact Hr.
        -- intros F. constructor; [|exact (N F)]. intros Hin.
           destruct (Hans s1 eq_refl) as [Ha Hl].
           destruct (proj1 (Forall_forall _ _) A s1 Hin) as (n & Hn & Ha').
           pose proof (answeredAt_unique _ _ _ _ F Ha Ha'). lia.
      * repeat split; assumption.
  - cbn [onFocusChange sdkOptions].
    destruct (chosen_onFocusChange options notify env) as [u env1] eqn:E.
    destruct (chosen_onFocusChange_frame _ _ _ _ _ E) as (_ & _ & _ & Hh1).
    destruct (IH u seen (log (FocusChangeCalled notify u) env1))
      as (results & r & env' & added & E1 & E2 & Hh & C1 & C2 & C3 & C4 & I & A & D & N).
    cbn [history log] in Hh, A, D. rewrite Hh1 in Hh, A, D.
    exists results, r, env', ([FocusChangeCalled notify u] ++ added).
    split; [exact E1|]. split; [exact E2|].
    destruct (ledger_grows P (history env) [FocusChangeCalled notify u] added results
                (history env') eq_refl Hh C1 C2 C3 C4 I A D)
        as (L1 & L2 & L3 & L4 & L5 & L6 & L7 & L8).
    repeat split; assumption.
  - destruct (IH seen (unsubscribe u env))
      as (results & r & env' & added & E1 & E2 & Hh & C1 & C2 & C3 & C4 & I & A & D & N).
    assert (Hu : exists T0, history (unsubscribe u env) = history env ++ T0 /\
                            forallb otherCallback T0 = true).
    { destruct u as [f|hook notify]; simpl.
      - exists []. rewrite app_nil_r. auto.
      - exists [CallerUnsubscribed hook notify]. auto. }
    destruct Hu as (T0 & Hu & Q). rewrite Hu in Hh, A, D.
    exists results, r, env', (T0 ++ added).
    split; [exact E1|]. split; [exact E2|].
    destruct (ledger_grows P _ _ _ _ _ Q Hh C1 C2 C3 C4 I A D)
      as (L1 & L2 & L3 & L4 & L5 & L6 & L7 & L8).
    repeat split; assumption.
  - cbn [initStatusCb sdkOptions] in *.
    destruct (chosen_initStatusCb options) as [cb|].
    + destruct (IH seen (log (InitStatus cb event) env))
        as (results & r & env' & added & E1 & E2 & Hh & C1 & C2 & C3 & C4 & I & A & D & N).
      cbn [history log] in Hh, A, D.
      exists results, r, env', ([InitStatus cb event] ++ added).
      split; [exact E1|]. split; [exact E2|].
      destruct (ledger_grows P (history env) [InitStatus cb event] added results
                  (history env') eq_refl Hh C1 C2 C3 C4 I A D)
        as (L1 & L2 & L3 & L4 & L5 & L6 & L7 & L8).
      repeat split; assumption.
    + exact (IH seen env).
Qed.

Lemma createdDuring_notIssuedBefore (P : Platform) (before after : list Event)
    (s : Session) :
  neverReissues P -> createdDuring P before after s ->
  notIssuedBefore P (length before) s.
Proof.
  intros F (h & sb & rest & _ & L & A) h0 sb0 L0 A0.
  pose proof (F _ _ _ _ _ A0 A). lia.
Qed.

Lemma answeredAt_notIssuedBefore (P : Platform) (n moment : nat) (s : Session) :
  neverReissues P -> answeredAt P n s -> moment < n -> notIssuedBefore P moment s.
Proof.
  intros F (h & sb & L & A) Hlt h0 sb0 L0 A0.
  pose proof (F _ _ _ _ _ A0 A). lia.
Qed.

(** ** The code, run *)

Example steady_connect_registers_one_listener :
  fst (connectToSandbox Demo.steady (Some Demo.demoSdk) (Some Demo.demoInfo) Demo.freshPage)
    = Fulfilled (Some {| client_handle := 5 |}) /\
  listeners Demo.connected = [{| closure := 0; notifies := 1 |}] /\
  listeners Demo.disconnected = [].
Proof. repeat split. Qed.

Example background_then_foreground :
  history (run Demo.steady [ChangeVisibility hidden; ChangeVisibility visible] Demo.connected)
    = history Demo.connected ++ [Notified 1 false; Notified 1 true].
Proof. reflexivity. Qed.

Example teardown_error_is_swallowed :
  fst (disconnectFromSandbox (Demo.disconnectThrows (JsError "socket already closed"))
         (activeSandbox Demo.connected) Demo.connected) = Fulfilled tt.
Proof. reflexivity. Qed.

Example resume_rejection_registers_nothing :
  history
    (run (Demo.resumeRejects (JsError "Sandbox not found"))
       [Connect (Some "csb_v1_key") (Some Demo.demoInfo); ChangeVisibility visible]
       Demo.freshPage)
  = [ResumeCalled Initial "abc123";
     ResumeSettled Initial (Rejected (JsError "Sandbox not found"))].
Proof. reflexivity. Qed.

(** * The claims *)

(** C1, as stated, fails in one respect: an invocation of the session
    supplier whose resume rejects makes no session creation, so N
    invocations do not always make N session-create calls. Here the first
    connect succeeds, the transport then asks its supplier for a session
    once, and the resume of that reconnect rejects: one resume call, no
    session-create call. *)
Lemma rejected_reconnect_resume_creates_no_session :
  exists c env1 results env2,
    connectToSandbox (Demo.resumeRejectsOnReconnect (JsError "Sandbox not found"))
      (Some Demo.demoSdk) (Some Demo.demoInfo) Demo.freshPage
    = (Fulfilled (Some c), env1) /\
    runTransport
      (sdkOptions (Demo.resumeRejectsOnReconnect (JsError "Sandbox not found"))
         Demo.demoSdk Demo.demoSession hookOptions)
      (recording Demo.asksOnce []) env1
    = ((results, Rejected (JsError "Sandbox not found")), env2) /\
    In (OpenCalled Demo.demoSession) (history env1) /\
    length results = 1 /\
    history env2 = history env1 ++
      [ResumeCalled Reconnect "abc123";
       ResumeSettled Reconnect (Rejected (JsError "Sandbox not found"))] /\
    count (isResumeCall Reconnect) (history env2) = 1 /\
    count (isCreateSessionCall Reconnect) (history env2) = 0.
Proof.
  do 4 eexists. split; [reflexivity|]. split; [reflexivity|].
  cbn. repeat split. auto 10.
Qed.

(** C1, amended. [connectToBrowserSandbox] opens the client with the
    session the platform answered to the creation made in that call, after
    the resume made in that call, and hands the transport an options
    object whose [getSession] keeps nothing. Whatever the transport does
    with these options, each time it asks its supplier there is one more
    resume call, and one session creation for every resume that fulfilled
    (so N creations for N invocations when every invocation yields a
    session, fewer when a resume rejects). The sessions the transport is
    given are exactly the ones created during its run, each by the
    invocation that returned it. On a platform that never answers two
    creations with the same session they are all different and none was
    issued before the run; connect, disconnect, connect open with two
    different sessions, the second one never issued before the second
    connect began, and no later invocation of the supplier returns either
    of them. *)
Theorem sessions_are_always_fresh :
  forall (P : Platform) (sdk : CodeSandbox),
    (forall sandboxId options env sb s,
        sandboxes_resume P (history env ++ [ResumeCalled Initial sandboxId]) sdk sandboxId
          = Fulfilled sb ->
        sandbox_createSession P (history env ++ createSessionMoment sandboxId sb) sb
          = Fulfilled s ->
        connectToBrowserSandbox P sdk sandboxId options env =
        let (rc, envDone) :=
          runTransport (sdkOptions P sdk s options)
            (browser_connectToSandbox P (history (atOpen sandboxId sb s env)) s)
            (atOpen sandboxId sb s env) in
        (match rc with
         | Fulfilled c => Fulfilled (c, sb)
         | Rejected e => Rejected e
         end, log (OpenSettled rc) envDone)) /\
    (forall s options R (t : Transport R) env,
        let '(results, r, env') :=
          runTransport (sdkOptions P sdk s options) (recording t []) env in
        runTransport (sdkOptions P sdk s options) t env = (r, env') /\
        exists added,
          history env' = history env ++ added /\
          count (isResumeCall Reconnect) added = length results /\
          count (isCreateSessionCall Reconnect) added =
            count (isFulfilledResume Reconnect) added /\
          count (isCreateSessionCall Reconnect) added <= length results /\
          (length (fulfilled results) = length results ->
           count (isCreateSessionCall Reconnect) added = length results) /\
          fulfilled results = issued Reconnect added /\
          Forall (createdDuring P (history env) (history env')) (fulfilled results) /\
          (neverReissues P ->
           NoDup (fulfilled results) /\
           Forall (notIssuedBefore P (length (history env))) (fulfilled results))) /\
    (neverReissues P ->
     forall info env c1 env1 env2 c2 env3,
       connectToSandbox P (Some sdk) (Some info) env = (Fulfilled (Some c1), env1) ->
       disconnectFromSandbox P (activeSandbox env1) env1 = (Fulfilled tt, env2) ->
       connectToSandbox P (Some sdk) (Some info) env2 = (Fulfilled (Some c2), env3) ->
       exists sb1 s1 rest1 sb2 s2 rest2,
         history env1 = history env ++ connectPrefix (info_id info) sb1 s1 ++ rest1 /\
         sandbox_createSession P
           (history env ++ createSessionMoment (info_id info) sb1) sb1 = Fulfilled s1 /\
         history env3 = history env2 ++ connectPrefix (info_id info) sb2 s2 ++ rest2 /\
         sandbox_createSession P
           (history env2 ++ createSessionMoment (info_id info) sb2) sb2 = Fulfilled s2 /\
         s1 <> s2 /\
         notIssuedBefore P (length (history env)) s1 /\
         notIssuedBefore P (length (history env2)) s2 /\
         forall R (t : Transport R),
           NoDup (s1 :: s2 ::
                  fulfilled
                    (fst (fst (runTransport (sdkOptions P sdk s2 hookOptions)
                                 (recording t []) env3))))).
Proof.
  intros P sdk. split; [|split].
  - intros sandboxId options env sb s Hr Hs.
    exact (connectToBrowserSandbox_opens P sdk sandboxId options env sb s Hr Hs).
  - intros s options R t env.
    destruct (recording_run P sdk s options R t [] env)
      as (results & r & env' & added & E1 & E2 & Hh & C1 & C2 & C3 & C4 & I & A & D & N).
    cbn [app] in E1. rewrite E1.
    split; [exact E2|]. exists added.
    split; [exact Hh|]. split; [exact C1|]. split; [exact C2|]. split; [exact C4|].
    split; [intros Hall; lia|]. split; [exact I|]. split; [exact D|].
    intros F. split; [exact (N F)|].
    eapply Forall_impl; [|exact D].
    intros s'. apply createdDuring_notIssuedBefore. exact F.
  - intros F info env c1 env1 env2 c2 env3 H1 H2 H3.
    destruct (connectToSandbox_opened _ _ _ _ _ _ H1)
      as (c1' & sb1 & s1 & rest1 & _ & _ & Hs1 & Hh1 & _).
    destruct (connectToSandbox_opened _ _ _ _ _ _ H3)
      as (c2' & sb2 & s2 & rest2 & _ & _ & Hs2 & Hh3 & _).
    pose proof (disconnectFromSandbox_settles P (activeSandbox env1) env1) as D.
    rewrite H2 in D. destruct D as (_ & _ & _ & (addedD & HhD & _) & _).
    exists sb1, s1, rest1, sb2, s2, rest2.
    assert (A1 : answeredAt P (length (history env) + 3) s1).
    { eexists; exists sb1. split; [|exact Hs1]. rewrite length_app. reflexivity. }
    assert (A2 : answeredAt P (length (history env2) + 3) s2).
    { eexists; exists sb2. split; [|exact Hs2]. rewrite length_app. reflexivity. }
    assert (L1 : length (history env) + 5 <= length (history env1)).
    { rewrite Hh1, !length_app. simpl. lia. }
    assert (L2 : length (history env1) <= length (history env2)).
    { rewrite HhD, length_app. lia. }
    assert (L3 : length (history env2) + 5 <= length (history env3)).
    { rewrite Hh3, !length_app. simpl. lia. }
    repeat split; try assumption.
    + intros ->. pose proof (answeredAt_unique _ _ _ _ F A1 A2). lia.
    + apply (answeredAt_notIssuedBefore P _ _ _ F A1). lia.
    + apply (answeredAt_notIssuedBefore P _ _ _ F A2). lia.
    + intros R t.
      destruct (recording_run P sdk s2 hookOptions R t [] env3)
        as (results & r & env4 & added & E1 & _ & _ & _ & _ & _ & _ & _ & A & _ & N).
      cbn [app] in E1. rewrite E1. cbn [fst].
      rewrite Forall_forall in A.
      constructor; [|constructor].
      * intros [Heq|Hin].
        -- subst s2. pose proof (answeredAt_unique _ _ _ _ F A1 A2). lia.
        -- destruct (A _ Hin) as (n & Hn & Ha).
           pose proof (answeredAt_unique _ _ _ _ F A1 Ha). lia.
      * intros Hin. destruct (A _ Hin) as (n & Hn & Ha).
        pose proof (answeredAt_unique _ _ _ _ F A2 Ha). lia.
      * exact (N F).
Qed.

Lemma sessions_are_always_fresh_witness :
  neverReissues Demo.steady /\
  exists sb1 s1 rest1 sb2 s2 rest2,
    history Demo.connected =
      history Demo.freshPage ++ connectPrefix "abc123" sb1 s1 ++ rest1 /\
    sandbox_createSession Demo.steady
      (history Demo.freshPage ++ createSessionMoment "abc123" sb1) sb1 = Fulfilled s1 /\
    history Demo.reconnected =
      history Demo.disconnected ++ connectPrefix "abc123" sb2 s2 ++ rest2 /\
    sandbox_createSession Demo.steady
      (history Demo.disconnected ++ createSessionMoment "abc123" sb2) sb2 = Fulfilled s2 /\
    s1 <> s2 /\
    notIssuedBefore Demo.steady (length (history Demo.freshPage)) s1 /\
    notIssuedBefore Demo.steady (length (history Demo.disconnected)) s2 /\
    forall R (t : Transport R),
      NoDup (s1 :: s2 ::
             fulfilled
               (fst (fst (runTransport (sdkOptions Demo.steady Demo.demoSdk s2 hookOptions)
                            (recording t []) Demo.reconnected)))).
Proof.
  split; [exact steady_neverReissues|].
  exact (proj2 (proj2 (sessions_are_always_fresh Demo.steady Demo.demoSdk))
           steady_neverReissues Demo.demoInfo
           Demo.freshPage {| client_handle := 5 |} Demo.connected Demo.disconnected
           {| client_handle := 14 |} Demo.reconnected eq_refl eq_refl eq_refl).
Defined.

(** C2. Within one invocation of [connectToBrowserSandbox] the three remote
    steps are strictly sequential, for every platform and every input: the
    events of the invocation are the resume call and its settling; then,
    only when the resume fulfilled, the session creation and its settling;
    then, only when the creation fulfilled, the call of the transport's
    open, what the transport does, and the settling of the open. Nothing
    is reordered and no step starts before the one before it has
    settled. *)
Theorem connect_steps_are_sequential :
  forall (P : Platform) (sdk : CodeSandbox) (sandboxId : string)
         (options : option ConnectOptions) (env : Env),
    let (r, env') := connectToBrowserSandbox P sdk sandboxId options env in
    (exists e,
        r = Rejected e /\
        history env' = history env ++
          [ResumeCalled Initial sandboxId; ResumeSettled Initial (Rejected e)])
    \/
    (exists sb e,
        r = Rejected e /\
        history env' = history env ++
          [ResumeCalled Initial sandboxId; ResumeSettled Initial (Fulfilled sb);
           CreateSessionCalled Initial sb; CreateSessionSettled Initial (Rejected e)])
    \/
    (exists sb s T rc,
        r = match rc with
            | Fulfilled c => Fulfilled (c, sb)
            | Rejected e => Rejected e
            end /\
        history env' = history env ++
          [ResumeCalled Initial sandboxId; ResumeSettled Initial (Fulfilled sb);
           CreateSessionCalled Initial sb; CreateSessionSettled Initial (Fulfilled s);
           OpenCalled s] ++ T ++ [OpenSettled rc] /\
        forallb byTransport T = true).
Proof.
  intros P sdk sandboxId options env.
  destruct (connectToBrowserSandbox P sdk sandboxId options env) as [r env'] eqn:E.
  destruct (connectToBrowserSandbox_attempt _ _ _ _ _ _ _ E) as [A _].
  inversion A as [e env0 _ Hh _ _|sb e env0 _ _ Hh _ _|
                  sb s T rc envOpen envDone env0 _ _ _ _ _ _ Hh HT _ _]; subst.
  - left. exists e. auto.
  - right; left. exists sb, e. auto.
  - right; right. exists sb, s, T, rc. auto.
Qed.

(** C3, as stated, fails: a resume that rejects does not make the
    surfaced error a session error. Here the resume rejects with the
    reason "Sandbox not found"; no session creation and no open is
    attempted, and the error the hook reports is the generic one. *)
Lemma resume_rejection_reported_as_unknown :
  exists env',
    connectToSandbox (Demo.resumeRejects (JsError "Sandbox not found"))
      (Some Demo.demoSdk) (Some Demo.demoInfo) Demo.freshPage
    = (Rejected (JsError "Sandbox not found"), env') /\
    history env' =
      [ResumeCalled Initial "abc123";
       ResumeSettled Initial (Rejected (JsError "Sandbox not found"))] /\
    connectionError env' = Some "Connection failed: Sandbox not found" /\
    classify (JsError "Sandbox not found") = UnknownError /\
    classify (JsError "Sandbox not found") <> SessionError.
Proof.
  eexists. split; [reflexivity|]. cbn.
  repeat split; discriminate.
Qed.

(** C3, amended. When connect fails, the class of the surfaced error is
    decided by the text of the rejection reason, whichever step rejected:
    an [Error] whose message contains "WebSocket" is a transport error;
    otherwise an [Error] whose message contains "session" is a session
    error; anything else is unknown. The connection error the hook sets is
    the message of that class. *)
Theorem connect_error_is_classified_by_message :
  forall (P : Platform) (sdk : CodeSandbox) (info : SandboxInfo)
         (env : Env) (e : JsValue) (env' : Env),
    connectToSandbox P (Some sdk) (Some info) env = (Rejected e, env') ->
    (exists before ev,
        history env' = history env ++ before ++ [ev] /\ rejectionOf ev = Some e) /\
    connectionError env' = Some (connectErrorMessage e) /\
    (classify e = TransportError <->
       exists m, e = JsError m /\ includes "WebSocket" m = true) /\
    (classify e = SessionError <->
       exists m, e = JsError m /\ includes "WebSocket" m = false /\
                 includes "session" m = true) /\
    (classify e = TransportError ->
       connectErrorMessage e =
       "WebSocket connection failed. Please check your internet connection and try again.") /\
    (classify e = SessionError ->
       connectErrorMessage e =
       "Failed to create sandbox session. The sandbox may be starting up - try again in a moment.") /\
    (classify e = UnknownError ->
       connectErrorMessage e =
       match e with
       | JsError m => ("Connection failed: " ++ m)%string
       | _ => "Failed to connect to sandbox"
       end).
Proof.
  intros P sdk info env e env' H.
  destruct (connectToSandbox_rejected _ _ _ _ _ _ H) as (env1 & A & _ & ->).
  destruct (Attempt_rejected _ _ _ _ _ _ _ A) as (before & ev & Hh & Hr & _).
  split; [exists before, ev; auto|]. split; [reflexivity|].
  unfold classify, connectErrorMessage.
  destruct e as [m|m|].
  - destruct (includes "WebSocket" m) eqn:W; [|destruct (includes "session" m) eqn:S].
    + repeat split; try discriminate; try reflexivity.
      * intros _. exists m; auto.
      * intros (m' & E & W' & _). inversion E; subst. congruence.
    + repeat split; try discriminate; try reflexivity.
      * intros (m' & E & W'). inversion E; subst. congruence.
      * intros _. exists m; auto.
    + repeat split; try discriminate; try reflexivity.
      * intros (m' & E & W'). inversion E; subst. congruence.
      * intros (m' & E & _ & S'). inversion E; subst. congruence.
  - repeat split; try discriminate; try reflexivity;
      intros (m' & E & _); discriminate.
  - repeat split; try discriminate; try reflexivity;
      intros (m' & E & _); discriminate.
Qed.

Lemma connect_error_is_classified_by_message_witness :
  classify (JsError "session expired") = SessionError /\
  connectionError
    (snd (connectToSandbox (Demo.openRejects (JsError "session expired"))
            (Some Demo.demoSdk) (Some Demo.demoInfo) Demo.freshPage))
  = Some (connectErrorMessage (JsError "session expired")).
Proof.
  split; [reflexivity|].
  exact (proj1 (proj2
    (connect_error_is_classified_by_message
       (Demo.openRejects (JsError "session expired"))
       Demo.demoSdk Demo.demoInfo Demo.freshPage _ _ eq_refl))).
Defined.

(** C4, as stated, fails for reconnects: the session supplier resumes the
    sandbox again, and nothing is copied onto the handle that resume
    resolves. Here the listing entry has the title "Demo"; after a
    connect, the transport asks for a session once; the handle the
    reconnect resumed, on which the new session is created, has no
    title. *)
Lemma reconnect_handle_carries_no_title :
  exists r env2,
    runTransport (sdkOptions Demo.steady Demo.demoSdk Demo.demoSession hookOptions)
      Demo.asksOnce Demo.connected = (r, env2) /\
    info_title Demo.demoInfo = Some "Demo" /\
    history env2 = history Demo.connected ++
      [ResumeCalled Reconnect "abc123";
       ResumeSettled Reconnect (Fulfilled (Demo.bareSandbox "abc123"));
       CreateSessionCalled Reconnect (Demo.bareSandbox "abc123");
       CreateSessionSettled Reconnect r] /\
    title (Demo.bareSandbox "abc123") = None /\
    title (Demo.bareSandbox "abc123") <> info_title Demo.demoInfo.
Proof.
  do 2 eexists. split; [reflexivity|]. cbn. repeat split. discriminate.
Qed.

(** C4, amended. After a successful connect the resolved handle, the
    sandbox of the active connection, is the sandbox the resume answered
    with the five fields of the caller's listing entry written onto it:
    title, privacy, createdAt, updatedAt and tags are the caller's,
    whatever the resume answered for them. A reconnect copies nothing: the
    session supplier the transport was handed resumes the sandbox again
    and creates the session on the handle exactly as the platform
    answered it. Neither the supplier nor anything else the transport
    does with its callbacks replaces the handle of the active connection,
    so that one keeps the caller's fields through every reconnect. *)
Theorem metadata_is_kept_on_the_handle :
  forall (P : Platform) (sdk : CodeSandbox) (info : SandboxInfo)
         (env : Env) (c : SandboxClient) (env1 : Env),
    connectToSandbox P (Some sdk) (Some info) env = (Fulfilled (Some c), env1) ->
    exists sb handle,
      sandboxes_resume P (history env ++ [ResumeCalled Initial (info_id info)])
        sdk (info_id info) = Fulfilled sb /\
      handle = withMetadata sb info /\
      activeSandbox env1 =
        Some {| sandbox := Some handle; client := Some c; isConnecting := false |} /\
      id handle = id sb /\
      title handle = info_title info /\
      privacy handle = info_privacy info /\
      createdAt handle = info_createdAt info /\
      updatedAt handle = info_updatedAt info /\
      tags handle = info_tags info /\
      (forall s options sandboxId page,
          let (r, page') := getSession (sdkOptions P sdk s options) sandboxId page in
          activeSandbox page' = activeSandbox page /\
          match sandboxes_resume P (history page ++ [ResumeCalled Reconnect sandboxId])
                  sdk sandboxId with
          | Fulfilled reconnectSandbox =>
              history page' = history page ++
                [ResumeCalled Reconnect sandboxId;
                 ResumeSettled Reconnect (Fulfilled reconnectSandbox);
                 CreateSessionCalled Reconnect reconnectSandbox;
                 CreateSessionSettled Reconnect r]
          | Rejected e =>
              history page' = history page ++
                [ResumeCalled Reconnect sandboxId; ResumeSettled Reconnect (Rejected e)]
          end) /\
      (forall s options R (t : Transport R) page,
          activeSandbox (snd (runTransport (sdkOptions P sdk s options) t page))
          = activeSandbox page) /\
      (forall s options R (t : Transport R),
          activeSandbox (snd (runTransport (sdkOptions P sdk s options) t env1))
          = Some {| sandbox := Some handle; client := Some c; isConnecting := false |}).
Proof.
  intros P sdk info env c env1 H.
  destruct (connectToSandbox_opened _ _ _ _ _ _ H) as (c' & sb & s & rest & Hc & Hr & _ & _ & Ha).
  inversion Hc; subst c'.
  exists sb, (withMetadata sb info).
  repeat split; try assumption.
  - intros s0 options sandboxId page. cbn [getSession sdkOptions].
    destruct (getSession_closure P sdk sandboxId page) as [r page'] eqn:E.
    destruct (getSession_closure_frame _ _ _ _ _ _ E) as (A1 & _).
    split; [exact A1|].
    rewrite getSession_closure_run, resume_run in E.
    destruct (sandboxes_resume P _ sdk sandboxId) as [sb'|e].
    + rewrite createSession_run in E. inversion E; subst; clear E. simpl.
      rewrite <- !app_assoc. reflexivity.
    + inversion E; subst; clear E. simpl. rewrite <- !app_assoc. reflexivity.
  - intros s0 options R t page.
    destruct (runTransport (sdkOptions P sdk s0 options) t page) as [r page'] eqn:E.
    exact (proj1 (runTransport_frame _ _ _ _ _ _ _ _ _ E)).
  - intros s0 options R t. rewrite <- Ha.
    destruct (runTransport (sdkOptions P sdk s0 options) t env1) as [r page'] eqn:E.
    exact (proj1 (runTransport_frame _ _ _ _ _ _ _ _ _ E)).
Qed.

Lemma metadata_is_kept_on_the_handle_witness :
  exists sb handle,
    Fulfilled (Demo.bareSandbox "abc123") = Fulfilled sb /\
    handle = withMetadata sb Demo.demoInfo /\
    activeSandbox Demo.connected
    = Some {| sandbox := Some handle;
              client := Some {| client_handle := 5 |};
              isConnecting := false |} /\
    id handle = id sb /\
    title handle = Some "Demo".
Proof.
  destruct (metadata_is_kept_on_the_handle Demo.steady Demo.demoSdk Demo.demoInfo
              Demo.freshPage {| client_handle := 5 |} _ eq_refl)
    as (sb & handle & H1 & H2 & H3 & H4 & H5 & _).
  exists sb, handle. repeat split; assumption.
Defined.

(** C5, as stated, fails: the hook has no listener bookkeeping of its own.
    On a platform whose transport registers for focus changes and then
    rejects its open, a rejected connect leaves that listener registered:
    the next time the page becomes visible its [notify] is called. *)
Lemma rejected_open_can_leave_a_listener :
  exists e env',
    connectToSandbox
      (Demo.openRejectsAfterRegistering (JsError "WebSocket handshake failed"))
      (Some Demo.demoSdk) (Some Demo.demoInfo) Demo.freshPage
    = (Rejected e, env') /\
    activeSandbox env' = None /\
    listeners Demo.freshPage = [] /\
    listeners env' = [{| closure := 0; notifies := 1 |}] /\
    history (changeVisibility visible env') = history env' ++ [Notified 1 true].
Proof.
  eexists; eexists. split; [reflexivity|]. cbn. repeat split.
Qed.

(** C5, amended. After any rejected connect the active-sandbox reference
    is null. When the rejection came from the resume or from the session
    creation, the transport was not called and the registered visibility
    listeners are those of before the call. When the transport's open
    rejected, the hook removes nothing: the listeners are the ones the
    transport left when its open settled. *)
Theorem failed_connect_keeps_no_client :
  forall (P : Platform) (sdk : CodeSandbox) (info : SandboxInfo)
         (env : Env) (e : JsValue) (env' : Env),
    connectToSandbox P (Some sdk) (Some info) env = (Rejected e, env') ->
    activeSandbox env' = None /\
    exists added,
      history env' = history env ++ added /\
      ((count isOpenCall added = 0 /\
        listeners env' = listeners env /\
        nextClosure env' = nextClosure env)
       \/
       (exists s envOpen envDone,
           count isOpenCall added = 1 /\
           listeners envOpen = listeners env /\
           runTransport (sdkOptions P sdk s hookOptions)
             (browser_connectToSandbox P (history envOpen) s) envOpen
           = (Rejected e, envDone) /\
           listeners env' = listeners envDone)).
Proof.
  intros P sdk info env e env' H.
  destruct (connectToSandbox_rejected _ _ _ _ _ _ H) as (env1 & A & _ & ->).
  split; [reflexivity|]. cbn [history listeners nextClosure withActiveSandbox withConnectionError].
  inversion A as [e0 env0 Hp1 Hh Hl Hn|sb e0 env0 Hp1 Hp2 Hh Hl Hn|
                  sb s T rc envOpen envDone env0 Hp1 Hp2 Hh Hl Hn Hrun Hh' HT Hl' Hn' Hr];
    subst.
  - eexists. split; [exact Hh|]. left. repeat split; assumption.
  - eexists. split; [exact Hh|]. left. repeat split; assumption.
  - destruct rc as [c|e0]; [discriminate|]. inversion Hr; subst.
    eexists. split; [exact Hh'|]. right. exists s, envOpen, envDone.
    repeat split; try assumption.
    rewrite !count_app, (count_byTransport _ T byTransport_not_open HT).
    reflexivity.
Qed.

Lemma failed_connect_keeps_no_client_witness :
  activeSandbox
    (snd (connectToSandbox (Demo.createSessionRejects (JsError "session limit reached"))
            (Some Demo.demoSdk) (Some Demo.demoInfo) Demo.freshPage)) = None.
Proof.
  exact (proj1
    (failed_connect_keeps_no_client
       (Demo.createSessionRejects (JsError "session limit reached"))
       Demo.demoSdk Demo.demoInfo Demo.freshPage _ _ eq_refl)).
Defined.



(** C7. [disconnectFromSandbox] never throws and always clears both the
    active sandbox and the connection error, whatever the state of the
    client and whatever [client.disconnect()] throws: the teardown is
    attempted once on the captured client and its error is swallowed.
    Called a second time it again returns normally: through the callback of
    the next render it changes nothing at all, not even calling
    [client.disconnect()] again; through the same, stale callback it
    repeats the teardown, swallows what that throws, and leaves the state
    cleared. *)
Theorem disconnect_is_idempotent_and_total :
  forall (P : Platform) (captured : option SandboxWithClient) (env : Env),
    let (r, env1) := disconnectFromSandbox P captured env in
    r = Fulfilled tt /\
    activeSandbox env1 = None /\
    connectionError env1 = None /\
    (exists added,
        history env1 = history env ++ added /\
        count isDisconnectCall added =
          match captured with
          | Some {| client := Some _ |} => 1
          | _ => 0
          end) /\
    disconnectFromSandbox P (activeSandbox env1) env1 = (Fulfilled tt, env1) /\
    (let (r2, env2) := disconnectFromSandbox P captured env1 in
     r2 = Fulfilled tt /\ activeSandbox env2 = None /\ connectionError env2 = None).
Proof.
  intros P captured env.
  pose proof (disconnectFromSandbox_settles P captured env) as G1.
  destruct (disconnectFromSandbox P captured env) as [r env1].
  destruct G1 as (R1 & A1 & C1 & H1 & I1).
  repeat split; try assumption.
  pose proof (disconnectFromSandbox_settles P captured env1) as G2.
  destruct (disconnectFromSandbox P captured env1) as [r2 env2].
  destruct G2 as (R2 & A2 & C2 & _). auto.
Qed.

(** C8. With no [onFocusChange] from the caller, [connectToBrowserSandbox]
    hands the transport the default trigger. When the transport, called
    by connect, registers with its [notify], connect goes on with one more
    listener for the document's visibility changes, and the transport
    holds the function that removes it; the same happens at every later
    registration. As long as that listener is registered, every change of
    the page to visible (so every change from hidden to visible) calls
    [notify] with [true], once for each registered listener. The function
    the registration returns removes the listener it added and no other:
    called right away it restores the listeners of before, and called in
    any later state it removes the closure of this registration and keeps
    every other listener. *)
Theorem default_trigger_notifies_on_visible :
  forall (P : Platform) (sdk : CodeSandbox) (sandboxId : string)
         (options : option ConnectOptions) (env : Env)
         (sb : Sandbox) (s : Session) (notify : nat)
         (k : Unsubscribe -> Transport (Settled SandboxClient)),
    wellFormed env ->
    callerFocusHook options = None ->
    sandboxes_resume P (history env ++ [ResumeCalled Initial sandboxId]) sdk sandboxId
      = Fulfilled sb ->
    sandbox_createSession P (history env ++ createSessionMoment sandboxId sb) sb
      = Fulfilled s ->
    browser_connectToSandbox P (history (atOpen sandboxId sb s env)) s
      = RegisterFocus notify k ->
    let l := {| closure := nextClosure env; notifies := notify |} in
    let u := RemoveListener (nextClosure env) in
    let registered :=
      log (FocusChangeCalled notify u)
        (snd (addEventListener notify (atOpen sandboxId sb s env))) in
    onFocusChange (sdkOptions P sdk s options) = default_onFocusChange /\
    connectToBrowserSandbox P sdk sandboxId options env =
      (let (rc, envDone) := runTransport (sdkOptions P sdk s options) (k u) registered in
       (match rc with
        | Fulfilled c => Fulfilled (c, sb)
        | Rejected e => Rejected e
        end, log (OpenSettled rc) envDone)) /\
    listeners registered = listeners env ++ [l] /\
    history registered =
      history env ++ connectPrefix sandboxId sb s ++ [FocusChangeCalled notify u] /\
    (forall rc, k u = Settle rc ->
        listeners (snd (connectToBrowserSandbox P sdk sandboxId options env))
        = listeners env ++ [l]) /\
    (forall R (k' : Unsubscribe -> Transport R) notify' page,
        runTransport (sdkOptions P sdk s options) (RegisterFocus notify' k') page =
        runTransport (sdkOptions P sdk s options)
          (k' (RemoveListener (nextClosure page)))
          (log (FocusChangeCalled notify' (RemoveListener (nextClosure page)))
             (snd (addEventListener notify' page)))) /\
    (forall page,
        In l (listeners page) ->
        history (changeVisibility visible page) =
          history page ++ map (fun l' => Notified (notifies l') true) (listeners page) /\
        In (Notified notify true)
           (map (fun l' => Notified (notifies l') true) (listeners page))) /\
    listeners (unsubscribe u registered) = listeners env /\
    (forall page l',
        In l' (listeners (unsubscribe u page)) <->
        In l' (listeners page) /\ closure l' <> closure l).
Proof.
  intros P sdk sandboxId options env sb s notify k W Hc Hr Hs Ht l u registered.
  assert (Hd : onFocusChange (sdkOptions P sdk s options) = default_onFocusChange).
  { cbn [onFocusChange sdkOptions]. unfold chosen_onFocusChange.
    destruct options as [[cb [hook|]]|]; try reflexivity. discriminate Hc. }
  destruct (atOpen_frame sandboxId sb s env) as (Ah & _ & _ & _ & Al & An).
  assert (Hrun : connectToBrowserSandbox P sdk sandboxId options env =
                 (let (rc, envDone) :=
                    runTransport (sdkOptions P sdk s options) (k u) registered in
                  (match rc with
                   | Fulfilled c => Fulfilled (c, sb)
                   | Rejected e => Rejected e
                   end, log (OpenSettled rc) envDone))).
  { rewrite (connectToBrowserSandbox_opens P sdk sandboxId options env sb s Hr Hs), Ht.
    cbn [runTransport]. rewrite Hd.
    unfold default_onFocusChange, addEventListener. subst registered u.
    unfold addEventListener. cbn [snd]. rewrite An. reflexivity. }
  split; [exact Hd|]. split; [exact Hrun|].
  split; [subst registered l; unfold addEventListener; cbn [snd log listeners];
          rewrite Al, An; reflexivity|].
  split; [subst registered u; unfold addEventListener; cbn [snd log history];
          rewrite Ah, <- app_assoc; reflexivity|].
  split; [|split; [|split; [|split]]].
  - intros rc Hk. rewrite Hrun, Hk. cbn [runTransport snd].
    subst registered l; unfold addEventListener; cbn [snd log listeners].
    rewrite Al, An; reflexivity.
  - intros R k' notify' page. cbn [runTransport]. rewrite Hd. reflexivity.
  - intros page Hin. split.
    + apply changeVisibility_history.
    + apply in_map_iff. exists l. auto.
  - subst registered u. unfold addEventListener.
    cbn [snd log listeners unsubscribe removeEventListener].
    rewrite Al, An, filter_app. simpl.
    rewrite Nat.eqb_refl. simpl. rewrite app_nil_r. apply forallb_filter_id.
    apply forallb_forall. intros l' Hl'.
    pose proof (proj1 (Forall_forall _ _) W l' Hl') as Hlt. simpl in Hlt.
    apply negb_true_iff, Nat.eqb_neq. lia.
  - intros page l'. subst u l. simpl.
    rewrite filter_In, negb_true_iff, Nat.eqb_neq. tauto.
Qed.

Lemma default_trigger_notifies_on_visible_witness :
  listeners (snd (connectToBrowserSandbox Demo.steady Demo.demoSdk "abc123"
                    hookOptions Demo.freshPage))
  = [{| closure := 0; notifies := 1 |}] /\
  history (changeVisibility visible Demo.connected) =
    history Demo.connected ++ [Notified 1 true] /\
  listeners (unsubscribe (RemoveListener 0)
               (snd (connectToBrowserSandbox Demo.steady Demo.demoSdk "abc123"
                       hookOptions Demo.freshPage))) = [].
Proof.
  pose proof (default_trigger_notifies_on_visible
                Demo.steady Demo.demoSdk "abc123" hookOptions Demo.freshPage
                (Demo.bareSandbox "abc123") Demo.demoSession 1
                (fun _ => Settle (Fulfilled {| client_handle := 5 |}))
                (Forall_nil _) eq_refl eq_refl eq_refl eq_refl) as H.
  cbv zeta in H. destruct H as (_ & _ & _ & _ & H1 & _ & H2 & H3 & _).
  split; [exact (H1 _ eq_refl)|]. split.
  - exact (proj1 (H2 Demo.connected (or_introl eq_refl))).
  - exact H3.
Defined.

(** C9. Both global listeners intercept a value exactly when its message
    contains "DataView" or "Offset is outside the bounds". A value that is
    not intercepted changes nothing and its default is not prevented. An
    intercepted one has its default prevented and is dispatched again as a
    'codesandbox-connection-error' event. When that event finds an active
    sandbox, the hook sets the connection-lost message, calls
    [disconnect] on the client if there is one (swallowing what it
    throws), and clears the active sandbox. When it finds none, the state
    stays as it was: only the dispatch of the event is recorded. *)
Theorem global_error_channel_filters_and_clears :
  forall (P : Platform) (v : JsValue) (env : Env),
    (isSdkSocketError v = true <->
       exists m, messageOf v = Some m /\
                 (substring "DataView" m \/ substring "Offset is outside the bounds" m)) /\
    onError P v env = onUnhandledRejection P v env /\
    let (prevented, env') := onUnhandledRejection P v env in
    prevented = isSdkSocketError v /\
    if isSdkSocketError v then
      match activeSandbox env with
      | None => env' = log (ConnectionErrorEvent v) env
      | Some a =>
          activeSandbox env' = None /\
          connectionError env' = Some connectionLostMessage /\
          match client a with
          | Some c =>
              exists T thrown,
                history env' = history env ++
                  [ConnectionErrorEvent v; DisconnectCalled c] ++ T ++
                  [DisconnectSettled c thrown] /\
                forallb byTransport T = true
          | None => history env' = history env ++ [ConnectionErrorEvent v]
          end
      end
    else env' = env.
Proof.
  intros P v env. split; [|split; [reflexivity|]].
  - unfold isSdkSocketError. rewrite orb_true_iff, !messageIncludes_spec. split.
    + intros [(m & E & H)|(m & E & H)]; exists m; auto.
    + intros (m & E & [H|H]); [left|right]; exists m; auto.
  - unfold onUnhandledRejection. destruct (isSdkSocketError v); [|auto].
    split; [reflexivity|]. unfold dispatchConnectionError.
    change (activeSandbox (log (ConnectionErrorEvent v) env)) with (activeSandbox env).
    destruct (activeSandbox env) as [a|]; [|reflexivity].
    destruct (handleConnectionError_run P a (log (ConnectionErrorEvent v) env))
      as (env' & -> & A & C & added & Hh & Hc).
    cbn [snd]. split; [exact A|]. split; [exact C|].
    destruct (client a) as [c|].
    + destruct Hc as (T & thrown & -> & HT). exists T, thrown. split; [|exact HT].
      rewrite Hh. simpl. rewrite <- !app_assoc. reflexivity.
    + subst added. rewrite Hh, app_nil_r. reflexivity.
Qed.

(** C10. The hook's [connectToSandbox] is a silent no-op when there is no
    SDK (no API key is set) or no sandbox info: it returns [undefined] at
    once, the history gains no event (no remote operation), and the
    active sandbox, the connection error and everything else stay as they
    were. An absent or empty API key gives no SDK. *)
Theorem connect_without_sdk_or_info_is_a_no_op :
  forall (P : Platform) (sdk : option CodeSandbox)
         (sandboxInfo : option SandboxInfo) (env : Env),
    sdk = None \/ sandboxInfo = None ->
    connectToSandbox P sdk sandboxInfo env = (Fulfilled None, env) /\
    useSdk None = None /\ useSdk (Some "") = None.
Proof.
  intros P sdk sandboxInfo env [-> | ->].
  - destruct sandboxInfo; repeat split.
  - destruct sdk; repeat split.
Qed.

Lemma connect_without_sdk_or_info_is_a_no_op_witness :
  connectToSandbox Demo.steady (useSdk (Some "")) (Some Demo.demoInfo) Demo.freshPage
    = (Fulfilled None, Demo.freshPage) /\
  useSdk None = None /\ useSdk (Some "") = None.
Proof.
  exact (connect_without_sdk_or_info_is_a_no_op
           Demo.steady (useSdk (Some "")) (Some Demo.demoInfo) Demo.freshPage
           (or_introl eq_refl)).
Defined.

(** * Further properties *)

(** ** The connection workflow *)

Lemma byTransport_filter_disconnect (T : list Event) :
  forallb byTransport T = true -> count isDisconnectCall T = 0.
Proof. exact (count_byTransport _ T byTransport_not_disconnect). Qed.

(** X1. [connectToSandbox] never calls [client.disconnect()]: whatever the
    state it is called in, also when a sandbox is already active, and
    whether it fulfils, rejects or returns at its guard, no disconnect is
    among the events of the call. A client that was active before the call
    is replaced in the state without being torn down. *)
Theorem connect_never_disconnects :
  forall (P : Platform) (sdk : option CodeSandbox) (sandboxInfo : option SandboxInfo)
         (env : Env),
    let (r, env') := connectToSandbox P sdk sandboxInfo env in
    exists added,
      history env' = history env ++ added /\
      count isDisconnectCall added = 0.
Proof.
  intros P sdk sandboxInfo env.
  assert (Guard : exists added,
             history env = history env ++ added /\ count isDisconnectCall added = 0)
    by (exists []; rewrite app_nil_r; auto).
  destruct sandboxInfo as [info|]; [|destruct sdk; exact Guard].
  destruct sdk as [sdk|]; [|exact Guard].
  rewrite connectToSandbox_run.
  destruct (connectToBrowserSandbox P sdk (info_id info) hookOptions _)
    as [r env1] eqn:E.
  destruct (connectToBrowserSandbox_attempt _ _ _ _ _ _ _ E) as [A _].
  assert (H : exists added,
             history env1 = history env ++ added /\ count isDisconnectCall added = 0).
  { inversion A as [e env0 _ Hh _ _|sb e env0 _ _ Hh _ _|
                    sb s T rc envOpen envDone env0 _ _ _ _ _ _ Hh HT _ _]; subst;
      cbn [history withActiveSandbox withConnectionError] in Hh;
      eexists; (split; [exact Hh|]); try reflexivity.
    rewrite !count_app, (byTransport_filter_disconnect T HT). reflexivity. }
  destruct r as [[c sb]|e]; exact H.
Qed.

(** X2. A connect that fulfils clears an earlier connection error, stores
    the very client it returns, and leaves the connecting flag off. A
    connect that stops at its guard leaves an earlier error in place. *)
Theorem fulfilled_connect_clears_the_error :
  forall (P : Platform) (sdk : option CodeSandbox) (sandboxInfo : option SandboxInfo)
         (env : Env) (result : option SandboxClient) (env' : Env),
    connectToSandbox P sdk sandboxInfo env = (Fulfilled result, env') ->
    match result with
    | Some c =>
        connectionError env' = None /\
        exists a,
          activeSandbox env' = Some a /\ client a = Some c /\ isConnecting a = false /\
          count isOpenCall (skipn (length (history env)) (history env')) = 1
    | None =>
        (sdk = None \/ sandboxInfo = None) /\ env' = env
    end.
Proof.
  intros P sdk sandboxInfo env result env' H.
  destruct sandboxInfo as [info|]; [destruct sdk as [sdk|]|].
  - rewrite connectToSandbox_run in H.
    destruct (connectToBrowserSandbox P sdk (info_id info) hookOptions _)
      as [r env2] eqn:E.
    destruct (connectToBrowserSandbox_attempt _ _ _ _ _ _ _ E) as (A & _ & C & _).
    destruct r as [[c sb]|e]; inversion H; subst; clear H.
    split; [exact C|]. eexists. split; [reflexivity|]. repeat split.
    inversion A as [| |sb0 s T rc envOpen envDone env0 _ _ _ _ _ _ Hh HT _ _ Hr]; subst.
    cbn [history withActiveSandbox withConnectionError] in *.
    rewrite Hh, skipn_app, Nat.sub_diag, skipn_all. cbn [skipn app].
    rewrite !count_app, (count_byTransport _ T byTransport_not_open HT). reflexivity.
  - inversion H; subst. auto.
  - destruct sdk; inversion H; subst; auto.
Qed.

Lemma fulfilled_connect_clears_the_error_witness :
  connectionError Demo.connected = None /\
  exists a,
    activeSandbox Demo.connected = Some a /\
    client a = Some {| client_handle := 5 |} /\ isConnecting a = false /\
    count isOpenCall
      (skipn (length (history Demo.freshPage)) (history Demo.connected)) = 1.
Proof.
  exact (fulfilled_connect_clears_the_error Demo.steady (Some Demo.demoSdk)
           (Some Demo.demoInfo) Demo.freshPage (Some {| client_handle := 5 |})
           Demo.connected eq_refl).
Defined.



(** X4. One call of the session supplier touches nothing but the history:
    the hook's state, the listeners and the visibility stay as they were.
    When it rejects, its reason is the platform's own, from the resume or
    from the session creation, and after a rejected resume no session
    creation is attempted. *)
Theorem supplier_only_asks_the_platform :
  forall (P : Platform) (sdk : CodeSandbox) (sandboxId : string) (env : Env),
    let (r, env') := getSession_closure P sdk sandboxId env in
    activeSandbox env' = activeSandbox env /\
    connectionError env' = connectionError env /\
    visibilityState env' = visibilityState env /\
    listeners env' = listeners env /\
    match sandboxes_resume P (history env ++ [ResumeCalled Reconnect sandboxId])
            sdk sandboxId with
    | Rejected e =>
        r = Rejected e /\
        history env' = history env ++
          [ResumeCalled Reconnect sandboxId; ResumeSettled Reconnect (Rejected e)]
    | Fulfilled sb =>
        r = sandbox_createSession P
              (history env ++
               [ResumeCalled Reconnect sandboxId; ResumeSettled Reconnect (Fulfilled sb);
                CreateSessionCalled Reconnect sb]) sb /\
        history env' = history env ++
          [ResumeCalled Reconnect sandboxId; ResumeSettled Reconnect (Fulfilled sb);
           CreateSessionCalled Reconnect sb; CreateSessionSettled Reconnect r]
    end.
Proof.
  intros P sdk sandboxId env.
  destruct (getSession_closure P sdk sandboxId env) as [r env'] eqn:E.
  destruct (getSession_closure_frame _ _ _ _ _ _ E) as (A1 & A2 & A3 & A4 & _).
  repeat split; try assumption.
  rewrite getSession_closure_run, resume_run in E.
  destruct (sandboxes_resume P _ sdk sandboxId) as [sb|e].
  - rewrite createSession_run in E. inversion E; subst; clear E. simpl.
    rewrite <- !app_assoc. simpl. split; reflexivity.
  - inversion E; subst; clear E. simpl. rewrite <- !app_assoc. split; reflexivity.
Qed.

(** X5. A change of visibility calls the [notify] of every registered
    listener once, in the order of registration, with [true] when the page
    became visible and [false] when it became hidden, and changes nothing
    else: the hook's state and the listeners stay as they were. With no
    listener registered nothing is called. *)
Theorem visibility_change_notifies_every_listener :
  forall (v : VisibilityState) (env : Env),
    history (changeVisibility v env) =
      history env ++ map (fun l => Notified (notifies l) (isVisible v)) (listeners env) /\
    listeners (changeVisibility v env) = listeners env /\
    activeSandbox (changeVisibility v env) = activeSandbox env /\
    connectionError (changeVisibility v env) = connectionError env /\
    visibilityState (changeVisibility v env) = v /\
    (listeners env = [] -> history (changeVisibility v env) = history env).
Proof.
  intros v env.
  assert (F : forall ls e,
             activeSandbox (fold_left (fun e l => onVisibilityChange l e) ls e)
               = activeSandbox e /\
             connectionError (fold_left (fun e l => onVisibilityChange l e) ls e)
               = connectionError e).
  { induction ls as [|l ls IH]; intros e; simpl; [auto|].
    destruct (IH (onVisibilityChange l e)) as [H1 H2]. rewrite H1, H2. auto. }
  unfold changeVisibility, fireVisibilityChange.
  destruct (fold_onVisibilityChange (listeners (withVisibility v env))
              (withVisibility v env)) as (H1 & H2 & H3 & _).
  destruct (F (listeners (withVisibility v env)) (withVisibility v env)) as [H4 H5].
  repeat split; try assumption.
  intros Hl. rewrite H1. simpl. rewrite Hl. simpl. apply app_nil_r.
Qed.

(** ** Creating a sandbox *)

(** X6. Whatever the form holds, the request that reaches the platform has
    a title and a description that are not empty, and a privacy. A title
    that was typed is kept, a missing one becomes the default. The
    description is the one typed; without one it is derived from the title
    that was typed; without either it is the default. A privacy that was
    not chosen is unlisted. *)
Theorem submitted_title_and_description :
  forall (trim : string -> string) (formData : CreateSandboxParams),
    cp_title (submittedParams trim formData) <> "" /\
    cp_description (submittedParams trim formData) <> "" /\
    cp_title (submittedParams trim formData) =
      match p_title formData with
      | Some (String c rest) => String c rest
      | _ => "SDK Dashboard Sandbox"
      end /\
    cp_description (submittedParams trim formData) =
      match p_description formData, p_title formData with
      | Some (String c rest), _ => String c rest
      | _, Some (String c rest) =>
          (String c rest ++ " - Created with SDK Dashboard")%string
      | _, _ => "Created with SDK Dashboard"
      end /\
    cp_privacy (submittedParams trim formData) =
      match p_privacy formData with
      | Some p => p
      | None => Unlisted
      end.
Proof.
  intros trim formData.
  unfold submittedParams, buildCreateParams, wrapperParams, formParams.
  cbn [cp_title cp_description cp_privacy p_title p_description p_privacy].
  destruct (p_title formData) as [[|c rest]|];
    destruct (p_description formData) as [[|d rest']|];
    cbn [orElse orElseMaybe]; repeat split; try discriminate.
Qed.

(** X7. The request never carries a value that only repeats a default or
    says nothing: no VM tier "pico" and no empty tier, no hibernation
    timeout of 300, of 0 or [NaN], no empty template id, path or region.
    Every other value of the form is passed on unchanged. *)
Theorem submitted_params_omit_defaults :
  forall (trim : string -> string) (formData : CreateSandboxParams),
    (forall tier,
        cp_vmTier (submittedParams trim formData) = Some tier <->
        p_vmTier formData = Some tier /\ tier <> "" /\ tier <> "pico") /\
    (forall n,
        cp_hibernationTimeoutSeconds (submittedParams trim formData) = Some n <->
        p_hibernationTimeoutSeconds formData = Some n /\
        exists z, n = Finite z /\ z <> 0%Z /\ z <> 300%Z) /\
    (forall s,
        cp_id (submittedParams trim formData) = Some s <->
        p_templateId formData = Some s /\ s <> "") /\
    (forall s,
        cp_path (submittedParams trim formData) = Some s <->
        p_path formData = Some s /\ s <> "") /\
    (forall s,
        cp_ipcountry (submittedParams trim formData) = Some s <->
        p_ipcountry formData = Some s /\ s <> "") /\
    cp_automaticWakeupConfig (submittedParams trim formData) =
      p_automaticWakeupConfig formData.
Proof.
  intros trim formData.
  assert (W : forall o s, whenTruthy o = Some s <-> o = Some s /\ s <> "").
  { intros [[|c rest]|] s; unfold whenTruthy; simpl; split;
      try discriminate; try (intros [E N]; inversion E; subst; congruence).
    intros E; inversion E; subst. split; [reflexivity|discriminate]. }
  unfold submittedParams, buildCreateParams, wrapperParams, formParams.
  cbn [cp_vmTier cp_hibernationTimeoutSeconds cp_id cp_path cp_ipcountry
       cp_automaticWakeupConfig p_vmTier p_hibernationTimeoutSeconds p_templateId
       p_path p_ipcountry p_automaticWakeupConfig].
  split; [|split; [|split; [|split; [|split; [|reflexivity]]]]]; try apply W.
  - intros tier. destruct (p_vmTier formData) as [t|].
    + destruct t as [|c rest].
      * simpl. split; [discriminate|]. intros (E & N & _). inversion E; subst. congruence.
      * cbn [truthy andb]. destruct (String.eqb_spec (String c rest) "pico") as [E|N].
        -- simpl. split; [discriminate|]. intros (E' & _ & N'). inversion E'; subst. congruence.
        -- simpl. split.
           ++ intros E; inversion E; subst. repeat split; [discriminate|exact N].
           ++ intros (E & _); exact E.
    + split; [discriminate|]. intros (E & _); discriminate.
  - intros n. destruct (p_hibernationTimeoutSeconds formData) as [[|z]|].
    + split; [discriminate|]. intros (E & z & -> & _). discriminate.
    + destruct (Z.eqb_spec z 0) as [E0|N0]; [|destruct (Z.eqb_spec z 300) as [E3|N3]];
        simpl.
      * split; [discriminate|]. intros (E & z' & -> & N & _). inversion E; subst. congruence.
      * split; [discriminate|]. intros (E & z' & -> & _ & N). inversion E; subst. congruence.
      * split.
        -- intros E; inversion E; subst. split; [reflexivity|]. exists z. auto.
        -- intros (E & _); exact E.
    + split; [discriminate|]. intros (E & _); discriminate.
Qed.

(** X8. Of the tags of the form, those that are empty once trimmed are
    dropped and the others are sent in their order; when none is left, or
    the form has no tags, the request carries no tags at all. *)
Theorem submitted_tags_are_the_nonblank_ones :
  forall (trim : string -> string) (formData : CreateSandboxParams),
    cp_tags (submittedParams trim formData) =
      match p_tags formData with
      | Some l =>
          match filter (fun tag => negb (String.eqb (trim tag) "")) l with
          | [] => None
          | kept => Some kept
          end
      | None => None
      end /\
    cp_tags (submittedParams trim formData) <> Some [] /\
    (forall kept tag,
        cp_tags (submittedParams trim formData) = Some kept ->
        In tag kept -> trim tag <> "").
Proof.
  intros trim formData.
  assert (F : forall l,
             filter (fun tag => truthy (Some (trim tag))) l =
             filter (fun tag => negb (String.eqb (trim tag) "")) l).
  { intros l. apply filter_ext. intros tag. destruct (trim tag); reflexivity. }
  unfold submittedParams, buildCreateParams, wrapperParams, formParams, keptTags.
  cbn [cp_tags p_tags].
  destruct (p_tags formData) as [l|]; [|repeat split; discriminate].
  rewrite F.
  destruct (filter (fun tag => negb (String.eqb (trim tag) "")) l) as [|t kept] eqn:E.
  - repeat split; discriminate.
  - repeat split; try discriminate.
    intros kept' tag H Hin. inversion H; subst kept'. rewrite <- E in Hin.
    apply filter_In in Hin. destruct Hin as [_ Hn].
    apply negb_true_iff in Hn. apply String.eqb_neq in Hn. exact Hn.
Qed.

(** X9. The mutation without an SDK rejects with "No API key provided" and
    asks the platform nothing. With an SDK it makes one creation call, with
    the parameters built from its argument, and settles as the platform
    answers; the sandboxes query is invalidated exactly when the creation
    fulfilled. The state of the connection workflow is not touched. *)
Theorem mutation_creates_then_invalidates :
  forall (R : Registry) (sdk : option CodeSandbox) (params : CreateSandboxParams)
         (pg : Page),
    let (r, pg') := mutateAsync R sdk params pg in
    page_env pg' = page_env pg /\
    match sdk with
    | None => r = Rejected (JsError "No API key provided") /\ pg' = pg
    | Some s =>
        r = sandboxes_create R (history (page_env pg))
              (page_requests pg ++ [CreateCalled (buildCreateParams params)])
              s (buildCreateParams params) /\
        page_requests pg' =
          page_requests pg ++
          [CreateCalled (buildCreateParams params); CreateSettled r] ++
          (match r with
           | Fulfilled _ => [QueriesInvalidated]
           | Rejected _ => []
           end)
    end.
Proof.
  intros R [s|] params pg; [|repeat split].
  unfold mutateAsync, bindP, create, invalidateQueries, retP, request.
  cbn [page_env page_requests].
  destruct (sandboxes_create R _ _ s (buildCreateParams params)) as [sb|e];
    cbn [page_env page_requests]; rewrite <- !app_assoc; repeat split.
Qed.

(** X10. Submitting the form of the sandbox list, with the hook's
    [createSandbox] behind it: the creating flag is off afterwards, whether
    the creation fulfilled or rejected. When it fulfilled, the form is back
    to its initial values and the advanced form is closed. When it
    rejected, the handler rejects with the same reason and the form keeps
    what was typed. In both cases the one creation call the platform saw
    carried the parameters of the form. *)
Theorem form_submission_always_ends_creating :
  forall (R : Registry) (trim : string -> string) (sdk : CodeSandbox)
         (form : FormState) (pg : Page),
    let answer :=
      sandboxes_create R (history (page_env pg))
        (page_requests pg ++ [CreateCalled (submittedParams trim (formData form))])
        sdk (submittedParams trim (formData form)) in
    let '(r, (form', pg')) :=
      handleCreateSandbox trim (createSandboxWrapper R (Some sdk)) form pg in
    isCreatingLocal form' = false /\
    page_requests pg' =
      page_requests pg ++
      [CreateCalled (submittedParams trim (formData form)); CreateSettled answer] ++
      (match answer with
       | Fulfilled _ => [QueriesInvalidated]
       | Rejected _ => []
       end) /\
    match answer with
    | Fulfilled _ =>
        r = Fulfilled tt /\ formData form' = initialForm /\ showAdvancedForm form' = false
    | Rejected e =>
        r = Rejected e /\ formData form' = formData form /\
        showAdvancedForm form' = showAdvancedForm form
    end.
Proof.
  intros R trim sdk form pg. cbv zeta.
  unfold handleCreateSandbox, createSandboxWrapper, bindP.
  pose proof (mutation_creates_then_invalidates R (Some sdk)
                (wrapperParams (formParams trim (formData form))) pg) as M.
  fold (submittedParams trim (formData form)) in M.
  destruct (mutateAsync R (Some sdk) (wrapperParams (formParams trim (formData form))) pg)
    as [r pg'].
  destruct M as (_ & Hr & Hq). rewrite <- Hr.
  destruct r as [sb|e]; cbn [retP]; repeat split; assumption.
Qed.

(** ** Create and connect *)

Lemma createAndConnect_run (P : Platform) (R : Registry) (sdk : CodeSandbox)
    (paramTitle paramTemplateId : option string) (pg : Page) :
  createAndConnect P R (Some sdk) paramTitle paramTemplateId pg =
  let params := createAndConnectParams paramTitle paramTemplateId in
  let env0 := withActiveSandbox (Some connecting)
                (withConnectionError None (page_env pg)) in
  let requests1 := page_requests pg ++ [CreateCalled params] in
  let failed e env requests :=
    (Rejected e,
     {| page_env := withActiveSandbox None
                      (withConnectionError (Some (createAndConnectMessage e)) env);
        page_requests := requests |}) in
  match sandboxes_create R (history env0) requests1 sdk params with
  | Rejected e => failed e env0 (requests1 ++ [CreateSettled (Rejected e)])
  | Fulfilled sb =>
      let requests2 :=
        requests1 ++ [CreateSettled (Fulfilled sb); QueriesInvalidated] in
      match connectToBrowserSandbox P sdk (id sb) createAndConnectOptions env0 with
      | (Rejected e, env1) => failed e env1 requests2
      | (Fulfilled (c, _), env1) =>
          (Fulfilled (Some c),
           {| page_env :=
                withActiveSandbox
                  (Some {| sandbox := Some sb; client := Some c; isConnecting := false |})
                  env1;
              page_requests := requests2 |})
      end
  end.
Proof.
  cbv zeta.
  unfold createAndConnect, bindP, tryCatchP, onEnv, create, invalidateQueries, retP,
    throwP, request, setConnectionError, setActiveSandbox, perform.
  cbn [page_env page_requests history withActiveSandbox withConnectionError].
  destruct (sandboxes_create R _ _ sdk _) as [sb|e]; [|reflexivity].
  cbn [page_env page_requests]. rewrite <- !app_assoc. cbn [app].
  destruct (connectToBrowserSandbox P sdk (id sb) createAndConnectOptions _)
    as [[[c sb']|e] env1]; reflexivity.
Qed.

(** X11. When [createAndConnect] rejects, it rejects with the reason of the
    step that failed, no sandbox is active, and the connection error is
    "Create and connect failed: " followed by the reason's message (a fixed
    text when the reason is not an [Error]); the message is not sorted by
    its words as it is in [connectToSandbox]. When it was the creation that
    rejected, no resume, session or open was attempted and the sandboxes
    query was not invalidated. When the creation fulfilled and the
    connection failed, the sandbox stays created, the query was
    invalidated, and the connection was attempted once, for the id of the
    created sandbox. *)
Theorem failed_create_and_connect :
  forall (P : Platform) (R : Registry) (sdk : CodeSandbox)
         (paramTitle paramTemplateId : option string) (pg : Page)
         (e : JsValue) (pg' : Page),
    createAndConnect P R (Some sdk) paramTitle paramTemplateId pg = (Rejected e, pg') ->
    activeSandbox (page_env pg') = None /\
    connectionError (page_env pg') = Some (createAndConnectMessage e) /\
    createAndConnectMessage e =
      match e with
      | JsError message => ("Create and connect failed: " ++ message)%string
      | _ => "Failed to create and connect to sandbox"
      end /\
    let params := createAndConnectParams paramTitle paramTemplateId in
    let answer :=
      sandboxes_create R (history (page_env pg))
        (page_requests pg ++ [CreateCalled params]) sdk params in
    match answer with
    | Rejected e' =>
        e' = e /\
        history (page_env pg') = history (page_env pg) /\
        listeners (page_env pg') = listeners (page_env pg) /\
        page_requests pg' =
          page_requests pg ++ [CreateCalled params; CreateSettled (Rejected e)]
    | Fulfilled sb =>
        page_requests pg' =
          page_requests pg ++
          [CreateCalled params; CreateSettled (Fulfilled sb); QueriesInvalidated] /\
        exists before ev,
          history (page_env pg') =
            history (page_env pg) ++ ResumeCalled Initial (id sb) :: before ++ [ev] /\
          rejectionOf ev = Some e /\
          count (isResumeCall Initial) (ResumeCalled Initial (id sb) :: before ++ [ev]) = 1
    end.
Proof.
  intros P R sdk paramTitle paramTemplateId pg e pg' H.
  rewrite createAndConnect_run in H. cbv zeta in H |- *.
  cbn [history withActiveSandbox withConnectionError] in H.
  destruct (sandboxes_create R _ _ sdk _) as [sb|e0].
  - destruct (connectToBrowserSandbox P sdk (id sb) createAndConnectOptions _)
      as [[[c sb']|e1] env1] eqn:E; inversion H; subst; clear H.
    cbn [page_env page_requests activeSandbox connectionError history
         withActiveSandbox withConnectionError].
    repeat split.
    + rewrite <- !app_assoc. reflexivity.
    + destruct (connectToBrowserSandbox_attempt _ _ _ _ _ _ _ E) as [A _].
      destruct (Attempt_rejected _ _ _ _ _ _ _ A) as (before & ev & Hh & Hr & C1 & _).
      cbn [history withActiveSandbox withConnectionError] in Hh.
      inversion A as [e0 env0 _ Hh0 _ _|sb0 e0 env0 _ _ Hh0 _ _|
                      sb0 s T rc envOpen envDone env0 _ _ _ _ _ _ Hh0 HT _ _ Hr0];
        subst; cbn [history withActiveSandbox withConnectionError] in Hh0.
      * exists [], (ResumeSettled Initial (Rejected e)). rewrite Hh0. repeat split.
      * exists [ResumeSettled Initial (Fulfilled sb0); CreateSessionCalled Initial sb0],
               (CreateSessionSettled Initial (Rejected e)).
        rewrite Hh0. repeat split.
      * destruct rc as [c|e0]; [discriminate|]. inversion Hr0; subst.
        exists ([ResumeSettled Initial (Fulfilled sb0); CreateSessionCalled Initial sb0;
                 CreateSessionSettled Initial (Fulfilled s); OpenCalled s] ++ T),
               (OpenSettled (Rejected e)).
        rewrite Hh0. unfold connectPrefix. cbn [app].
        repeat split.
        change (ResumeCalled Initial (id sb)
                :: ResumeSettled Initial (Fulfilled sb0)
                :: CreateSessionCalled Initial sb0
                :: CreateSessionSettled Initial (Fulfilled s)
                :: OpenCalled s :: T ++ [OpenSettled (Rejected e)])
          with ([ResumeCalled Initial (id sb); ResumeSettled Initial (Fulfilled sb0);
                 CreateSessionCalled Initial sb0;
                 CreateSessionSettled Initial (Fulfilled s); OpenCalled s]
                ++ T ++ [OpenSettled (Rejected e)]).
        rewrite !count_app, (count_byTransport _ T byTransport_not_initial_resume HT).
        reflexivity.
  - inversion H; subst; clear H.
    cbn [page_env page_requests activeSandbox connectionError history listeners
         withActiveSandbox withConnectionError].
    repeat split.
    rewrite <- !app_assoc. reflexivity.
Qed.

(** X12. When [createAndConnect] fulfils, the active sandbox is the sandbox
    the creation answered, as it was answered (nothing is written onto it
    and the sandbox of the resume is not used), the client stored is the
    client returned, and the connection error is cleared. The creation was
    the only one, it asked for an unlisted sandbox with the given title or
    "Browser SDK Test Sandbox", the sandboxes query was invalidated once,
    and the connection resumed the id of the created sandbox. Without an
    SDK the call does nothing. *)
Theorem fulfilled_create_and_connect :
  forall (P : Platform) (R : Registry) (sdk : option CodeSandbox)
         (paramTitle paramTemplateId : option string) (pg : Page)
         (result : option SandboxClient) (pg' : Page),
    createAndConnect P R sdk paramTitle paramTemplateId pg = (Fulfilled result, pg') ->
    match sdk, result with
    | Some s, Some c =>
        exists sb rest,
          sandboxes_create R (history (page_env pg))
            (page_requests pg ++
             [CreateCalled (createAndConnectParams paramTitle paramTemplateId)])
            s (createAndConnectParams paramTitle paramTemplateId) = Fulfilled sb /\
          activeSandbox (page_env pg') =
            Some {| sandbox := Some sb; client := Some c; isConnecting := false |} /\
          connectionError (page_env pg') = None /\
          page_requests pg' =
            page_requests pg ++
            [CreateCalled (createAndConnectParams paramTitle paramTemplateId);
             CreateSettled (Fulfilled sb); QueriesInvalidated] /\
          history (page_env pg') =
            history (page_env pg) ++ ResumeCalled Initial (id sb) :: rest /\
          cp_privacy (createAndConnectParams paramTitle paramTemplateId) = Unlisted /\
          cp_title (createAndConnectParams paramTitle paramTemplateId) <> ""
    | None, None => pg' = pg
    | _, _ => False
    end.
Proof.
  intros P R [s|] paramTitle paramTemplateId pg result pg' H.
  - rewrite createAndConnect_run in H. cbv zeta in H.
    cbn [history withActiveSandbox withConnectionError] in H.
    destruct (sandboxes_create R _ _ s _) as [sb|e0] eqn:Ec; [|discriminate].
    destruct (connectToBrowserSandbox P s (id sb) createAndConnectOptions _)
      as [[[c sb']|e1] env1] eqn:E; inversion H; subst; clear H.
    destruct (connectToBrowserSandbox_attempt _ _ _ _ _ _ _ E) as (A & _ & C & _).
    inversion A as [| |sb0 s0 T rc envOpen envDone env0 _ _ _ _ _ _ Hh HT _ _ Hr]; subst.
    cbn [history withActiveSandbox withConnectionError] in Hh.
    exists sb. eexists.
    cbn [page_env page_requests activeSandbox connectionError history
         withActiveSandbox withConnectionError].
    repeat split.
    + exact C.
    + rewrite <- !app_assoc. reflexivity.
    + rewrite Hh. unfold connectPrefix. cbn [app]. reflexivity.
    + cbn. destruct paramTitle as [[|ch t]|]; discriminate.
  - inversion H; subst. reflexivity.
Qed.

Lemma failed_create_and_connect_witness :
  activeSandbox
    (page_env
       (snd (createAndConnect Demo.steady
               (Samples.creationRejects (JsError "WebSocket quota exceeded"))
               (Some Demo.demoSdk) None None Samples.freshPage))) = None /\
  connectionError
    (page_env
       (snd (createAndConnect Demo.steady
               (Samples.creationRejects (JsError "WebSocket quota exceeded"))
               (Some Demo.demoSdk) None None Samples.freshPage)))
  = Some "Create and connect failed: WebSocket quota exceeded".
Proof.
  pose proof (failed_create_and_connect Demo.steady
                (Samples.creationRejects (JsError "WebSocket quota exceeded"))
                Demo.demoSdk None None Samples.freshPage _ _ eq_refl) as H.
  destruct H as (H1 & H2 & _). split; [exact H1 | exact H2].
Defined.

Lemma fulfilled_create_and_connect_witness :
  exists sb rest,
    Fulfilled {| id := "new1"; title := Some "Browser SDK Test Sandbox";
                 privacy := Some "unlisted"; createdAt := None; updatedAt := None;
                 tags := None |} = Fulfilled sb /\
    activeSandbox
      (page_env
         (snd (createAndConnect Demo.steady Samples.registry (Some Demo.demoSdk)
                 None None Samples.freshPage)))
    = Some {| sandbox := Some sb; client := Some {| client_handle := 5 |};
              isConnecting := false |} /\
    connectionError
      (page_env
         (snd (createAndConnect Demo.steady Samples.registry (Some Demo.demoSdk)
                 None None Samples.freshPage))) = None /\
    page_requests
      (snd (createAndConnect Demo.steady Samples.registry (Some Demo.demoSdk)
              None None Samples.freshPage))
    = [] ++ [CreateCalled (createAndConnectParams None None);
             CreateSettled (Fulfilled sb); QueriesInvalidated] /\
    history
      (page_env
         (snd (createAndConnect Demo.steady Samples.registry (Some Demo.demoSdk)
                 None None Samples.freshPage)))
    = [] ++ ResumeCalled Initial (id sb) :: rest /\
    cp_privacy (createAndConnectParams None None) = Unlisted /\
    cp_title (createAndConnectParams None None) <> "".
Proof.
  exact (fulfilled_create_and_connect Demo.steady Samples.registry (Some Demo.demoSdk)
           None None Samples.freshPage (Some {| client_handle := 5 |}) _ eq_refl).
Defined.

(** ** The key form and the screens *)

Lemma whenTruthy_nonempty (s : string) : s <> "" -> whenTruthy (Some s) = Some s.
Proof. destruct s; [congruence|reflexivity]. Qed.

Lemma connectErrorMessage_nonempty (e : JsValue) : connectErrorMessage e <> "".
Proof.
  destruct e as [m| |]; simpl; try discriminate.
  destruct (includes "WebSocket" m); [discriminate|].
  destruct (includes "session" m); discriminate.
Qed.

Lemma truthy_useSdk (key : option string) :
  truthy key = true -> exists k, key = Some k /\ useSdk key = Some (createSDK k).
Proof.
  destruct key as [[|c rest]|]; try discriminate. intros _.
  exists (String c rest). auto.
Qed.

(** X13. Submitting the key form: a text that is empty once trimmed does
    nothing, and no call is made. Otherwise the trimmed text is tried on one
    listing call, with a page size of one: when the call fulfils the
    trimmed text becomes the stored key and the error is cleared; when it
    rejects the stored key stays what it was and the error is the reason's
    message, or "Invalid API key" when the reason is not an [Error]. The
    connection state is never touched. *)
Theorem key_is_stored_only_when_it_lists :
  forall (R : Registry) (trim : string -> string) (text : string) (app : AppState),
    let app' := handleSubmit R trim text app in
    match trim text with
    | EmptyString => app' = app
    | String _ _ =>
        let answer :=
          sandboxes_list R (history (page_env (app_page app)))
            (page_requests (app_page app) ++ [ListCalled 1])
            (createSDK (trim text)) 1 in
        page_env (app_page app') = page_env (app_page app) /\
        page_requests (app_page app') =
          page_requests (app_page app) ++ [ListCalled 1; ListSettled answer] /\
        app_currentView app' = app_currentView app /\
        match answer with
        | Fulfilled _ =>
            app_apiKey app' = Some (trim text) /\ app_apiError app' = None
        | Rejected e =>
            app_apiKey app' = app_apiKey app /\
            app_apiError app' =
              Some (match e with
                    | JsError message => message
                    | _ => "Invalid API key"
                    end)
        end
    end.
Proof.
  intros R trim text app. cbv zeta. unfold handleSubmit.
  destruct (trim text) as [|c rest]; [reflexivity|].
  cbn [truthy]. unfold handleApiKeySubmit, listSandboxes, request.
  cbn [page_env page_requests].
  destruct (sandboxes_list R _ _ (createSDK (String c rest)) 1) as [l|e];
    cbn [app_page app_apiKey app_apiError app_currentView page_env page_requests];
    rewrite <- !app_assoc; repeat split.
Qed.

(** X14. The stored key is never a blank one: starting without a key, or
    with one that is not empty, any number of submissions of the key form
    leaves the key absent or not empty. So whenever the dashboard shows
    anything but the key form, the hook has an SDK, and a connect asked
    for a sandbox of the list never returns [undefined] silently: it
    fulfils with a client or it rejects. *)
Theorem dashboard_always_has_an_sdk :
  forall (P : Platform) (R : Registry) (trim : string -> string)
         (texts : list string) (app : AppState),
    app_apiKey app <> Some "" ->
    let app' := fold_left (fun a text => handleSubmit R trim text a) texts app in
    app_apiKey app' <> Some "" /\
    ((forall error, render app' <> KeyScreen error) ->
     (exists k, app_apiKey app' = Some k /\ k <> "" /\
                useSdk (app_apiKey app') = Some (createSDK k)) /\
     forall info, fst (appConnect P (Some info) app') <> Fulfilled None).
Proof.
  intros P R trim texts app H0. cbv zeta. split.
  - revert app H0. induction texts as [|text texts IH]; intros app H0; [exact H0|].
    simpl. apply IH. unfold handleSubmit.
    destruct (trim text) as [|c rest] eqn:T; [exact H0|]. cbn [truthy].
    unfold handleApiKeySubmit.
    destruct (listSandboxes R (createSDK (String c rest)) 1 (app_page app)) as [[l|e] pg];
      cbn [app_apiKey]; [discriminate|exact H0].
  - set (app' := fold_left (fun a text => handleSubmit R trim text a) texts app).
    intros Hs.
    assert (Tk : truthy (app_apiKey app') = true).
    { destruct (truthy (app_apiKey app')) eqn:E; [reflexivity|].
      exfalso. apply (Hs (whenTruthy (app_apiError app'))).
      unfold render. rewrite E. reflexivity. }
    destruct (truthy_useSdk _ Tk) as (k & Hk & Hu). split.
    + exists k. repeat split; try assumption. intros ->. rewrite Hk in Tk. discriminate.
    + intros info. unfold appConnect, onEnv. rewrite Hu.
      destruct (connectToSandbox P (Some (createSDK k)) (Some info)
                  (page_env (app_page app'))) as [r env'] eqn:E.
      cbn [fst]. intros ->.
      rewrite connectToSandbox_run in E.
      destruct (connectToBrowserSandbox P (createSDK k) (info_id info) hookOptions _)
        as [[[c sb]|e] env1]; discriminate.
Qed.

Lemma dashboard_always_has_an_sdk_witness :
  app_apiKey
    (fold_left (fun a text => handleSubmit Samples.registry Samples.trimStart text a)
       ["  "; "wrong"; " csb_v1_key"] Samples.freshApp) <> Some "".
Proof.
  refine (proj1 (dashboard_always_has_an_sdk Demo.steady Samples.registry
                   Samples.trimStart ["  "; "wrong"; " csb_v1_key"] Samples.freshApp _)).
  discriminate.
Defined.

(** X15. What the dashboard shows after the hook acted, once a key is
    stored. After a connect that fulfilled: the sandbox manager, with the
    client that was returned; and after the disconnect that follows: the
    dashboard, without a connection banner. After a connect that rejected:
    the dashboard, whose sandboxes view carries the message of the failure
    as its banner. After a socket error reached the global listener while a
    sandbox was active: the dashboard, with the connection-lost banner. *)
Theorem screens_follow_the_connection :
  forall (P : Platform) (info : SandboxInfo) (app : AppState),
    truthy (app_apiKey app) = true ->
    let banner view message :=
      match view with
      | SandboxesView => Some message
      | CliView => None
      end in
    let (r, app') := appConnect P (Some info) app in
    match r with
    | Fulfilled (Some c) =>
        (exists a, render app' = ManagerScreen a /\ client a = Some c) /\
        render (appDisconnect P app') = DashboardScreen (app_currentView app) None /\
        (forall reason,
            isSdkSocketError reason = true ->
            render (appUnhandledRejection P reason app') =
            DashboardScreen (app_currentView app)
              (banner (app_currentView app) connectionLostMessage))
    | Fulfilled None => False
    | Rejected e =>
        render app' =
        DashboardScreen (app_currentView app)
          (banner (app_currentView app) (connectErrorMessage e))
    end.
Proof.
  intros P info app Tk. cbv zeta.
  destruct (truthy_useSdk _ Tk) as (k & Hk & Hu).
  unfold appConnect, onEnv. rewrite Hu, connectToSandbox_run.
  destruct (connectToBrowserSandbox P (createSDK k) (info_id info) hookOptions _)
    as [[[c sb]|e] env1] eqn:E.
  - unfold render, appDisconnect, appUnhandledRejection, withPage, onEnv.
    cbn [app_apiKey app_page page_env app_currentView activeSandbox withActiveSandbox].
    rewrite Tk. cbn [negb]. split; [|split].
    + eexists. split; reflexivity.
    + pose proof (disconnectFromSandbox_settles P
                    (Some {| sandbox := Some (withMetadata sb info);
                             client := Some c; isConnecting := false |})
                    (withActiveSandbox
                       (Some {| sandbox := Some (withMetadata sb info);
                                client := Some c; isConnecting := false |}) env1)) as D.
      destruct (disconnectFromSandbox P _ _) as [r env2].
      destruct D as (_ & A & C & _). cbn [snd page_env].
      rewrite A, C. destruct (app_currentView app); reflexivity.
    + intros reason Hs. unfold onUnhandledRejection. rewrite Hs.
      unfold dispatchConnectionError.
      cbn [activeSandbox log withActiveSandbox].
      destruct (handleConnectionError_run P
                  {| sandbox := Some (withMetadata sb info);
                     client := Some c; isConnecting := false |}
                  (log (ConnectionErrorEvent reason)
                     (withActiveSandbox
                        (Some {| sandbox := Some (withMetadata sb info);
                                 client := Some c; isConnecting := false |}) env1)))
        as (env2 & -> & A & C & _).
      cbn [snd page_env]. rewrite A, C. destruct (app_currentView app); reflexivity.
  - unfold render, withPage.
    cbn [app_apiKey app_page page_env app_currentView activeSandbox connectionError
         withActiveSandbox withConnectionError].
    rewrite Tk. cbn [negb].
    rewrite (whenTruthy_nonempty _ (connectErrorMessage_nonempty e)).
    destruct (app_currentView app); reflexivity.
Qed.

Lemma screens_follow_the_connection_witness :
  (exists a,
      render (snd (appConnect Demo.steady (Some Demo.demoInfo) Samples.signedIn))
        = ManagerScreen a /\
      client a = Some {| client_handle := 5 |}) /\
  render (appDisconnect Demo.steady
            (snd (appConnect Demo.steady (Some Demo.demoInfo) Samples.signedIn)))
    = DashboardScreen SandboxesView None.
Proof.
  pose proof (screens_follow_the_connection Demo.steady Demo.demoInfo Samples.signedIn
                eq_refl) as H.
  cbv zeta in H.
  change (appConnect Demo.steady (Some Demo.demoInfo) Samples.signedIn)
    with (Fulfilled (Some {| client_handle := 5 |}),
          snd (appConnect Demo.steady (Some Demo.demoInfo) Samples.signedIn)) in H.
  cbv beta iota in H. destruct H as (H1 & H2 & _). split; [exact H1 | exact H2].
Defined.

(** ** The filters of the sandbox list *)

Lemma includes_refl (s : string) : includes s s = true.
Proof.
  apply includes_spec. exists "", "". simpl.
  induction s as [|c s IH]; [reflexivity|]. simpl. rewrite <- IH. reflexivity.
Qed.

Section FilterFacts.

Variable toLowerCase : string -> string.
Variable timeOf : string -> JsNumber.

Lemma filteredFrom_incl (f : Filters) (clock : nat -> Z * Z)
    (sandboxes : list SandboxInfo) :
  forall i,
    incl (filteredFrom toLowerCase timeOf f clock i sandboxes) sandboxes /\
    length (filteredFrom toLowerCase timeOf f clock i sandboxes) <= length sandboxes.
Proof.
  induction sandboxes as [|sb rest IH]; intros i; simpl.
  - split; [apply incl_refl|apply le_n].
  - destruct (IH (S i)) as [I L].
    destruct (keeps toLowerCase timeOf f (fst (clock i)) (snd (clock i)) sb); simpl; split.
    + apply incl_cons; [left; reflexivity|]. apply incl_tl, I.
    + lia.
    + apply incl_tl, I.
    + lia.
Qed.

Lemma filteredFrom_all (f : Filters) (clock : nat -> Z * Z)
    (sandboxes : list SandboxInfo) :
  (forall n1 n2 sb, keeps toLowerCase timeOf f n1 n2 sb = true) ->
  forall i, filteredFrom toLowerCase timeOf f clock i sandboxes = sandboxes.
Proof.
  intros K. induction sandboxes as [|sb rest IH]; intros i; simpl; [reflexivity|].
  rewrite K, IH. reflexivity.
Qed.

End FilterFacts.

(** X16. With the filters cleared, as they are at first and after "Clear
    Filters", every sandbox of the list is shown, in the order of the list,
    at any time of day. With any filters, the sandboxes shown are sandboxes
    of the list, and no more of them than the list holds. *)
Theorem cleared_filters_show_every_sandbox :
  forall (toLowerCase : string -> string) (timeOf : string -> JsNumber)
         (clock : nat -> Z * Z) (f : Filters) (sandboxes : list SandboxInfo),
    filteredSandboxes toLowerCase timeOf clearedFilters clock sandboxes = sandboxes /\
    incl (filteredSandboxes toLowerCase timeOf f clock sandboxes) sandboxes /\
    length (filteredSandboxes toLowerCase timeOf f clock sandboxes) <= length sandboxes.
Proof.
  intros toLowerCase timeOf clock f sandboxes. unfold filteredSandboxes. split.
  - apply filteredFrom_all. reflexivity.
  - apply filteredFrom_incl.
Qed.

(** X17. The status filter sorts every sandbox into exactly one of its
    three options: at any one moment a sandbox is kept by one of "running",
    "idle" and "hibernated" and dropped by the other two. A status that is
    none of the three, "error" for one, keeps no sandbox. *)
Theorem status_options_partition_the_list :
  forall (toLowerCase : string -> string) (timeOf : string -> JsNumber)
         (now ageNow : Z) (sb : SandboxInfo),
    let kept status :=
      keeps toLowerCase timeOf
        {| f_status := status; f_lastUpdated := ""; f_search := "" |} now ageNow sb in
    ((kept "running" = true /\ kept "idle" = false /\ kept "hibernated" = false) \/
     (kept "running" = false /\ kept "idle" = true /\ kept "hibernated" = false) \/
     (kept "running" = false /\ kept "idle" = false /\ kept "hibernated" = true)) /\
    (forall status,
        status <> "" -> status <> "running" -> status <> "idle" ->
        status <> "hibernated" -> kept status = false).
Proof.
  intros toLowerCase timeOf now ageNow sb. cbv zeta.
  unfold keeps, passesStatus, passesLastUpdated, passesSearch.
  cbn [f_status f_lastUpdated f_search truthy negb].
  assert (S3 : getSandboxStatus toLowerCase timeOf now sb = "running" \/
               getSandboxStatus toLowerCase timeOf now sb = "idle" \/
               getSandboxStatus toLowerCase timeOf now sb = "hibernated").
  { unfold getSandboxStatus.
    destruct (match info_title sb with Some t => _ | None => _ end); [auto|].
    destruct (match info_privacy sb with Some p => _ | None => _ end); [auto|].
    destruct (laterThan _ _); auto. }
  split.
  - destruct S3 as [-> | [-> | ->]]; cbn; auto.
  - intros status N0 N1 N2 N3. destruct status as [|c rest]; [congruence|].
    cbn [truthy]. destruct S3 as [-> | [-> | ->]];
      match goal with
      | |- context [String.eqb ?a ?b] =>
          destruct (String.eqb_spec a b) as [E|E]; [congruence|reflexivity]
      end.
Qed.

(** X18. The options of the last-updated filter are nested: at any one
    moment a sandbox kept by "today" is kept by "week", one kept by "week"
    is kept by "month", and one kept by "month" is kept by "quarter". A
    sandbox whose date cannot be read is kept by all four, and an option
    that is none of the four keeps every sandbox. *)
Theorem last_updated_options_are_nested :
  forall (toLowerCase : string -> string) (timeOf : string -> JsNumber)
         (statusNow now : Z) (sb : SandboxInfo),
    let kept option :=
      keeps toLowerCase timeOf
        {| f_status := ""; f_lastUpdated := option; f_search := "" |} statusNow now sb in
    (kept "today" = true -> kept "week" = true) /\
    (kept "week" = true -> kept "month" = true) /\
    (kept "month" = true -> kept "quarter" = true) /\
    (dateOf timeOf sb = NaN ->
     kept "today" = true /\ kept "week" = true /\ kept "month" = true /\
     kept "quarter" = true) /\
    (forall option,
        option <> "today" -> option <> "week" -> option <> "month" ->
        option <> "quarter" -> kept option = true).
Proof.
  intros toLowerCase timeOf statusNow now sb. cbv zeta.
  unfold keeps, passesStatus, passesLastUpdated, passesSearch.
  cbn [f_status f_lastUpdated f_search truthy negb String.eqb Ascii.eqb Bool.eqb].
  unfold daysDiff.
  destruct (dateOf timeOf sb) as [|updated]; cbn [laterThan negb].
  - repeat split; try reflexivity.
    intros option N1 N2 N3 N4. destruct option as [|c rest]; [reflexivity|].
    cbn [truthy].
    destruct (String.eqb_spec (String c rest) "today"); [congruence|].
    destruct (String.eqb_spec (String c rest) "week"); [congruence|].
    destruct (String.eqb_spec (String c rest) "month"); [congruence|].
    destruct (String.eqb_spec (String c rest) "quarter"); [congruence|].
    reflexivity.
  - set (d := ((now - updated) / msPerDay)%Z).
    repeat split.
    + destruct (Z.gtb_spec d 0), (Z.gtb_spec d 7); simpl; try congruence; lia.
    + destruct (Z.gtb_spec d 7), (Z.gtb_spec d 30); simpl; try congruence; lia.
    + destruct (Z.gtb_spec d 30), (Z.gtb_spec d 90); simpl; try congruence; lia.
    + discriminate.
    + discriminate.
    + discriminate.
    + discriminate.
    + intros option N1 N2 N3 N4. destruct option as [|c rest]; [reflexivity|].
      cbn [truthy].
      destruct (String.eqb_spec (String c rest) "today"); [congruence|].
      destruct (String.eqb_spec (String c rest) "week"); [congruence|].
      destruct (String.eqb_spec (String c rest) "month"); [congruence|].
      destruct (String.eqb_spec (String c rest) "quarter"); [congruence|].
      reflexivity.
Qed.

(** X19. Searching for a sandbox's own id, or for its own title, finds it:
    with only the search set, to the id of a sandbox or to its title as
    they are written, that sandbox is kept, at any time and whatever
    [toLowerCase] does to the letters. *)
Theorem search_finds_own_id_and_title :
  forall (toLowerCase : string -> string) (timeOf : string -> JsNumber)
         (statusNow ageNow : Z) (sb : SandboxInfo),
    keeps toLowerCase timeOf
      {| f_status := ""; f_lastUpdated := ""; f_search := info_id sb |}
      statusNow ageNow sb = true /\
    (forall t,
        info_title sb = Some t ->
        keeps toLowerCase timeOf
          {| f_status := ""; f_lastUpdated := ""; f_search := t |}
          statusNow ageNow sb = true).
Proof.
  intros toLowerCase timeOf statusNow ageNow sb.
  unfold keeps, passesStatus, passesLastUpdated, passesSearch.
  cbn [f_status f_lastUpdated f_search truthy negb]. split.
  - destruct (info_id sb) as [|c rest] eqn:E; [reflexivity|]. cbn [truthy].
    rewrite includes_refl, orb_true_r. reflexivity.
  - intros t Ht. rewrite Ht. destruct t as [|c rest]; [reflexivity|].
    cbn [truthy orElse]. rewrite includes_refl. reflexivity.
Qed.

(** X20. Clearing one of the filters never hides a sandbox: a sandbox kept
    under some filters is still kept, at the same moment, after any one of
    the three is set back to empty. A key that is none of the three leaves
    the filters as they are. *)
Theorem clearing_a_filter_hides_nothing :
  forall (toLowerCase : string -> string) (timeOf : string -> JsNumber)
         (f : Filters) (key : string) (statusNow ageNow : Z) (sb : SandboxInfo),
    keeps toLowerCase timeOf f statusNow ageNow sb = true ->
    keeps toLowerCase timeOf (updateFilter key "" f) statusNow ageNow sb = true /\
    (key <> "status" -> key <> "lastUpdated" -> key <> "search" ->
     forall value, updateFilter key value f = f).
Proof.
  intros toLowerCase timeOf f key statusNow ageNow sb K. split.
  - unfold updateFilter.
    unfold keeps in *.
    destruct (passesStatus toLowerCase timeOf f statusNow sb) eqn:PS; [|discriminate].
    destruct (passesLastUpdated timeOf f ageNow sb) eqn:PL; [|discriminate].
    destruct (passesSearch toLowerCase f sb) eqn:PQ; [|discriminate].
    destruct (String.eqb key "status"); [|destruct (String.eqb key "lastUpdated");
      [|destruct (String.eqb key "search")]].
    + unfold passesStatus, passesLastUpdated, passesSearch in *.
      cbn [f_status f_lastUpdated f_search truthy] in *. rewrite PL, PQ. reflexivity.
    + unfold passesStatus, passesLastUpdated, passesSearch in *.
      cbn [f_status f_lastUpdated f_search truthy] in *. rewrite PS, PQ. reflexivity.
    + unfold passesStatus, passesLastUpdated, passesSearch in *.
      cbn [f_status f_lastUpdated f_search truthy] in *. rewrite PS, PL. reflexivity.
    + rewrite PS, PL, PQ. reflexivity.
  - intros N1 N2 N3 value. unfold updateFilter.
    destruct (String.eqb_spec key "status"); [congruence|].
    destruct (String.eqb_spec key "lastUpdated"); [congruence|].
    destruct (String.eqb_spec key "search"); [congruence|]. reflexivity.
Qed.

Lemma clearing_a_filter_hides_nothing_witness :
  keeps (fun s => s) (fun _ => NaN)
    (updateFilter "search" ""
       {| f_status := "idle"; f_lastUpdated := "week"; f_search := "abc" |})
    0 0 Demo.demoInfo = true.
Proof.
  exact (proj1 (clearing_a_filter_hides_nothing (fun s => s) (fun _ => NaN)
                  {| f_status := "idle"; f_lastUpdated := "week"; f_search := "abc" |}
                  "search" 0%Z 0%Z Demo.demoInfo eq_refl)).
Defined.

(** ** The current path of the file browser *)

Lemma splitPath_nonempty (s : string) : splitPath s <> [].
Proof.
  induction s as [|c s IH]; simpl; [discriminate|].
  destruct (Ascii.eqb c "/"); [discriminate|].
  destruct (splitPath s); discriminate.
Qed.

Lemma splitPath_slashfree (name : string) :
  slashes name = 0 -> splitPath name = [name].
Proof.
  induction name as [|c name IH]; simpl; [reflexivity|].
  destruct (Ascii.eqb c "/"); [discriminate|]. simpl. intros H.
  rewrite (IH H). reflexivity.
Qed.

Lemma splitPath_append (a name : string) :
  splitPath (a ++ String "/" name) = splitPath a ++ splitPath name.
Proof.
  induction a as [|c a IH]; simpl; [reflexivity|].
  destruct (Ascii.eqb c "/").
  - rewrite IH. reflexivity.
  - rewrite IH. pose proof (splitPath_nonempty a) as N.
    destruct (splitPath a) as [|seg segs]; [congruence|]. reflexivity.
Qed.

Lemma joinPath_splitPath (s : string) : joinPath (splitPath s) = s.
Proof.
  induction s as [|c s IH]; [reflexivity|]. simpl.
  pose proof (splitPath_nonempty s) as N.
  destruct (Ascii.eqb_spec c "/") as [->|Nc].
  - destruct (splitPath s) as [|seg segs]; [congruence|].
    change (joinPath (EmptyString :: seg :: segs))
      with (String "/" (joinPath (seg :: segs))).
    rewrite IH. reflexivity.
  - destruct (splitPath s) as [|seg segs]; [congruence|].
    destruct segs as [|seg' segs].
    + simpl in *. rewrite IH. reflexivity.
    + change (joinPath (String c seg :: seg' :: segs))
        with (String c (seg ++ String "/" (joinPath (seg' :: segs))))%string.
      change (joinPath (seg :: seg' :: segs))
        with (seg ++ String "/" (joinPath (seg' :: segs)))%string in IH.
      rewrite IH. reflexivity.
Qed.

Lemma splitPath_length (s : string) : length (splitPath s) = S (slashes s).
Proof.
  induction s as [|c s IH]; [reflexivity|]. simpl.
  destruct (Ascii.eqb c "/"); simpl; [rewrite IH; reflexivity|].
  destruct (splitPath s) as [|seg segs]; simpl in *; [discriminate|exact IH].
Qed.

Lemma splitPath_segments (s : string) :
  Forall (fun seg => slashes seg = 0) (splitPath s).
Proof.
  induction s as [|c s IH]; simpl; [repeat constructor|].
  destruct (Ascii.eqb c "/") eqn:E; [constructor; [reflexivity|exact IH]|].
  destruct (splitPath s) as [|seg segs]; [repeat constructor; simpl; rewrite E; reflexivity|].
  inversion IH; subst. constructor; [|assumption]. simpl. rewrite E. assumption.
Qed.

Lemma slashes_append (a b : string) :
  slashes (a ++ b) = slashes a + slashes b.
Proof.
  induction a as [|c a IH]; [reflexivity|]. simpl. rewrite IH. lia.
Qed.

Lemma slashes_joinPath (segments : list string) :
  Forall (fun seg => slashes seg = 0) segments ->
  slashes (joinPath segments) = length segments - 1.
Proof.
  induction segments as [|seg rest IH]; intros F; [reflexivity|].
  inversion F as [|? ? Hs Hr]; subst.
  destruct rest as [|seg' rest]; [simpl; rewrite Hs; reflexivity|].
  change (joinPath (seg :: seg' :: rest))
    with (seg ++ String "/" (joinPath (seg' :: rest)))%string.
  rewrite slashes_append.
  change (slashes (String "/" (joinPath (seg' :: rest))))
    with (S (slashes (joinPath (seg' :: rest)))).
  rewrite (IH Hr), Hs. simpl. lia.
Qed.

Lemma Forall_removelast {A} (Q : A -> Prop) (l : list A) :
  Forall Q l -> Forall Q (removelast l).
Proof.
  induction l as [|a l IH]; intros F; [constructor|].
  inversion F; subst. simpl. destruct l; [constructor|].
  constructor; [assumption|]. apply IH. assumption.
Qed.

Lemma removelast_length {A} (l : list A) : length (removelast l) = length l - 1.
Proof.
  induction l as [|a l IH]; [reflexivity|]. simpl. destruct l; [reflexivity|].
  simpl in *. rewrite IH. lia.
Qed.

(** The parent of a path is the root, or has one slash less. *)
Lemma parentPath_cases (path : string) :
  parentPath path = "/" \/
  (parentPath path <> "" /\ S (slashes (parentPath path)) = slashes path).
Proof.
  unfold parentPath.
  pose proof (slashes_joinPath (removelast (splitPath path))
                (Forall_removelast _ _ (splitPath_segments path))) as S.
  rewrite removelast_length, splitPath_length in S.
  destruct (joinPath (removelast (splitPath path))) as [|c rest] eqn:J; [left; reflexivity|].
  cbn [orElse]. destruct (slashes path) as [|n] eqn:Sp.
  - exfalso. pose proof (splitPath_length path) as L. rewrite Sp in L.
    destruct (splitPath path) as [|seg [|seg' segs]]; try discriminate.
  - right. split; [discriminate|]. rewrite S. simpl. lia.
Qed.

(** X21. Opening an entry and going up again returns to where one was: from
    any directory with a path that is not empty, after navigating to the
    path of one of its entries (a name without a slash), [navigateUp]
    leads back to the directory, with no file selected and no editing. *)
Theorem up_after_entering_returns :
  forall (path name : string) (b : Browser),
    path <> "" ->
    slashes name = 0 ->
    navigateUp (navigateToPath (childPath path name) b) =
    {| currentPath := path; selectedFile := None; isEditingFile := false |}.
Proof.
  intros path name b Np Hn. unfold navigateUp, navigateToPath, childPath.
  cbn [currentPath].
  destruct (String.eqb_spec path "/") as [->|Nr].
  - destruct name as [|c rest]; [reflexivity|].
    destruct (String.eqb_spec (String "/" (String c rest)) "/") as [E|_]; [discriminate|].
    unfold parentPath.
    change (String "/" (String c rest)) with ("" ++ String "/" (String c rest))%string.
    rewrite splitPath_append, (splitPath_slashfree _ Hn). reflexivity.
  - destruct (String.eqb_spec (path ++ String "/" name) "/") as [E|_].
    + exfalso. destruct path as [|c [|c' rest]]; try congruence; discriminate.
    + unfold parentPath.
      rewrite splitPath_append, (splitPath_slashfree _ Hn), removelast_last,
        joinPath_splitPath.
      destruct path; [congruence|reflexivity].
Qed.

Lemma up_after_entering_returns_witness :
  navigateUp
    (navigateToPath (childPath "/project/workspace" "src")
       {| currentPath := "/project/workspace";
          selectedFile := Some "/project/workspace/a.txt";
          isEditingFile := true |}) =
  {| currentPath := "/project/workspace"; selectedFile := None; isEditingFile := false |}.
Proof.
  apply up_after_entering_returns; [discriminate|reflexivity].
Defined.

(** X22. Going up never leaves the browser without a path, and always ends
    at the root: from a path that is not empty [navigateUp] gives a path
    that is not empty, and after more steps up than the path has slashes
    the current path is "/", where [navigateUp] changes nothing. *)
Theorem going_up_ends_at_the_root :
  forall (b : Browser) (n : nat),
    (currentPath b <> "" -> currentPath (navigateUp b) <> "") /\
    (slashes (currentPath b) < n ->
     currentPath (Nat.iter n navigateUp b) = "/") /\
    (currentPath b = "/" -> navigateUp b = b).
Proof.
  intros b n. split; [|split].
  - intros N. unfold navigateUp.
    destruct (String.eqb (currentPath b) "/"); [exact N|]. cbn [currentPath navigateToPath].
    destruct (parentPath_cases (currentPath b)) as [E|[E _]]; [rewrite E; discriminate|exact E].
  - assert (Root : forall m b0, currentPath b0 = "/" ->
                     currentPath (Nat.iter m navigateUp b0) = "/").
    { induction m as [|m IH]; intros b0 H0; [exact H0|].
      rewrite Nat.iter_succ_r. apply IH. unfold navigateUp. rewrite H0. exact H0. }
    revert b. induction n as [|n IH]; intros b H; [lia|].
    rewrite Nat.iter_succ_r.
    destruct (String.eqb_spec (currentPath b) "/") as [E|N].
    + apply Root. unfold navigateUp. rewrite E. exact E.
    + assert (U : currentPath (navigateUp b) = parentPath (currentPath b)).
      { unfold navigateUp. destruct (String.eqb_spec (currentPath b) "/"); [congruence|].
        reflexivity. }
      destruct (parentPath_cases (currentPath b)) as [E|[_ E]].
      * apply Root. rewrite U. exact E.
      * apply IH. rewrite U. lia.
  - intros E. unfold navigateUp. rewrite E. reflexivity.
Qed.

(** ** The rest, run *)

Example key_form_accepts_the_trimmed_key :
  app_apiKey Samples.signedIn = Some "csb_v1_key" /\
  app_apiKey (handleSubmit Samples.registry Samples.trimStart "wrong" Samples.freshApp)
    = None /\
  app_apiError (handleSubmit Samples.registry Samples.trimStart "wrong" Samples.freshApp)
    = Some "Unauthorized" /\
  handleSubmit Samples.registry Samples.trimStart "   " Samples.freshApp = Samples.freshApp.
Proof. repeat split. Qed.

Example untouched_form_sends_no_defaults :
  submittedParams Samples.trimStart initialForm =
  {| cp_title := "SDK Dashboard Sandbox";
     cp_description := "Created with SDK Dashboard";
     cp_privacy := Unlisted;
     cp_id := None;
     cp_tags := None;
     cp_path := None;
     cp_ipcountry := Some "US";
     cp_vmTier := None;
     cp_hibernationTimeoutSeconds := None;
     cp_automaticWakeupConfig := Some {| http := true; websocket := true |} |}.
Proof. reflexivity. Qed.
